(** * Payment routing, tiered platform fee and webhook reconciliation

    A shallow embedding of the three serverless handlers that carry the
    payment logic of the repository:

    - [supabase/functions/create-checkout/index.ts]  (fee calculator,
      account router, checkout orchestrator),
    - [supabase/functions/generate-receipt/index.ts] (receipt generator and
      the signed webhook reconciler that is stored in the same file),
    - [supabase/functions/stripe-connect/index.ts]   (account onboarding),

    and of the handler that sends the payment link as a text message,
    [supabase/functions/send-sms/index.ts], with the message format of the
    client's SMS service.

    JavaScript numbers are IEEE-754 binary64 values; a finite value is
    represented by the rational it denotes and every arithmetic operation
    rounds its exact result to the nearest binary64 value, ties to even.
    The handlers run in a small state-and-exception monad over the database
    tables and the log of calls made to the payment processor.  The answers
    of the processor and of the authentication service, the clock and the
    UUID source are inputs.  A database call fails for the reasons the
    schema gives ([.single()] without exactly one row, a primary or foreign
    key, a column of type integer); an update whose error the handler
    reads and only logs is moreover refused whenever the environment says
    so.  Other outages of the database or of the network between the
    functions are not part of the model. *)

From stdpp Require Import base strings gmap list pretty.
From Stdlib Require Import ZArith QArith Qround Qpower Lia Lqa.
From Corelib Require Import SpecFloat.

Local Open Scope Q_scope.

(** ** JavaScript numbers *)

Module Number.

(** Nearest integer to [y], ties to the even neighbour. *)
Definition round_half_even (y : Q) : Z :=
  let f := Qfloor y in
  match Qcompare (y - inject_Z f) (1 # 2) with
  | Lt => f
  | Gt => (f + 1)%Z
  | Eq => if Z.even f then f else (f + 1)%Z
  end.

(** Rounding of a positive rational to 53 significant bits.  The shift [s]
    brings [x] into [2^52, 2^54); one more halving is needed in the upper
    half of that range.  The exponent range is not bounded: on the values
    the handlers compute (integers of cents, their quotients by 100 and
    their products with the fee rates) binary64 neither overflows nor
    underflows. *)
Definition round_pos (x : Q) : Q :=
  let s := (53 - (Z.log2 (Qnum x) - Z.log2 (Zpos (Qden x))))%Z in
  let y := x * 2 ^ s in
  if Qle_bool (2 ^ 53) y
  then inject_Z (round_half_even (y / 2)) * 2 ^ (1 - s)
  else inject_Z (round_half_even y) * 2 ^ (- s).

Definition binary64 (x : Q) : Q :=
  match Qnum x with
  | Z0 => 0
  | Zpos _ => Qred (round_pos x)
  | Zneg _ => Qred (- round_pos (- x))
  end.

(** A decimal literal of the source text denotes the nearest binary64. *)
Definition literal (x : Q) : Q := binary64 x.

Definition fmul (x y : Q) : Q := binary64 (x * y).
Definition fdiv (x y : Q) : Q := binary64 (x / y).
Definition fadd (x y : Q) : Q := binary64 (x + y).
Definition fsub (x y : Q) : Q := binary64 (x - y).

Definition Qltb (x y : Q) : bool := negb (Qle_bool y x).

(** [Math.round]: nearest integer, ties towards positive infinity. *)
Definition Math_round (x : Q) : Q := inject_Z (Qfloor (x + (1 # 2))).

(** [x.toFixed(2)]: the integer [n] with [n / 100] nearest to [x] (the
    larger one on a tie), printed with two decimals. *)
Definition two_digits (n : Z) : string :=
  if (n <? 10)%Z then "0" +:+ pretty n else pretty n.

Definition toFixed2 (x : Q) : string :=
  let sign := if Qltb x 0 then "-" else "" in
  let ax := if Qltb x 0 then - x else x in
  let n := Qfloor (ax * 100 + (1 # 2)) in
  sign +:+ pretty (n / 100)%Z +:+ "." +:+ two_digits (n mod 100)%Z.

(** [Math.round(amount * rate)] as an integer. *)
Definition percent (a : Z) (c : Q) : Z :=
  Qfloor (fmul (inject_Z a) c + (1 # 2)).

(** The relative rounding error of binary64: [2^-53]. *)
Definition eps : Q := 1 # 9007199254740992.

(** Reading of a finite [spec_float] of the standard library, used to
    check the rounding above against the library's binary64 operations. *)
Definition SF2Q (f : spec_float) : option Q :=
  match f with
  | S754_zero _ => Some 0
  | S754_finite s m e =>
      Some (Qred ((if s then -1 else 1) * inject_Z (Zpos m) * 2 ^ e))
  | _ => None
  end.

Definition SFint (p : positive) : spec_float :=
  SFmul 53 1024 (S754_finite false p 0) (S754_finite false 1 0).

(** Agreement of the rounding above with the library's binary64 product
    and quotient, at the amount [a] and the rate [n / 1000]. *)
Definition agrees_with_SpecFloat (a n : positive) : bool :=
  match SF2Q (SFmul 53 1024 (SFint a) (SFdiv 53 1024 (SFint n) (SFint 1000))),
        SF2Q (SFdiv 53 1024 (SFint a) (SFint 100)) with
  | Some product, Some quotient =>
      Qeq_bool product (fmul (inject_Z (Zpos a)) (literal (Zpos n # 1000)))
      && Qeq_bool quotient (fdiv (inject_Z (Zpos a)) 100)
  | _, _ => false
  end.

End Number.

Import Number.

(** ** Values exchanged with the outside world *)

(** JSON values: the documents the handlers return ([JSON.stringify] of an
    object literal; field order is the order of the literal) and the values
    a handler reads from the body of a request. *)
#[warnings="-register-all"]
Inductive json : Type :=
| JNull
| JBool (b : bool)
| JNum (q : Q)
| JStr (s : string)
| JArr (items : list json)
| JObj (fields : list (string * json)).

Fixpoint assoc (k : string) (fields : list (string * json)) : option json :=
  match fields with
  | [] => None
  | (k', v) :: rest => if String.eqb k k' then Some v else assoc k rest
  end.

Definition field (k : string) (j : json) : option json :=
  match j with
  | JObj fields => assoc k fields
  | _ => None
  end.

Definition has_field (k : string) (j : json) : bool :=
  match field k j with Some _ => true | None => false end.

Definition JOptStr (o : option string) : json :=
  match o with Some s => JStr s | None => JNull end.

Inductive ResponseBody : Type :=
| NoBody
| Text (s : string)
| Json (j : json).

Record Response : Type := mkResponse {
  status : Z;
  body : ResponseBody
}.

Definition json_response (st : Z) (j : json) : Response :=
  {| status := st; body := Json j |}.

Definition body_json (r : Response) : json :=
  match body r with Json j => j | _ => JNull end.

Definition is_client_error (r : Response) : bool :=
  ((400 <=? status r) && (status r <? 500))%Z.

Definition response_ok (r : Response) : bool :=
  ((200 <=? status r) && (status r <? 300))%Z.

(** The value of [success] in a JSON response, when there is one. *)
Definition success_of (r : Response) : option bool :=
  match field "success" (body_json r) with
  | Some (JBool b) => Some b
  | _ => None
  end.

(** Truthiness of a nullable string: [null], [undefined] and [""] are falsy. *)
Definition truthy (o : option string) : bool :=
  match o with
  | Some s => negb (String.eqb s "")
  | None => false
  end.

(** [a || b] on a nullable string. *)
Definition or_else (o : option string) (d : string) : string :=
  match o with
  | Some s => if String.eqb s "" then d else s
  | None => d
  end.

(** A nullable string inside a template literal. *)
Definition render (o : option string) : string :=
  match o with Some s => s | None => "null" end.

(** A call that either yields a value or throws an error with a message. *)
Inductive Result (A : Type) : Type :=
| Ok (a : A)
| Err (message : string).
Arguments Ok {A} a.
Arguments Err {A} message.

(** ** Database rows (columns used by the handlers) *)

Inductive JobStatus : Type := pending | paid | completed | test.

Record Job : Type := mkJob {
  job_id : string;
  job_name : option string;
  client_name : option string;
  price : option Q;                 (* [None]: not a number *)
  company_id : option string;
  job_status : option JobStatus;
  payment_url : option string;
  stripe_checkout_url : option string;
  paid_at : option string;
  receipt_id : option string
}.

Record Profile : Type := mkProfile {
  profile_id : string;
  profile_company_id : option string;
  stripe_account_id : option string;
  stripe_connected : option bool;
  profile_updated_at : option string
}.

Record Receipt : Type := mkReceipt {
  receipt_row_id : string;
  receipt_job_id : string;
  receipt_session_id : string;
  amount_paid : Q;
  receipt_html : string;
  receipt_created_at : string
}.

(** [jobs.id] is a primary key, so the table is a map from ids; the other
    two tables are scanned, so they are lists of rows. *)
Record Database : Type := mkDatabase {
  jobs : gmap string Job;
  profiles : list Profile;
  receipts : list Receipt
}.

(** PostgREST's [.single()]: exactly one row, or an error. *)
Definition PGRST116 : string :=
  "JSON object requested, multiple (or no) rows returned".

Definition single {A : Type} (rows : list A) : Result A :=
  match rows with
  | [row] => Ok row
  | _ => Err PGRST116
  end.

(** ** The payment processor *)

Record StripeAccount : Type := mkAccount {
  account_id : string;
  details_submitted : bool;
  charges_enabled : bool
}.

Record CheckoutSession : Type := mkSession {
  session_id : string;
  session_url : string
}.

Record PaymentIntentData : Type := mkPaymentIntentData {
  application_fee_amount : Q;
  transfer_destination : option string
}.

(** The metadata amounts are rendered with [toString] in the source; the
    numbers themselves are kept here. *)
Record Metadata : Type := mkMetadata {
  md_job_id : string;
  md_client_name : string;
  md_base_price : Q;
  md_platform_fee : Q;
  md_total_price : Q;
  md_company_id : string;
  md_routing_method : string
}.

Record SessionConfig : Type := mkSessionConfig {
  product_name : string;
  product_description : string;
  unit_amount : Q;
  success_url : string;
  cancel_url : string;
  metadata : Metadata;
  payment_intent_data : option PaymentIntentData
}.

Record CompletedSession : Type := mkCompletedSession {
  cs_id : string;
  cs_metadata_job_id : option string;
  cs_amount_total : Q
}.

Record Event : Type := mkEvent {
  event_type : string;
  event_object : CompletedSession
}.

Inductive StripeCall : Type :=
| AccountsRetrieve (id : string)
| AccountsCreate (email : string)
| AccountLinksCreate (account : string)
| CheckoutSessionsCreate (config : SessionConfig) (stripeAccount : option string).

Definition is_session_create (c : StripeCall) : bool :=
  match c with CheckoutSessionsCreate _ _ => true | _ => false end.

Definition session_creations (calls : list StripeCall) : nat :=
  length (List.filter is_session_create calls).

Definition is_link_create (c : StripeCall) : bool :=
  match c with AccountLinksCreate _ => true | _ => false end.

(** The processor's answers are inputs of the model. *)
Record Stripe : Type := mkStripe {
  accounts_retrieve : string -> Result StripeAccount;
  accounts_create : string -> Result StripeAccount;
  accountLinks_create : string -> Result string;
  checkout_sessions_create : SessionConfig -> option string -> Result CheckoutSession;
  webhooks_constructEvent : string -> string -> string -> Result Event
}.

(** The body posted to generate-receipt. *)
Record ReceiptData : Type := mkReceiptData {
  jobId : string;
  sessionId : string;
  amountPaid : Q;
  paymentDate : string
}.

Record User : Type := mkUser {
  user_id : string;
  user_email : option string
}.

(** Everything a handler reads from its environment: the function secrets,
    the processor, the authentication service, the clock, the UUID source
    and the receipt markup: a pure function of the job, the payment data
    and the base, fee and total amounts, dates being rendered in the locale
    of the runtime.  [updateError table id] is the [error] the database
    client returns for an update of the row [id] of [table] where the
    handler reads it as [updateError] and goes on: [None] when the update
    is applied. *)
Record Env : Type := mkEnv {
  STRIPE_SECRET_KEY : option string;
  STRIPE_WEBHOOK_SECRET : option string;
  stripe : Stripe;
  auth_getUser : string -> Result User;
  now : string;
  randomUUID : string;
  receipt_markup : Job -> ReceiptData -> Q -> Q -> Q -> string;
  updateError : string -> string -> option string
}.

(** The same deployment at another instant, drawing another UUID. *)
Definition later (env : Env) (time uuid : string) : Env :=
  {| STRIPE_SECRET_KEY := STRIPE_SECRET_KEY env;
     STRIPE_WEBHOOK_SECRET := STRIPE_WEBHOOK_SECRET env;
     stripe := stripe env;
     auth_getUser := auth_getUser env;
     now := time;
     randomUUID := uuid;
     receipt_markup := receipt_markup env;
     updateError := updateError env |}.

(** ** The handler monad *)

Record World : Type := mkWorld {
  db : Database;
  stripe_log : list StripeCall
}.

Inductive Outcome (A : Type) : Type :=
| Value (a : A)
| Returned (r : Response)
| Thrown (message : string).
Arguments Value {A} a.
Arguments Returned {A} r.
Arguments Thrown {A} message.

Definition Handler (A : Type) : Type := World -> Outcome A * World.

Definition ret {A} (a : A) : Handler A := fun w => (Value a, w).

Definition bind {A B} (m : Handler A) (k : A -> Handler B) : Handler B :=
  fun w =>
    match m w with
    | (Value a, w') => k a w'
    | (Returned r, w') => (Returned r, w')
    | (Thrown e, w') => (Thrown e, w')
    end.

Notation "x <- m ;; k" := (bind m (fun x => k))
  (at level 100, m at next level, right associativity).
Notation "m ;;; k" := (bind m (fun _ => k))
  (at level 100, right associativity).

(** [return new Response(...)] *)
Definition respond {A} (r : Response) : Handler A := fun w => (Returned r, w).

(** [throw new Error(message)] *)
Definition throw {A} (message : string) : Handler A := fun w => (Thrown message, w).

(** [try { m } catch (e) { h e }] *)
Definition try_catch {A} (m : Handler A) (h : string -> Handler A) : Handler A :=
  fun w =>
    match m w with
    | (Thrown e, w') => h e w'
    | other => other
    end.

Definition read_db : Handler Database := fun w => (Value (db w), w).

Definition write_db (f : Database -> Database) : Handler unit :=
  fun w => (Value tt, {| db := f (db w); stripe_log := stripe_log w |}).

(** [const { error } = await ... .update(...)]: a refused update writes
    nothing and hands its error to the handler. *)
Definition update_db (error : option string) (f : Database -> Database)
    : Handler (option string) :=
  fun w =>
    match error with
    | Some e => (Value (Some e), w)
    | None => (Value None, {| db := f (db w); stripe_log := stripe_log w |})
    end.

(** A call to the processor is logged, then answers or throws. *)
Definition call_stripe {A} (c : StripeCall) (answer : Result A) : Handler A :=
  fun w =>
    let w' := {| db := db w; stripe_log := stripe_log w ++ [c] |} in
    match answer with
    | Ok a => (Value a, w')
    | Err e => (Thrown e, w')
    end.

(** The response of a handler whose body is [m].  An exception that escapes
    the handler is answered by the runtime with a plain 500. *)
Definition serve (m : Handler Response) (w : World) : Response * World :=
  match m w with
  | (Value r, w') => (r, w')
  | (Returned r, w') => (r, w')
  | (Thrown _, w') => ({| status := 500; body := Text "Internal Server Error" |}, w')
  end.

(** ** create-checkout *)

Module CreateCheckout.

(** Platform account ID to avoid self-transfer *)
Definition PLATFORM_STRIPE_ACCOUNT_ID : string := "acct_1RWAfbLgPKVoUe8t".

(** Tiered platform fee, on an amount in cents. *)
Definition calculatePlatformFee (amountInCents : Q) : Q :=
  let amountInDollars := fdiv amountInCents 100 in
  if Qltb amountInDollars 100 then
    (* Under $100: 4.9% + $0.30 *)
    fadd (Math_round (fmul amountInCents (literal (49 # 1000)))) 30
  else if Qltb amountInDollars 500 then
    (* $100-$499: 3.9% + $0.30 *)
    fadd (Math_round (fmul amountInCents (literal (39 # 1000)))) 30
  else if Qltb amountInDollars 1000 then
    (* $500-$999: 2.9% + $0.30 *)
    fadd (Math_round (fmul amountInCents (literal (29 # 1000)))) 30
  else if Qltb amountInDollars 2500 then
    (* $1,000-$2,499: 1.9% + $0.30 *)
    fadd (Math_round (fmul amountInCents (literal (19 # 1000)))) 30
  else
    (* $2,500+: 1.5% flat (no fixed fee) *)
    Math_round (fmul amountInCents (literal (15 # 1000))).

(** What [await req.json()] and the destructuring [{ jobId }] can see. *)
Inductive RequestBody : Type :=
| Malformed
| NullBody
| Object (job_id_field : option string).

Record Request : Type := mkRequest {
  method : string;
  origin : option string;
  request_body : RequestBody
}.

Definition failure (message : string) : Response :=
  json_response 200 (JObj [("success", JBool false); ("error", JStr message)]).

(** The response of the outermost [catch]. *)
Definition reported_failure (error : string) : Response :=
  json_response 200 (JObj [
    ("success", JBool false);
    ("error", JStr (or_else (Some error) "Internal server error"));
    ("details", JStr "Check the function logs for more information")]).

(** Safe price handling: [parseFloat], the NaN and sign test, then the
    conversion to cents. *)
Definition basePriceInCents (job : Job) : option Q :=
  match price job with
  | None => None
  | Some p =>
      let jobPrice := literal p in
      if Qle_bool jobPrice 0 then None
      else Some (Math_round (fmul jobPrice 100))
  end.

Record Routing : Type := mkRouting {
  useStripeConnect : bool;
  connectedStripeAccountId : option string;
  connectedAccountChargesEnabled : bool
}.

Definition platform_routing : Routing :=
  {| useStripeConnect := false;
     connectedStripeAccountId := None;
     connectedAccountChargesEnabled := false |}.

Definition connected_profile (company : option string) (p : Profile) : bool :=
  match company, profile_company_id p, stripe_connected p with
  | Some c, Some c', Some true => String.eqb c c'
  | _, _, _ => false
  end.

(** Determine if we should use Stripe Connect. *)
Definition determine_routing (env : Env) (job : Job) : Handler Routing :=
  if truthy (company_id job) then
    d <- read_db ;;
    match single (List.filter (connected_profile (company_id job)) (profiles d)) with
    | Err _ => ret platform_routing
    | Ok companyProfile =>
        if truthy (stripe_account_id companyProfile) then
          let acct := stripe_account_id companyProfile in
          let found := {| useStripeConnect := false;
                          connectedStripeAccountId := acct;
                          connectedAccountChargesEnabled := false |} in
          if negb (String.eqb (render acct) PLATFORM_STRIPE_ACCOUNT_ID) then
            try_catch
              (account <- call_stripe (AccountsRetrieve (render acct))
                            (accounts_retrieve (stripe env) (render acct)) ;;
               if charges_enabled account then
                 ret {| useStripeConnect := true;
                        connectedStripeAccountId := acct;
                        connectedAccountChargesEnabled := true |}
               else ret found)
              (fun accountError => ret found)
          else ret found
        else ret platform_routing
    end
  else ret platform_routing.

(** The outcome of the routing decision is platform routing. *)
Definition routes_to_platform (out : Outcome Routing * World) : Prop :=
  match fst out with
  | Value r => useStripeConnect r = false
  | _ => False
  end.

Definition routing_method (r : Routing) : string :=
  if useStripeConnect r then "stripe_connect_updated_tiers" else "platform_only".

(** The checkout session configuration, with the payment intent data of
    the Connect model attached under the guard of the source. *)
Definition sessionConfig (req : Request) (jobId : string) (job : Job)
    (base platformFee total : Q) (r : Routing) : SessionConfig :=
  {| product_name := or_else (job_name job) "Service";
     product_description := "Service for " +:+ or_else (client_name job) "Client";
     unit_amount := total;
     success_url :=
       render (origin req) +:+ "/payment-success?session_id={CHECKOUT_SESSION_ID}";
     cancel_url := render (origin req) +:+ "/";
     metadata :=
       {| md_job_id := jobId;
          md_client_name := or_else (client_name job) "Unknown Client";
          md_base_price := fdiv base 100;
          md_platform_fee := fdiv platformFee 100;
          md_total_price := fdiv total 100;
          md_company_id := or_else (company_id job) "";
          md_routing_method := routing_method r |};
     payment_intent_data :=
       if useStripeConnect r && Qltb 0 platformFee then
         Some {| application_fee_amount := platformFee;
                 transfer_destination := connectedStripeAccountId r |}
       else None |}.

(** [delete fallbackConfig.payment_intent_data] on a copy. *)
Definition fallbackConfig (config : SessionConfig) : SessionConfig :=
  {| product_name := product_name config;
     product_description := product_description config;
     unit_amount := unit_amount config;
     success_url := success_url config;
     cancel_url := cancel_url config;
     metadata := metadata config;
     payment_intent_data := None |}.

(** [((platformFee / basePriceInCents) * 100).toFixed(2) + '%'] *)
Definition fee_percentage (base platformFee : Q) : string :=
  if Qeq_bool base 0 then "Infinity%"
  else toFixed2 (fmul (fdiv platformFee base) 100) +:+ "%".

Definition success_response (session : CheckoutSession)
    (base platformFee total : Q) (r : Routing) : Response :=
  json_response 200 (JObj [
    ("success", JBool true);
    ("url", JStr (session_url session));
    ("sessionId", JStr (session_id session));
    ("pricing_info", JObj [
       ("base_price", JNum (fdiv base 100));
       ("platform_fee", JNum (fdiv platformFee 100));
       ("total_customer_pays", JNum (fdiv total 100));
       ("fee_percentage", JStr (fee_percentage base platformFee));
       ("connect_used", JBool (useStripeConnect r))]);
    ("routing_info", JObj [
       ("method", JStr (routing_method r));
       ("destination_account",
          if useStripeConnect r then JOptStr (connectedStripeAccountId r)
          else JStr "platform");
       ("fee_amount_cents", JNum platformFee);
       ("base_amount_cents", JNum base);
       ("charges_enabled", JBool (connectedAccountChargesEnabled r))])]).

Definition fallback_response (fallbackSession : CheckoutSession) : Response :=
  json_response 200 (JObj [
    ("success", JBool true);
    ("url", JStr (session_url fallbackSession));
    ("sessionId", JStr (session_id fallbackSession));
    ("warning", JStr "Routed to platform account due to Stripe Connect issue")]).

Definition set_payment_url (jobId url : string) (d : Database) : Database :=
  {| jobs := alter (fun j =>
               {| job_id := job_id j; job_name := job_name j;
                  client_name := client_name j; price := price j;
                  company_id := company_id j; job_status := job_status j;
                  payment_url := Some url; stripe_checkout_url := Some url;
                  paid_at := paid_at j; receipt_id := receipt_id j |})
             jobId (jobs d);
     profiles := profiles d;
     receipts := receipts d |}.

(** Creation of the session, the update of the job and the response, with
    the platform-only fallback of the [catch] branch. *)
Definition create_session (env : Env) (jobId : string)
    (base platformFee total : Q) (r : Routing) (config : SessionConfig)
    : Handler Response :=
  try_catch
    (session <-
       (if useStripeConnect r && truthy (connectedStripeAccountId r) then
          call_stripe (CheckoutSessionsCreate config (connectedStripeAccountId r))
            (checkout_sessions_create (stripe env) config (connectedStripeAccountId r))
        else
          call_stripe (CheckoutSessionsCreate config None)
            (checkout_sessions_create (stripe env) config None)) ;;
     (* Update job with payment URL; continuing despite an update error *)
     update_db (updateError env "jobs" jobId)
       (set_payment_url jobId (session_url session)) ;;;
     respond (success_response session base platformFee total r))
    (fun stripeError =>
       if useStripeConnect r then
         fallbackSession <-
           call_stripe (CheckoutSessionsCreate (fallbackConfig config) None)
             (checkout_sessions_create (stripe env) (fallbackConfig config) None) ;;
         respond (fallback_response fallbackSession)
       else throw stripeError).

Definition handler (env : Env) (req : Request) : Handler Response :=
  if String.eqb (method req) "OPTIONS" then
    respond {| status := 200; body := NoBody |}
  else
    try_catch
      (if negb (truthy (STRIPE_SECRET_KEY env)) then
         respond (json_response 200 (JObj [
           ("success", JBool false);
           ("error", JStr "Stripe configuration missing. Please add your Stripe secret key to edge function secrets.");
           ("details", JStr "Go to Supabase Dashboard → Edge Functions → Settings and add STRIPE_SECRET_KEY")]))
       else
       match request_body req with
       | Malformed => respond (failure "Invalid request body - must be valid JSON")
       | NullBody =>
           throw "Cannot destructure property 'jobId' of 'requestBody' as it is null."
       | Object jobId_opt =>
           if negb (truthy jobId_opt) then respond (failure "Job ID is required")
           else
           let jobId := render jobId_opt in
           d <- read_db ;;
           match jobs d !! jobId with
           | None => respond (failure ("Failed to fetch job: " +:+ PGRST116))
           | Some job =>
               match basePriceInCents job with
               | None => respond (failure "Invalid or missing price in job data")
               | Some base =>
                   let platformFee := calculatePlatformFee base in
                   let totalPriceInCents := fadd base platformFee in
                   if Qltb totalPriceInCents 50 then
                     respond (failure "Job price too low for payment processing (minimum $0.50 total including fee)")
                   else
                     r <- determine_routing env job ;;
                     create_session env jobId base platformFee totalPriceInCents r
                       (sessionConfig req jobId job base platformFee totalPriceInCents r)
               end
           end
       end)
      (fun error => ret (reported_failure error)).

Definition create_checkout (env : Env) (req : Request) (w : World)
    : Response * World :=
  serve (handler env req) w.

End CreateCheckout.

(** ** generate-receipt *)

Module GenerateReceipt.

Record Request : Type := mkRequest {
  method : string;
  request_body : option ReceiptData     (* [None]: the body is not JSON *)
}.

(** The fee shown on the receipt is back-calculated from the amount paid
    and the price stored on the job.  [baseAmount.toFixed] throws on a
    price that is not a number. *)
Definition generateReceiptHTML (env : Env) (job : Job) (receiptData : ReceiptData)
    : Result string :=
  let totalAmount := fdiv (amountPaid receiptData) 100 in
  match price job with
  | None => Err "Cannot read properties of null (reading 'toFixed')"
  | Some p =>
      let baseAmount := literal p in
      let platformFee := fsub totalAmount baseAmount in
      Ok (receipt_markup env job receiptData baseAmount platformFee totalAmount)
  end.

Definition has_receipt (id : string) (d : Database) : bool :=
  existsb (fun r => String.eqb (receipt_row_id r) id) (receipts d).

(** A value the column [amount_paid integer NOT NULL] accepts: a whole
    number of 32 bits. *)
Definition int4 (q : Q) : bool :=
  Pos.eqb (Qden (Qred q)) 1
  && (-2147483648 <=? Qnum (Qred q))%Z && (Qnum (Qred q) <=? 2147483647)%Z.

(** [insert] into [receipts]; [id] is the primary key of the table and
    [amount_paid] an integer column, and the error of a rejected insert is
    only logged. *)
Definition insert_receipt (row : Receipt) (d : Database) : Database :=
  if has_receipt (receipt_row_id row) d || negb (int4 (amount_paid row)) then d
  else {| jobs := jobs d; profiles := profiles d; receipts := receipts d ++ [row] |}.

(** [update jobs set receipt_id]; the column references [receipts(id)]. *)
Definition set_receipt_id (job : string) (receiptId : string) (d : Database) : Database :=
  if has_receipt receiptId d then
    {| jobs := alter (fun j =>
                 {| job_id := job_id j; job_name := job_name j;
                    client_name := client_name j; price := price j;
                    company_id := company_id j; job_status := job_status j;
                    payment_url := payment_url j;
                    stripe_checkout_url := stripe_checkout_url j;
                    paid_at := paid_at j; receipt_id := Some receiptId |})
               job (jobs d);
       profiles := profiles d;
       receipts := receipts d |}
  else d.

Definition handler (env : Env) (req : Request) : Handler Response :=
  if String.eqb (method req) "OPTIONS" then
    respond {| status := 200; body := NoBody |}
  else
    try_catch
      (match request_body req with
       | None => throw "Unexpected end of JSON input"
       | Some receiptData =>
           d <- read_db ;;
           match jobs d !! jobId receiptData with
           | None => throw "Job not found"
           | Some job =>
               match generateReceiptHTML env job receiptData with
               | Err e => throw e
               | Ok receiptHTML =>
                   let receiptId := randomUUID env in
                   write_db (insert_receipt
                     {| receipt_row_id := receiptId;
                        receipt_job_id := jobId receiptData;
                        receipt_session_id := sessionId receiptData;
                        amount_paid := amountPaid receiptData;
                        receipt_html := receiptHTML;
                        receipt_created_at := now env |}) ;;;
                   write_db (set_receipt_id (jobId receiptData) receiptId) ;;;
                   ret (json_response 200 (JObj [
                     ("success", JBool true);
                     ("receiptId", JStr receiptId);
                     ("message", JStr "Receipt generated successfully")]))
               end
           end
       end)
      (fun error => ret (json_response 500 (JObj [("error", JStr error)]))).

Definition generate_receipt (env : Env) (req : Request) (w : World)
    : Response * World :=
  serve (handler env req) w.

End GenerateReceipt.

(** ** The webhook reconciler *)

Module StripeWebhook.

Record Request : Type := mkRequest {
  method : string;
  stripe_signature : option string;
  raw_body : string
}.

Definition mark_paid (job : string) (at_time : string) (d : Database) : Database :=
  {| jobs := alter (fun j =>
               {| job_id := job_id j; job_name := job_name j;
                  client_name := client_name j; price := price j;
                  company_id := company_id j; job_status := Some paid;
                  payment_url := payment_url j;
                  stripe_checkout_url := stripe_checkout_url j;
                  paid_at := Some at_time; receipt_id := receipt_id j |})
             job (jobs d);
     profiles := profiles d;
     receipts := receipts d |}.

(** [fetch] of the generate-receipt function: the function runs on the
    same tables, at the instant of the delivery; its response is only
    logged. *)
Definition trigger_receipt (env : Env) (receiptData : ReceiptData) : Handler unit :=
  fun w =>
    let '(receiptResponse, w') :=
      GenerateReceipt.generate_receipt env
        {| GenerateReceipt.method := "POST";
           GenerateReceipt.request_body := Some receiptData |} w in
    (Value tt, w').

Definition received : Response :=
  json_response 200 (JObj [("received", JBool true)]).

Definition handler (env : Env) (req : Request) : Handler Response :=
  if String.eqb (method req) "OPTIONS" then
    respond {| status := 200; body := NoBody |}
  else
    try_catch
      (if negb (truthy (stripe_signature req)) then
         throw "No Stripe signature found"
       else if negb (truthy (STRIPE_SECRET_KEY env))
               || negb (truthy (STRIPE_WEBHOOK_SECRET env)) then
         throw "Missing Stripe configuration"
       else
         (* Verify webhook signature *)
         match webhooks_constructEvent (stripe env) (raw_body req)
                 (render (stripe_signature req))
                 (render (STRIPE_WEBHOOK_SECRET env)) with
         | Err _ =>
             respond {| status := 400;
                        body := Text "Webhook signature verification failed" |}
         | Ok event =>
             (if String.eqb (event_type event) "checkout.session.completed" then
                let session := event_object event in
                if negb (truthy (cs_metadata_job_id session)) then
                  respond {| status := 400; body := Text "No job_id in metadata" |}
                else
                  let job := render (cs_metadata_job_id session) in
                  d <- read_db ;;
                  match jobs d !! job with
                  | None => throw "Failed to update job status"
                  | Some _ =>
                      (* Update job status to paid and set paid_at timestamp *)
                      write_db (mark_paid job (now env)) ;;;
                      (* Trigger receipt generation *)
                      trigger_receipt env
                        {| jobId := job;
                           sessionId := cs_id session;
                           amountPaid := cs_amount_total session;
                           paymentDate := now env |}
                  end
              else ret tt) ;;;
             ret received
         end)
      (fun error => ret (json_response 500 (JObj [("error", JStr error)]))).

Definition stripe_webhook (env : Env) (req : Request) (w : World)
    : Response * World :=
  serve (handler env req) w.

(** Number of receipts stored for a processor session. *)
Definition receipts_for (session : string) (d : Database) : nat :=
  length (List.filter (fun r => String.eqb (receipt_session_id r) session) (receipts d)).

Definition status_of (job : string) (d : Database) : option JobStatus :=
  match jobs d !! job with
  | Some j => job_status j
  | None => None
  end.

Definition job_field {A : Type} (f : Job -> option A) (job : string) (d : Database)
    : option A :=
  match jobs d !! job with
  | Some j => f j
  | None => None
  end.

End StripeWebhook.

(** ** stripe-connect: account onboarding *)

Module StripeConnect.

Record Request : Type := mkRequest {
  method : string;
  authorization : option string
}.

(** [s.replace(pattern, replacement)] with a string pattern: the first
    occurrence only. *)
Fixpoint replace (pattern replacement s : string) : string :=
  if String.prefix pattern s then
    replacement +:+
    String.substring (String.length pattern)
      (String.length s - String.length pattern) s
  else
    match s with
    | EmptyString => EmptyString
    | String c rest => String c (replace pattern replacement rest)
    end.

Definition dashboard_url : string := "https://preview--bleu-smart-flow.lovable.app/".

Definition unauthorized (message : string) : Response :=
  json_response 401 (JObj [("success", JBool false); ("error", JStr message)]).

Definition configuration_missing : Response :=
  json_response 500 (JObj [
    ("success", JBool false); ("error", JStr "Stripe configuration missing")]).

Definition already_connected_response : Response :=
  json_response 200 (JObj [
    ("success", JBool true);
    ("url", JStr dashboard_url);
    ("already_connected", JBool true)]).

Definition update_profile (user : string) (f : Profile -> Profile) (d : Database)
    : Database :=
  {| jobs := jobs d;
     profiles := map (fun p => if String.eqb (profile_id p) user then f p else p)
                     (profiles d);
     receipts := receipts d |}.

Definition set_connected (isConnected : bool) (at_time : string) (p : Profile) : Profile :=
  {| profile_id := profile_id p;
     profile_company_id := profile_company_id p;
     stripe_account_id := stripe_account_id p;
     stripe_connected := Some isConnected;
     profile_updated_at := Some at_time |}.

Definition set_account (account : string) (at_time : string) (p : Profile) : Profile :=
  {| profile_id := profile_id p;
     profile_company_id := profile_company_id p;
     stripe_account_id := Some account;
     stripe_connected := stripe_connected p;
     profile_updated_at := Some at_time |}.

Definition same_flag (isConnected : bool) (stored : option bool) : bool :=
  match stored with
  | Some b => Bool.eqb isConnected b
  | None => false
  end.

(** If the user already has a Stripe account, check its status with the
    Stripe API; an error of the processor is only logged. *)
Definition check_existing (env : Env) (user : User) (profile : Result Profile)
    : Handler unit :=
  match profile with
  | Err _ => ret tt
  | Ok p =>
      if truthy (stripe_account_id p) then
        if negb (truthy (STRIPE_SECRET_KEY env)) then respond configuration_missing
        else
          try_catch
            (account <- call_stripe (AccountsRetrieve (render (stripe_account_id p)))
                          (accounts_retrieve (stripe env) (render (stripe_account_id p))) ;;
             (* Update the profile based on Stripe status *)
             let isConnected := details_submitted account && charges_enabled account in
             (if negb (same_flag isConnected (stripe_connected p)) then
                (* an update error is only logged *)
                update_db (updateError env "profiles" (user_id user))
                  (update_profile (user_id user) (set_connected isConnected (now env))) ;;;
                ret tt
              else ret tt) ;;;
             if isConnected then respond already_connected_response else ret tt)
            (fun stripeError => ret tt)
      else ret tt
  end.

Definition handler (env : Env) (req : Request) : Handler Response :=
  if String.eqb (method req) "OPTIONS" then
    respond {| status := 200; body := NoBody |}
  else
    try_catch
      (if negb (truthy (authorization req)) then
         respond (unauthorized "No authorization header provided")
       else
         let token := replace "Bearer " "" (render (authorization req)) in
         match auth_getUser env token with
         | Err _ => respond (unauthorized "User not authenticated")
         | Ok user =>
             if negb (truthy (user_email user)) then
               respond (unauthorized "User not authenticated")
             else
               (* Check if user already has Stripe connected *)
               d <- read_db ;;
               let profile :=
                 single (List.filter (fun p => String.eqb (profile_id p) (user_id user))
                                     (profiles d)) in
               check_existing env user profile ;;;
               if negb (truthy (STRIPE_SECRET_KEY env)) then respond configuration_missing
               else
                 let stored := match profile with
                               | Ok p => stripe_account_id p
                               | Err _ => None
                               end in
                 (* Create Stripe Connect account if it doesn't exist *)
                 accountId <-
                   (if negb (truthy stored) then
                      account <- call_stripe (AccountsCreate (render (user_email user)))
                                   (accounts_create (stripe env) (render (user_email user))) ;;
                      (* Don't fail the whole process for an update error *)
                      update_db (updateError env "profiles" (user_id user))
                        (update_profile (user_id user)
                           (set_account (account_id account) (now env))) ;;;
                      ret (account_id account)
                    else ret (render stored)) ;;
                 (* Create account link for onboarding with fixed URLs *)
                 accountLink <- call_stripe (AccountLinksCreate accountId)
                                  (accountLinks_create (stripe env) accountId) ;;
                 ret (json_response 200 (JObj [
                   ("success", JBool true);
                   ("url", JStr accountLink);
                   ("account_id", JStr accountId)]))
         end)
      (fun error =>
         ret (json_response 500 (JObj [
           ("success", JBool false);
           ("error", JStr (or_else (Some error) "An unexpected error occurred"))]))).

Definition stripe_connect (env : Env) (req : Request) (w : World)
    : Response * World :=
  serve (handler env req) w.

End StripeConnect.

(** ** Sample data *)

Module Sample.

Definition job1 : Job :=
  {| job_id := "job-1"; job_name := Some "Lawn care"; client_name := Some "Ada";
     price := Some (4999 # 100); company_id := Some "co-1";
     job_status := Some pending; payment_url := None;
     stripe_checkout_url := None; paid_at := None; receipt_id := None |}.

(** A job of one cent, without a company. *)
Definition job2 : Job :=
  {| job_id := "job-2"; job_name := Some "Sticker"; client_name := None;
     price := Some (1 # 100); company_id := None;
     job_status := Some pending; payment_url := None;
     stripe_checkout_url := None; paid_at := None; receipt_id := None |}.

Definition owner : Profile :=
  {| profile_id := "user-1"; profile_company_id := Some "co-1";
     stripe_account_id := Some "acct_owner"; stripe_connected := Some true;
     profile_updated_at := None |}.

(** A profile of the same company that stores no account, although its
    cached flag says connected. *)
Definition newcomer : Profile :=
  {| profile_id := "user-2"; profile_company_id := Some "co-1";
     stripe_account_id := None; stripe_connected := Some true;
     profile_updated_at := None |}.

(** A profile whose stored account the processor does not know. *)
Definition stale : Profile :=
  {| profile_id := "user-3"; profile_company_id := Some "co-1";
     stripe_account_id := Some "acct_gone"; stripe_connected := Some true;
     profile_updated_at := None |}.

Definition database : Database :=
  {| jobs := <["job-1" := job1]> (<["job-2" := job2]> ∅);
     profiles := [owner];
     receipts := [] |}.

Definition world : World := {| db := database; stripe_log := [] |}.

Definition world_of (p : Profile) : World :=
  {| db := {| jobs := jobs database; profiles := [p]; receipts := [] |};
     stripe_log := [] |}.

Definition completed : Event :=
  {| event_type := "checkout.session.completed";
     event_object := {| cs_id := "cs_1"; cs_metadata_job_id := Some "job-1";
                        cs_amount_total := 5274 |} |}.

(** The synchronous [stripe.webhooks.constructEvent] needs a synchronous
    HMAC, which the runtime of the functions does not provide: there the
    call throws for every payload, signature and secret. *)
Definition constructEvent_unavailable (payload signature secret : string)
    : Result Event :=
  Err "SubtleCryptoProvider cannot be used in a synchronous context.".

(** A processor on which the account [acct_owner] answers with the given
    flags, session creation in the context of a connected account fails when
    [connect_up] is false, and the verification of a webhook event throws, as
    it does in the runtime of the functions. *)
Definition processor (details charges connect_up : bool) : Stripe :=
  {| accounts_retrieve := fun id =>
       if String.eqb id "acct_owner"
       then Ok {| account_id := id; details_submitted := details;
                  charges_enabled := charges |}
       else Err "No such account";
     accounts_create := fun email =>
       Ok {| account_id := "acct_new"; details_submitted := false;
             charges_enabled := false |};
     accountLinks_create := fun account => Ok "https://connect.example/onboard";
     checkout_sessions_create := fun config stripeAccount =>
       match stripeAccount with
       | Some _ =>
           if connect_up
           then Ok {| session_id := "cs_connect"; session_url := "https://pay.example/c" |}
           else Err "No such destination"
       | None => Ok {| session_id := "cs_platform"; session_url := "https://pay.example/p" |}
       end;
     webhooks_constructEvent := constructEvent_unavailable |}.

(** The same processor with a library build whose synchronous verification
    works: only the signature ["good"] verifies. *)
Definition verifying (details charges connect_up : bool) : Stripe :=
  {| accounts_retrieve := accounts_retrieve (processor details charges connect_up);
     accounts_create := accounts_create (processor details charges connect_up);
     accountLinks_create := accountLinks_create (processor details charges connect_up);
     checkout_sessions_create :=
       checkout_sessions_create (processor details charges connect_up);
     webhooks_constructEvent := fun payload signature secret =>
       if String.eqb signature "good" then Ok completed
       else Err "No signatures found matching the expected signature for payload" |}.

(** A processor on which no checkout session can be created. *)
Definition outage : Stripe :=
  {| accounts_retrieve := accounts_retrieve (processor true true true);
     accounts_create := accounts_create (processor true true true);
     accountLinks_create := accountLinks_create (processor true true true);
     checkout_sessions_create := fun config stripeAccount => Err "api_connection_error";
     webhooks_constructEvent := webhooks_constructEvent (processor true true true) |}.

Definition environment (api : Stripe) (time uuid : string) : Env :=
  {| STRIPE_SECRET_KEY := Some "sk_test";
     STRIPE_WEBHOOK_SECRET := Some "whsec_test";
     stripe := api;
     auth_getUser := fun token =>
       if String.eqb token "token-1"
       then Ok {| user_id := "user-1"; user_email := Some "owner@example.com" |}
       else Err "invalid JWT";
     now := time;
     randomUUID := uuid;
     receipt_markup := fun job data base fee total => "<html>receipt</html>";
     updateError := fun table id => None |}.

(** The same deployment with a database that refuses every update. *)
Definition refusing (env : Env) : Env :=
  {| STRIPE_SECRET_KEY := STRIPE_SECRET_KEY env;
     STRIPE_WEBHOOK_SECRET := STRIPE_WEBHOOK_SECRET env;
     stripe := stripe env;
     auth_getUser := auth_getUser env;
     now := now env;
     randomUUID := randomUUID env;
     receipt_markup := receipt_markup env;
     updateError := fun table id => Some "permission denied" |}.

Definition checkout_request (job : string) : CreateCheckout.Request :=
  {| CreateCheckout.method := "POST";
     CreateCheckout.origin := Some "https://app.example";
     CreateCheckout.request_body := CreateCheckout.Object (Some job) |}.

Definition webhook_request (signature : string) : StripeWebhook.Request :=
  {| StripeWebhook.method := "POST";
     StripeWebhook.stripe_signature := Some signature;
     StripeWebhook.raw_body := "{}" |}.

Definition connect_request : StripeConnect.Request :=
  {| StripeConnect.method := "POST";
     StripeConnect.authorization := Some "Bearer token-1" |}.

End Sample.

(** ** The fee schedule in integer arithmetic *)

Module Schedule.

(** The rate, in thousandths, and the fixed component, in cents, that the
    comments of [calculatePlatformFee] give for an amount in cents. *)
Definition rate (amountInCents : Z) : Z :=
  if (amountInCents <? 10000)%Z then 49
  else if (amountInCents <? 50000)%Z then 39
  else if (amountInCents <? 100000)%Z then 29
  else if (amountInCents <? 250000)%Z then 19
  else 15.

Definition fixed (amountInCents : Z) : Z :=
  if (amountInCents <? 250000)%Z then 30 else 0.

(** The percentage rounded half up to a whole cent, plus the fixed part. *)
Definition fee_cents (amountInCents : Z) : Z :=
  ((rate amountInCents * amountInCents + 500) / 1000 + fixed amountInCents)%Z.

(** The percentage falls exactly between two cents. *)
Definition half_cent (amountInCents : Z) : bool :=
  ((rate amountInCents * amountInCents) mod 1000 =? 500)%Z.

End Schedule.

(** ** Views of a job and of the call log *)

(** A job without its two payment link columns. *)
Definition forget_links (j : Job) : Job :=
  {| job_id := job_id j; job_name := job_name j; client_name := client_name j;
     price := price j; company_id := company_id j; job_status := job_status j;
     payment_url := None; stripe_checkout_url := None;
     paid_at := paid_at j; receipt_id := receipt_id j |}.

(** A job with both payment link columns set to [url]. *)
Definition with_links (url : string) (j : Job) : Job :=
  {| job_id := job_id j; job_name := job_name j; client_name := client_name j;
     price := price j; company_id := company_id j; job_status := job_status j;
     payment_url := Some url; stripe_checkout_url := Some url;
     paid_at := paid_at j; receipt_id := receipt_id j |}.

Definition is_account_create (c : StripeCall) : bool :=
  match c with AccountsCreate _ => true | _ => false end.

Definition is_account_retrieve (c : StripeCall) : bool :=
  match c with AccountsRetrieve _ => true | _ => false end.

(** A job without the three columns the webhook and the receipt generator
    write: status, paid timestamp and receipt reference. *)
Definition forget_payment (j : Job) : Job :=
  {| job_id := job_id j; job_name := job_name j; client_name := client_name j;
     price := price j; company_id := company_id j; job_status := None;
     payment_url := payment_url j; stripe_checkout_url := stripe_checkout_url j;
     paid_at := None; receipt_id := None |}.

(** A job without its receipt reference. *)
Definition forget_receipt (j : Job) : Job :=
  {| job_id := job_id j; job_name := job_name j; client_name := client_name j;
     price := price j; company_id := company_id j; job_status := job_status j;
     payment_url := payment_url j; stripe_checkout_url := stripe_checkout_url j;
     paid_at := paid_at j; receipt_id := None |}.

(** The request the webhook posts to generate-receipt for an event. *)
Definition receipt_request (env : Env) (event : Event) : GenerateReceipt.Request :=
  {| GenerateReceipt.method := "POST";
     GenerateReceipt.request_body :=
       Some {| jobId := render (cs_metadata_job_id (event_object event));
               sessionId := cs_id (event_object event);
               amountPaid := cs_amount_total (event_object event);
               paymentDate := now env |} |}.

(** The receipt row stored for a posted payment. *)
Definition receipt_row (env : Env) (data : ReceiptData) (html : string) : Receipt :=
  {| receipt_row_id := randomUUID env;
     receipt_job_id := jobId data;
     receipt_session_id := sessionId data;
     amount_paid := amountPaid data;
     receipt_html := html;
     receipt_created_at := now env |}.

(** ** send-sms: text messages through Twilio, Vonage or the console *)

Module SendSms.

(** Truthiness of a value read from a JSON body; [None] is [undefined]. *)
Definition truthy_value (v : option json) : bool :=
  match v with
  | None => false
  | Some JNull => false
  | Some (JBool b) => b
  | Some (JNum q) => negb (Qeq_bool q 0)
  | Some (JStr s) => negb (String.eqb s "")
  | Some (JArr _) => true
  | Some (JObj _) => true
  end.

(** [await req.json()] followed by the destructuring of [phoneNumber],
    [message] and [jobId]: either of them throws, or the three properties
    are read ([None] when absent). *)
Inductive Payload : Type :=
| Unreadable (error : string)
| Parsed (phoneNumber message jobId : option json).

Record Request : Type := mkRequest {
  method : string;
  payload : Payload
}.

(** What the handler reads of Twilio's answer: [response.ok] and
    [responseData.sid]. *)
Record TwilioReply : Type := mkTwilioReply {
  tw_ok : bool;
  tw_sid : option json
}.

(** What the handler reads of Vonage's answer: [response.ok] and, of the
    first entry of [responseData.messages], [status] and [message-id]. *)
Record VonageReply : Type := mkVonageReply {
  vg_ok : bool;
  vg_status : option json;
  vg_message_id : option json
}.

(** The requests prepared for the providers, oldest first. *)
Inductive Fetch : Type :=
| TwilioMessage (accountSid authToken from : string) (to body : option json)
| VonageMessage (to : string) (text : option json) (api_key api_secret : string).

(** The secrets and the providers.  A provider's [Err] stands for anything
    thrown between preparing the request and reading its answer as an
    object. *)
Record Env : Type := mkEnv {
  TWILIO_ACCOUNT_SID : option string;
  TWILIO_AUTH_TOKEN : option string;
  TWILIO_PHONE_NUMBER : option string;
  VONAGE_API_KEY : option string;
  VONAGE_API_SECRET : option string;
  twilio : string -> string -> string -> option json -> option json -> Result TwilioReply;
  vonage : string -> option json -> string -> string -> Result VonageReply
}.

(** A property that is [undefined] is left out by [JSON.stringify]. *)
Definition property (k : string) (v : option json) : list (string * json) :=
  match v with
  | Some j => [(k, j)]
  | None => []
  end.

(** The class [[^\d+]] of the cleaning expression, negated: the characters
    that are kept. *)
Definition digit_or_plus (c : Ascii.ascii) : bool :=
  let n := Ascii.nat_of_ascii c in
  ((48 <=? n)%nat && (n <=? 57)%nat) || (n =? 43)%nat.

Fixpoint keep (f : Ascii.ascii -> bool) (s : string) : string :=
  match s with
  | EmptyString => EmptyString
  | String c rest => if f c then String c (keep f rest) else keep f rest
  end.

(** [phoneNumber.replace(/[^\d+]/g, '')]; on a value that is not a string
    the method does not exist. *)
Definition clean_phone_number (phoneNumber : option json) : Result string :=
  match phoneNumber with
  | Some (JStr s) => Ok (keep digit_or_plus s)
  | _ => Err "phoneNumber.replace is not a function"
  end.

(** The log line with the request details evaluates
    [phoneNumber.substring(0, 3)] for a truthy [phoneNumber]. *)
Definition request_details (phoneNumber : option json) : Result string :=
  if truthy_value phoneNumber then
    match phoneNumber with
    | Some (JStr s) => Ok (String.substring 0 3 s +:+ "***")
    | _ => Err "phoneNumber.substring is not a function"
    end
  else Ok "none".

Definition missing_fields : Response :=
  json_response 400 (JObj [("error", JStr "Phone number and message are required")]).

Definition sent_by_twilio (reply : TwilioReply) : Response :=
  json_response 200 (JObj ([("success", JBool true); ("provider", JStr "twilio")]
                           ++ property "messageId" (tw_sid reply))).

Definition sent_by_vonage (reply : VonageReply) : Response :=
  json_response 200 (JObj ([("success", JBool true); ("provider", JStr "vonage")]
                           ++ property "messageId" (vg_message_id reply))).

Definition logged_to_console : Response :=
  json_response 200 (JObj [
    ("success", JBool true);
    ("provider", JStr "console");
    ("message", JStr "SMS logged to console (no SMS service configured)")]).

Definition internal_error (message : string) : Response :=
  json_response 500 (JObj [("error", JStr (or_else (Some message) "Internal server error"))]).

(** Whether the conversion of a value of the body to a string throws.  An
    object of the body with an own property [toString] has no string: the
    property cannot be callable, and [valueOf], own or inherited, yields no
    primitive.  An array is joined, which converts each of its elements
    other than [null].  Every other value has a string. *)
Fixpoint toString_throws (v : json) : bool :=
  match v with
  | JObj fields =>
      match assoc "toString" fields with Some _ => true | None => false end
  | JArr items => existsb toString_throws items
  | _ => false
  end.

(** Whether a template literal throws on a value read from the body;
    [undefined] is printed as such. *)
Definition template_throws (v : option json) : bool :=
  match v with
  | Some j => toString_throws j
  | None => false
  end.

(** The console fallback interpolates [message] and [jobId || 'N/A'] in
    the lines it logs. *)
Definition console_fallback (message jobId : option json) : Result unit :=
  if template_throws message then Err "Cannot convert object to primitive value"
  else if truthy_value jobId && template_throws jobId
  then Err "Cannot convert object to primitive value"
  else Ok tt.

(** The Twilio block: a response if the message was accepted, [None] when
    the handler goes on to the next block, and the requests prepared. *)
Definition via_twilio (env : Env) (phoneNumber message : option json)
    : option Response * list Fetch :=
  if truthy (TWILIO_ACCOUNT_SID env) && truthy (TWILIO_AUTH_TOKEN env)
     && truthy (TWILIO_PHONE_NUMBER env) then
    let twilioAccountSid := render (TWILIO_ACCOUNT_SID env) in
    let twilioAuthToken := render (TWILIO_AUTH_TOKEN env) in
    let twilioPhoneNumber := render (TWILIO_PHONE_NUMBER env) in
    let request :=
      TwilioMessage twilioAccountSid twilioAuthToken twilioPhoneNumber phoneNumber message in
    match twilio env twilioAccountSid twilioAuthToken twilioPhoneNumber phoneNumber message with
    | Ok reply =>
        if tw_ok reply then (Some (sent_by_twilio reply), [request])
        else (* throw new Error(`Twilio error: ...`), caught below *) (None, [request])
    | Err twilioError => (* Fall back to console log *) (None, [request])
    end
  else (None, []).

(** The Vonage block. *)
Definition via_vonage (env : Env) (phoneNumber message : option json)
    : option Response * list Fetch :=
  if truthy (VONAGE_API_KEY env) && truthy (VONAGE_API_SECRET env) then
    let vonageApiKey := render (VONAGE_API_KEY env) in
    let vonageApiSecret := render (VONAGE_API_SECRET env) in
    match clean_phone_number phoneNumber with
    | Err vonageError => (None, [])
    | Ok to =>
        let request := VonageMessage to message vonageApiKey vonageApiSecret in
        match vonage env to message vonageApiKey vonageApiSecret with
        | Ok reply =>
            if vg_ok reply && (match vg_status reply with
                               | Some (JStr s) => String.eqb s "0"
                               | _ => false
                               end)
            then (Some (sent_by_vonage reply), [request])
            else (None, [request])
        | Err vonageError => (* Fall back to console log *) (None, [request])
        end
    end
  else (None, []).

(** The handler: its response and the requests it prepared. *)
Definition send_sms (env : Env) (req : Request) : Response * list Fetch :=
  if String.eqb (method req) "OPTIONS" then
    ({| status := 200; body := NoBody |}, [])
  else
    match payload req with
    | Unreadable error => (internal_error error, [])
    | Parsed phoneNumber message jobId =>
        match request_details phoneNumber with
        | Err error => (internal_error error, [])
        | Ok _ =>
            if negb (truthy_value phoneNumber) || negb (truthy_value message) then
              (missing_fields, [])
            else
              match via_twilio env phoneNumber message with
              | (Some response, requests) => (response, requests)
              | (None, requests) =>
                  match via_vonage env phoneNumber message with
                  | (Some response, requests') => (response, requests ++ requests')
                  | (None, requests') =>
                      (* Fallback: Log SMS details to console *)
                      match console_fallback message jobId with
                      | Ok _ => (logged_to_console, requests ++ requests')
                      | Err error => (internal_error error, requests ++ requests')
                      end
                  end
              end
        end
    end.

(** Twilio is configured and accepts the message. *)
Definition twilio_accepts (env : Env) (phoneNumber message : option json) : Prop :=
  truthy (TWILIO_ACCOUNT_SID env) = true /\
  truthy (TWILIO_AUTH_TOKEN env) = true /\
  truthy (TWILIO_PHONE_NUMBER env) = true /\
  exists reply,
    twilio env (render (TWILIO_ACCOUNT_SID env)) (render (TWILIO_AUTH_TOKEN env))
      (render (TWILIO_PHONE_NUMBER env)) phoneNumber message = Ok reply /\
    tw_ok reply = true.

(** Vonage is configured and accepts the message for the cleaned number. *)
Definition vonage_accepts (env : Env) (phone : string) (message : option json) : Prop :=
  truthy (VONAGE_API_KEY env) = true /\
  truthy (VONAGE_API_SECRET env) = true /\
  exists reply,
    vonage env (keep digit_or_plus phone) message
      (render (VONAGE_API_KEY env)) (render (VONAGE_API_SECRET env)) = Ok reply /\
    vg_ok reply = true /\ vg_status reply = Some (JStr "0").

(** The values no template literal can print: an object with a property
    [toString], and an array that holds such a value. *)
Inductive unprintable : json -> Prop :=
| unprintable_object fields v :
    assoc "toString" fields = Some v -> unprintable (JObj fields)
| unprintable_array items x :
    In x items -> unprintable x -> unprintable (JArr items).

Definition printable (v : option json) : Prop :=
  forall j, v = Some j -> ~ unprintable j.

Definition is_twilio (f : Fetch) : bool :=
  match f with TwilioMessage _ _ _ _ _ => true | _ => false end.

Definition is_vonage (f : Fetch) : bool :=
  match f with VonageMessage _ _ _ _ => true | _ => false end.

(** The double quote character. *)
Definition quote : Ascii.ascii := Ascii.ascii_of_nat 34.

(** [formatPaymentLinkSMS] of the client's SMS service. *)
Definition formatPaymentLinkSMS (paymentUrl jobTitle clientName : string) (amount : Q)
    : string :=
  "Hi " +:+ clientName +:+ "! Your payment link for " +:+ String quote jobTitle
    +:+ String quote " ($" +:+ toFixed2 amount +:+ ") is ready: " +:+ paymentUrl.

End SendSms.

Module SampleSms.

(** Both providers configured; Twilio is down and Vonage rejects the
    message. *)
Definition failing : SendSms.Env :=
  {| SendSms.TWILIO_ACCOUNT_SID := Some "AC1";
     SendSms.TWILIO_AUTH_TOKEN := Some "secret";
     SendSms.TWILIO_PHONE_NUMBER := Some "+15550000";
     SendSms.VONAGE_API_KEY := Some "key";
     SendSms.VONAGE_API_SECRET := Some "secret";
     SendSms.twilio := fun sid token from to body => Err "connection refused";
     SendSms.vonage := fun to text key secret =>
       Ok {| SendSms.vg_ok := true; SendSms.vg_status := Some (JStr "4");
             SendSms.vg_message_id := None |} |}.

(** Only Vonage configured, and it accepts the message. *)
Definition vonage_only : SendSms.Env :=
  {| SendSms.TWILIO_ACCOUNT_SID := None;
     SendSms.TWILIO_AUTH_TOKEN := None;
     SendSms.TWILIO_PHONE_NUMBER := None;
     SendSms.VONAGE_API_KEY := Some "key";
     SendSms.VONAGE_API_SECRET := Some "secret";
     SendSms.twilio := fun sid token from to body => Err "unused";
     SendSms.vonage := fun to text key secret =>
       Ok {| SendSms.vg_ok := true; SendSms.vg_status := Some (JStr "0");
             SendSms.vg_message_id := Some (JStr "m-1") |} |}.

Definition text_to (phoneNumber : option json) : SendSms.Request :=
  {| SendSms.method := "POST";
     SendSms.payload := SendSms.Parsed phoneNumber (Some (JStr "Your link is ready"))
                          (Some (JStr "job-1")) |}.

(** A request whose [jobId] is an object with a property [toString]. *)
Definition odd_job : SendSms.Request :=
  {| SendSms.method := "POST";
     SendSms.payload := SendSms.Parsed (Some (JStr "+15550100")) (Some (JStr "hi"))
                          (Some (JObj [("toString", JNum 1)])) |}.

End SampleSms.

(** Further sample data. *)
Module Sample2.

(** A profile that stores the platform's own account. *)
Definition operator : Profile :=
  {| profile_id := "user-4"; profile_company_id := Some "co-1";
     stripe_account_id := Some CreateCheckout.PLATFORM_STRIPE_ACCOUNT_ID;
     stripe_connected := Some true; profile_updated_at := None |}.

(** A processor whose webhook events are payment intents, not checkout
    sessions. *)
Definition intent_processor : Stripe :=
  {| accounts_retrieve := accounts_retrieve (Sample.processor true true true);
     accounts_create := accounts_create (Sample.processor true true true);
     accountLinks_create := accountLinks_create (Sample.processor true true true);
     checkout_sessions_create :=
       checkout_sessions_create (Sample.processor true true true);
     webhooks_constructEvent := fun payload signature secret =>
       Ok {| event_type := "payment_intent.succeeded";
             event_object := event_object Sample.completed |} |}.

(** A job whose price is not a number. *)
Definition unpriced : Job :=
  {| job_id := "job-1"; job_name := Some "Quote"; client_name := Some "Bo";
     price := None; company_id := Some "co-1";
     job_status := Some pending; payment_url := None;
     stripe_checkout_url := None; paid_at := None; receipt_id := None |}.

Definition unpriced_world : World :=
  {| db := {| jobs := <["job-1" := unpriced]> ∅; profiles := []; receipts := [] |};
     stripe_log := [] |}.

(** The profile of the sample user before any account was connected. *)
Definition beginner : Profile :=
  {| profile_id := "user-1"; profile_company_id := Some "co-1";
     stripe_account_id := None; stripe_connected := None;
     profile_updated_at := None |}.

End Sample2.

(** * Properties *)

(** ** Rounding to binary64 *)

Lemma round_half_even_lo y : y - (1 # 2) <= inject_Z (round_half_even y).
Proof.
  unfold round_half_even.
  pose proof (Qfloor_le y) as Hlo. pose proof (Qlt_floor y) as Hhi.
  rewrite inject_Z_plus in Hhi.
  destruct (Qcompare_spec (y - inject_Z (Qfloor y)) (1 # 2)) as [E|E|E];
    [destruct (Z.even (Qfloor y))| |]; rewrite ?inject_Z_plus;
    change (inject_Z 1) with 1 in *; lra.
Qed.

Lemma round_half_even_hi y : inject_Z (round_half_even y) <= y + (1 # 2).
Proof.
  unfold round_half_even.
  pose proof (Qfloor_le y) as Hlo. pose proof (Qlt_floor y) as Hhi.
  rewrite inject_Z_plus in Hhi.
  destruct (Qcompare_spec (y - inject_Z (Qfloor y)) (1 # 2)) as [E|E|E];
    [destruct (Z.even (Qfloor y))| |]; rewrite ?inject_Z_plus;
    change (inject_Z 1) with 1 in *; lra.
Qed.

Lemma pow2_pos (e : Z) : 0 < 2 ^ e.
Proof. apply Qpower_0_lt. reflexivity. Qed.

Lemma pow2_add (a b : Z) : 2 ^ (a + b) == 2 ^ a * 2 ^ b.
Proof. apply Qpower_plus. discriminate. Qed.

Lemma pow2_inject (e : Z) : (0 <= e)%Z -> inject_Z (2 ^ e) == 2 ^ e.
Proof. intros H. now rewrite Zpower_Qpower. Qed.

Lemma scaled_lower (x : Q) :
  0 < x ->
  2 ^ 52 <= x * 2 ^ (53 - (Z.log2 (Qnum x) - Z.log2 (Zpos (Qden x)))).
Proof.
  intros Hx. destruct x as [n d]; cbn [Qnum Qden].
  assert (Hn : (0 < n)%Z) by (unfold Qlt in Hx; cbn in Hx; lia).
  set (ln := Z.log2 n). set (ld := Z.log2 (Zpos d)).
  pose proof (Z.log2_nonneg n) as Hln0. fold ln in Hln0.
  pose proof (Z.log2_nonneg (Zpos d)) as Hld0. fold ld in Hld0.
  destruct (Z.log2_spec n Hn) as [Hn1 _]. fold ln in Hn1.
  destruct (Z.log2_spec (Zpos d) eq_refl) as [_ Hd2]. fold ld in Hd2.
  assert (Qn : 2 ^ ln <= inject_Z n).
  { rewrite <- pow2_inject by lia. now rewrite <- Zle_Qle. }
  assert (Qd : inject_Z (Zpos d) <= 2 ^ (ld + 1)).
  { rewrite <- pow2_inject by lia. rewrite <- Zle_Qle. unfold Z.succ in Hd2. lia. }
  assert (Hs : 2 ^ ln * 2 ^ (53 - (ln - ld)) == 2 ^ 52 * 2 ^ (ld + 1)).
  { rewrite <- !pow2_add. replace (ln + (53 - (ln - ld)))%Z with (52 + (ld + 1))%Z by lia. reflexivity. }
  assert (Hxd : (n # d) * inject_Z (Zpos d) == inject_Z n).
  { unfold Qeq, Qmult, inject_Z; cbn. lia. }
  pose proof (pow2_pos (53 - (ln - ld))) as HS.
  pose proof (pow2_pos ln) as HP1. pose proof (pow2_pos (ld + 1)) as HP2.
  assert (HD : 0 < inject_Z (Zpos d)) by (unfold Qlt; cbn; lia).
  pose proof (pow2_pos 52) as HC.
  revert Qn Qd Hs Hxd HS HP1 HP2 HD Hx HC.
  generalize (2 ^ (53 - (ln - ld))) (2 ^ ln) (2 ^ (ld + 1))
    (inject_Z (Z.pos d)) (inject_Z n) (n # d) (2 ^ 52).
  intros S P1 P2 D N X C. intros.
  assert (H1 : P1 * S <= N * S) by nra.
  assert (H2 : C * D <= C * P2) by nra.
  assert (H3 : 0 <= (X * S - C) * D) by nra.
  nra.
Qed.

Lemma pow2_cancel (s : Z) : 2 ^ s * 2 ^ (- s) == 1.
Proof. rewrite <- pow2_add. now replace (s + - s)%Z with 0%Z by lia. Qed.

Lemma round_pos_bounds (x : Q) :
  0 < x -> x * (1 - eps) <= round_pos x /\ round_pos x <= x * (1 + eps).
Proof.
  intros Hx. pose proof (scaled_lower x Hx) as Hlow. unfold round_pos.
  set (s := (53 - (Z.log2 (Qnum x) - Z.log2 (Zpos (Qden x))))%Z) in *.
  set (y := x * 2 ^ s) in *.
  pose proof (pow2_pos (- s)) as HT.
  assert (Hxy : x == y * 2 ^ (- s)).
  { unfold y. rewrite <- Qmult_assoc, pow2_cancel. ring. }
  assert (H2T : 2 ^ (1 - s) == 2 * 2 ^ (- s)).
  { replace (1 - s)%Z with (1 + - s)%Z by lia. now rewrite pow2_add. }
  assert (E53 : 2 ^ 53 == 9007199254740992) by reflexivity.
  assert (E52 : 2 ^ 52 == 4503599627370496) by reflexivity.
  destruct (Qle_bool (2 ^ 53) y) eqn:Hc.
  - apply Qle_bool_iff in Hc. rewrite E53 in Hc.
    pose proof (round_half_even_lo (y / 2)) as Hlo.
    pose proof (round_half_even_hi (y / 2)) as Hhi.
    rewrite H2T, Hxy. unfold eps.
    revert Hlo Hhi. generalize (inject_Z (round_half_even (y / 2))).
    revert HT. generalize (2 ^ (- s)). intros T HT m Hlo Hhi.
    unfold Qdiv in Hlo, Hhi. change (/ 2) with (1 # 2) in Hlo, Hhi.
    split.
    + assert (0 <= (2 * m - y * (1 - (1 # 9007199254740992))) * T) by (apply Qmult_le_0_compat; lra).
      lra.
    + assert (0 <= (y * (1 + (1 # 9007199254740992)) - 2 * m) * T) by (apply Qmult_le_0_compat; lra).
      lra.
  - rewrite E52 in Hlow.
    pose proof (round_half_even_lo y) as Hlo.
    pose proof (round_half_even_hi y) as Hhi.
    rewrite Hxy. unfold eps.
    revert Hlo Hhi. generalize (inject_Z (round_half_even y)).
    revert HT. generalize (2 ^ (- s)). intros T HT m Hlo Hhi.
    split.
    + assert (0 <= (m - y * (1 - (1 # 9007199254740992))) * T) by (apply Qmult_le_0_compat; lra).
      lra.
    + assert (0 <= (y * (1 + (1 # 9007199254740992)) - m) * T) by (apply Qmult_le_0_compat; lra).
      lra.
Qed.

Lemma binary64_bounds (x : Q) :
  0 < x -> x * (1 - eps) <= binary64 x /\ binary64 x <= x * (1 + eps).
Proof.
  intros Hx. unfold binary64. destruct x as [[|p|p] d] eqn:E; cbn [Qnum].
  - discriminate Hx.
  - rewrite Qred_correct. rewrite <- E in *. now apply round_pos_bounds.
  - discriminate Hx.
Qed.

#[local] Instance round_half_even_proper : Proper (Qeq ==> eq) round_half_even.
Proof.
  intros y y' E. unfold round_half_even.
  rewrite (Qfloor_comp _ _ E).
  assert (Ec : Qcompare (y - inject_Z (Qfloor y')) (1 # 2)
             = Qcompare (y' - inject_Z (Qfloor y')) (1 # 2)).
  { apply Qcompare_comp; [now rewrite E | reflexivity]. }
  now rewrite Ec.
Qed.

Lemma round_half_even_int (z : Z) : round_half_even (inject_Z z) = z.
Proof.
  unfold round_half_even. rewrite Qfloor_Z.
  assert (E : Qcompare (inject_Z z - inject_Z z) (1 # 2) = Lt).
  { rewrite <- Qlt_alt. lra. }
  now rewrite E.
Qed.

Lemma round_pos_int (k : Z) :
  (0 < k < 2 ^ 53)%Z -> round_pos (inject_Z k) == inject_Z k.
Proof.
  intros [Hkpos Hk]. unfold round_pos.
  change (Qnum (inject_Z k)) with k.
  change (Z.log2 (Zpos (Qden (inject_Z k)))) with 0%Z.
  set (l := Z.log2 k).
  destruct (Z.log2_spec k Hkpos) as [Hl1 Hl2]. fold l in Hl1, Hl2.
  pose proof (Z.log2_nonneg k) as Hl0. fold l in Hl0.
  assert (Hl52 : (l <= 52)%Z).
  { destruct (Z_lt_le_dec l 53) as [|Hge]; [lia|].
    pose proof (Z.pow_le_mono_r 2 53 l ltac:(lia) Hge). lia. }
  replace (53 - (l - 0))%Z with (53 - l)%Z by lia.
  set (s := (53 - l)%Z).
  assert (Ey : inject_Z k * 2 ^ s / 2 == inject_Z (k * 2 ^ (s - 1))).
  { rewrite inject_Z_mult, pow2_inject by lia.
    replace s with (1 + (s - 1))%Z at 1 by lia. rewrite pow2_add.
    change (2 ^ 1) with 2. field. }
  assert (Hc : Qle_bool (2 ^ 53) (inject_Z k * 2 ^ s) = true).
  { apply Qle_bool_iff.
    replace 53%Z with (l + s)%Z at 1 by lia. rewrite pow2_add.
    apply Qmult_le_compat_r; [|apply Qlt_le_weak, pow2_pos].
    rewrite <- pow2_inject by lia. now rewrite <- Zle_Qle. }
  rewrite Hc, Ey, round_half_even_int.
  rewrite inject_Z_mult, pow2_inject by lia.
  rewrite <- Qmult_assoc.
  replace (1 - s)%Z with (- (s - 1))%Z by lia.
  rewrite pow2_cancel. ring.
Qed.

Lemma binary64_int (k : Z) :
  (0 <= k < 2 ^ 53)%Z -> binary64 (inject_Z k) == inject_Z k.
Proof.
  intros [H0 Hk]. destruct k as [|p|p]; [reflexivity | | lia].
  unfold binary64; cbn [Qnum inject_Z]. rewrite Qred_correct.
  apply (round_pos_int (Zpos p)). lia.
Qed.

Lemma fadd_int (r k : Z) :
  (0 <= r + k < 2 ^ 53)%Z -> fadd (inject_Z r) (inject_Z k) == inject_Z (r + k).
Proof.
  intros H. unfold fadd.
  assert (E : inject_Z r + inject_Z k = inject_Z (r + k)).
  { unfold Qplus, inject_Z; cbn. now rewrite !Z.mul_1_r. }
  rewrite E. now apply binary64_int.
Qed.

Lemma Math_round_percent a c :
  Math_round (fmul (inject_Z a) c) = inject_Z (percent a c).
Proof. reflexivity. Qed.

Lemma percent_bounds (a : Z) (c : Q) :
  (0 < a)%Z -> 0 < c ->
  inject_Z a * c * (1 - eps) - (1 # 2) < inject_Z (percent a c) /\
  inject_Z (percent a c) <= inject_Z a * c * (1 + eps) + (1 # 2).
Proof.
  intros Ha Hc. unfold percent, fmul.
  assert (Hac : 0 < inject_Z a * c).
  { apply Qmult_lt_0_compat; [|exact Hc]. change 0 with (inject_Z 0). now rewrite <- Zlt_Qlt. }
  destruct (binary64_bounds _ Hac) as [Hlo Hhi].
  set (v := binary64 (inject_Z a * c)) in *.
  pose proof (Qfloor_le (v + (1 # 2))) as Fl.
  pose proof (Qlt_floor (v + (1 # 2))) as Fh.
  rewrite inject_Z_plus in Fh. change (inject_Z 1) with 1 in Fh.
  split; lra.
Qed.

Lemma percent_nonneg (a : Z) (c : Q) : (0 < a)%Z -> 0 < c -> (0 <= percent a c)%Z.
Proof.
  intros Ha Hc. destruct (percent_bounds a c Ha Hc) as [Hlo _].
  assert (Hac : 0 < inject_Z a * c).
  { apply Qmult_lt_0_compat; [|exact Hc]. change 0 with (inject_Z 0). now rewrite <- Zlt_Qlt. }
  assert (H : inject_Z (-1) < inject_Z (percent a c)).
  { change (inject_Z (-1)) with (-1). unfold eps in Hlo.
    assert (0 <= inject_Z a * c * (1 - (1 # 9007199254740992))) by (apply Qmult_le_0_compat; lra).
    lra. }
  rewrite <- Zlt_Qlt in H. lia.
Qed.

Lemma Qltb_true x y : Qltb x y = true <-> x < y.
Proof.
  unfold Qltb. rewrite negb_true_iff, <- not_true_iff_false, Qle_bool_iff.
  split; [apply Qnot_le_lt | apply Qlt_not_le].
Qed.

Lemma Qltb_false x y : Qltb x y = false <-> y <= x.
Proof. unfold Qltb. now rewrite negb_false_iff, Qle_bool_iff. Qed.

Lemma inject_Z_pos (a : Z) : (0 < a)%Z -> 0 < inject_Z a.
Proof. intros H. change 0 with (inject_Z 0). now rewrite <- Zlt_Qlt. Qed.

Lemma dollars_lt_bound (a : Z) (t : Q) :
  (0 < a)%Z -> Qltb (fdiv (inject_Z a) 100) t = true ->
  inject_Z a * (1 - eps) < 100 * t.
Proof.
  intros Ha H. apply Qltb_true in H. unfold fdiv in H.
  pose proof (inject_Z_pos a Ha) as HA.
  assert (Hq : 0 < inject_Z a / 100).
  { unfold Qdiv. change (/ 100) with (1 # 100). lra. }
  destruct (binary64_bounds _ Hq) as [Hlo _].
  revert Hlo H. generalize (binary64 (inject_Z a / 100)). intros v Hlo H.
  unfold Qdiv in Hlo. change (/ 100) with (1 # 100) in Hlo. unfold eps in *. lra.
Qed.

Lemma dollars_ge_bound (a : Z) (t : Q) :
  (0 < a)%Z -> Qltb (fdiv (inject_Z a) 100) t = false ->
  100 * t <= inject_Z a * (1 + eps).
Proof.
  intros Ha H. apply Qltb_false in H. unfold fdiv in H.
  pose proof (inject_Z_pos a Ha) as HA.
  assert (Hq : 0 < inject_Z a / 100).
  { unfold Qdiv. change (/ 100) with (1 # 100). lra. }
  destruct (binary64_bounds _ Hq) as [_ Hhi].
  revert Hhi H. generalize (binary64 (inject_Z a / 100)). intros v Hhi H.
  unfold Qdiv in Hhi. change (/ 100) with (1 # 100) in Hhi. unfold eps in *. lra.
Qed.

Lemma below_2500_small (a : Z) :
  (0 < a)%Z -> Qltb (fdiv (inject_Z a) 100) 2500 = true -> (a <= 250000)%Z.
Proof.
  intros Ha H. pose proof (dollars_lt_bound a 2500 Ha H) as B.
  destruct (Z_le_gt_dec a 250000) as [|Hgt]; [assumption|].
  assert (Hq : inject_Z 250001 <= inject_Z a) by (rewrite <- Zle_Qle; lia).
  change (inject_Z 250001) with 250001 in Hq. unfold eps in B. lra.
Qed.

Lemma tier_lt_trans (a : Z) (t : Q) :
  (0 < a)%Z -> t <= 2500 -> Qltb (fdiv (inject_Z a) 100) t = true ->
  (a <= 250000)%Z.
Proof.
  intros Ha Ht H. apply below_2500_small; [assumption|].
  apply Qltb_true. apply Qltb_true in H. lra.
Qed.

Lemma tier_fixed_fee (a : Z) (c : Q) :
  (0 < a <= 250000)%Z -> 0 < c -> c <= 1 # 20 ->
  fadd (Math_round (fmul (inject_Z a) c)) 30 == inject_Z (percent a c + 30).
Proof.
  intros [Ha Hb] Hc0 Hc1. rewrite Math_round_percent.
  apply (fadd_int (percent a c) 30).
  pose proof (percent_nonneg a c Ha Hc0) as Hr.
  destruct (percent_bounds a c Ha Hc0) as [_ Hhi].
  assert (HA : inject_Z a <= 250000) by (change 250000 with (inject_Z 250000); rewrite <- Zle_Qle; lia).
  pose proof (inject_Z_pos a Ha) as HA0.
  assert (Hp : inject_Z a * c <= 12500).
  { assert (0 <= (250000 - inject_Z a) * c) by (apply Qmult_le_0_compat; lra).
    lra. }
  assert (Hq : inject_Z (percent a c) < inject_Z 20000).
  { change (inject_Z 20000) with 20000. unfold eps in Hhi. lra. }
  rewrite <- Zlt_Qlt in Hq. split; [lia|].
  change (2 ^ 53)%Z with 9007199254740992%Z. lia.
Qed.

(** ** The fee calculator *)

Lemma literal_range (n : positive) :
  In n [49; 39; 29; 19; 15]%positive ->
  14 # 1000 <= literal (Zpos n # 1000) /\ literal (Zpos n # 1000) <= 1 # 20.
Proof.
  cbn [In]. intros H.
  repeat (destruct H as [<- | H]; [split; vm_compute; discriminate|]).
  destruct H.
Qed.

Ltac fee_tiers a Ha :=
  unfold CreateCheckout.calculatePlatformFee;
  destruct (Qltb (fdiv (inject_Z a) 100) 100) eqn:T1;
    [pose proof (tier_lt_trans a 100 Ha ltac:(lra) T1) as Hsmall
    |destruct (Qltb (fdiv (inject_Z a) 100) 500) eqn:T2;
      [pose proof (tier_lt_trans a 500 Ha ltac:(lra) T2) as Hsmall
      |destruct (Qltb (fdiv (inject_Z a) 100) 1000) eqn:T3;
        [pose proof (tier_lt_trans a 1000 Ha ltac:(lra) T3) as Hsmall
        |destruct (Qltb (fdiv (inject_Z a) 100) 2500) eqn:T4;
          [pose proof (tier_lt_trans a 2500 Ha ltac:(lra) T4) as Hsmall
          |pose proof (dollars_ge_bound a 2500 Ha T4) as Hbig]]]].

Lemma fee_fixed_tier_facts (a : Z) (n : positive) :
  (0 < a <= 250000)%Z -> In n [49; 39; 29; 19; 15]%positive ->
  let f := fadd (Math_round (fmul (inject_Z a) (literal (Zpos n # 1000)))) 30 in
  30 <= f /\ ((33 <= a)%Z -> f < inject_Z a).
Proof.
  intros [Ha Hb] Hn f. destruct (literal_range n Hn) as [Hc0 Hc1].
  subst f. revert Hc0 Hc1. generalize (literal (Zpos n # 1000)). intros c Hc0 Hc1.
  assert (Hc : 0 < c) by lra.
  rewrite (tier_fixed_fee a c (conj Ha Hb) Hc Hc1).
  pose proof (percent_nonneg a c Ha Hc) as Hr.
  destruct (percent_bounds a c Ha Hc) as [Hlo Hhi].
  rewrite inject_Z_plus. change (inject_Z 30) with 30.
  assert (Hr' : 0 <= inject_Z (percent a c)).
  { change 0 with (inject_Z 0). now rewrite <- Zle_Qle. }
  split; [lra|].
  intros H33.
  assert (HA : 33 <= inject_Z a) by (change 33 with (inject_Z 33); now rewrite <- Zle_Qle).
  assert (Hp : inject_Z a * c <= inject_Z a * (1 # 20)).
  { assert (0 <= inject_Z a * ((1 # 20) - c)) by (apply Qmult_le_0_compat; lra). lra. }
  unfold eps in Hhi. lra.
Qed.

Lemma fee_flat_tier_facts (a : Z) :
  (0 < a)%Z -> 2500 * 100 <= inject_Z a * (1 + eps) ->
  let f := Math_round (fmul (inject_Z a) (literal (15 # 1000))) in
  3750 <= f /\ f < inject_Z a.
Proof.
  intros Ha Hbig f. destruct (literal_range 15 ltac:(cbn; tauto)) as [Hc0 Hc1].
  assert (Hc015 : 14999999 # 1000000000 <= literal (15 # 1000)) by (vm_compute; discriminate).
  subst f. rewrite Math_round_percent.
  revert Hc0 Hc1 Hc015. generalize (literal (15 # 1000)). intros c Hc0 Hc1 Hc015.
  assert (Hc : 0 < c) by lra.
  destruct (percent_bounds a c Ha Hc) as [Hlo Hhi].
  pose proof (inject_Z_pos a Ha) as HA0.
  assert (HA : 250000 <= inject_Z a).
  { destruct (Z_lt_le_dec a 250000) as [Hlt|Hge].
    - assert (Hq : inject_Z a <= inject_Z 249999) by (rewrite <- Zle_Qle; lia).
      change (inject_Z 249999) with 249999 in Hq. unfold eps in Hbig. lra.
    - change 250000 with (inject_Z 250000). now rewrite <- Zle_Qle. }
  assert (Hp1 : inject_Z a * c <= inject_Z a * (1 # 20)).
  { assert (0 <= inject_Z a * ((1 # 20) - c)) by (apply Qmult_le_0_compat; lra). lra. }
  assert (Hp2 : 250000 * (14999999 # 1000000000) <= inject_Z a * c).
  { assert (0 <= (inject_Z a - 250000) * c) by (apply Qmult_le_0_compat; lra). lra. }
  unfold eps in *. split; [|lra].
  assert (Hz : inject_Z 3749 < inject_Z (percent a c)).
  { change (inject_Z 3749) with 3749. lra. }
  rewrite <- Zlt_Qlt in Hz.
  change 3750 with (inject_Z 3750). rewrite <- Zle_Qle. lia.
Qed.

Lemma fee_lower_bound (a : Z) :
  (0 < a)%Z ->
  30 <= CreateCheckout.calculatePlatformFee (inject_Z a) /\
  ((250000 <= a)%Z -> 3750 <= CreateCheckout.calculatePlatformFee (inject_Z a)).
Proof.
  intros Ha.
  assert (Hedge : 3750 <= CreateCheckout.calculatePlatformFee (inject_Z 250000)) by (vm_compute; discriminate).
  assert (Hall : (250000 <= a)%Z -> (a <= 250000)%Z ->
                 3750 <= CreateCheckout.calculatePlatformFee (inject_Z a)).
  { intros H1 H2. now replace a with 250000%Z by lia. }
  split; [|intros Hge; revert Hall]; fee_tiers a Ha.
  1-4: apply fee_fixed_tier_facts; [lia | cbn; tauto].
  1: destruct (fee_flat_tier_facts a Ha Hbig) as [H _]; lra.
  1-4: intros Hall; apply Hall; lia.
  intros _. now destruct (fee_flat_tier_facts a Ha Hbig) as [H _].
Qed.

Lemma fee_below_amount (a : Z) :
  (33 <= a)%Z -> CreateCheckout.calculatePlatformFee (inject_Z a) < inject_Z a.
Proof.
  intros H33. assert (Ha : (0 < a)%Z) by lia.
  fee_tiers a Ha.
  1-4: apply fee_fixed_tier_facts; [lia | cbn; tauto | lia].
  now destruct (fee_flat_tier_facts a Ha Hbig) as [_ H].
Qed.

Lemma fee_small_amounts :
  forallb (fun n => Qle_bool (inject_Z (Z.of_nat n)) (CreateCheckout.calculatePlatformFee (inject_Z (Z.of_nat n))))
          (seq 1 32) = true.
Proof. vm_compute. reflexivity. Qed.

Lemma fee_not_below_small_amount (a : Z) :
  (0 < a < 33)%Z -> inject_Z a <= CreateCheckout.calculatePlatformFee (inject_Z a).
Proof.
  intros Ha. pose proof fee_small_amounts as H.
  rewrite forallb_forall in H. specialize (H (Z.to_nat a)).
  rewrite Z2Nat.id in H by lia. apply Qle_bool_iff, H.
  apply in_seq. lia.
Qed.

(** The rounding model agrees with the binary64 operations of the standard
    library ([SFmul], [SFdiv] at precision 53) on the products and the
    quotients the fee calculator forms at the tier boundaries. *)
Lemma binary64_agrees_with_SpecFloat :
  Forall (fun '(a, n) =>
            SF2Q (SFmul 53 1024 (SFint a) (SFdiv 53 1024 (SFint n) (SFint 1000)))
              = Some (fmul (inject_Z (Zpos a)) (literal (Zpos n # 1000)))
            /\ SF2Q (SFdiv 53 1024 (SFint a) (SFint 100))
              = Some (fdiv (inject_Z (Zpos a)) 100))
    [(1, 49); (4999, 49); (9999, 49); (10000, 39); (49999, 39); (50000, 29);
     (99999, 29); (100000, 19); (249999, 19); (250000, 15);
     (9999999999, 15)]%positive.
Proof. repeat constructor; vm_compute; reflexivity. Qed.

(** The same agreement on every amount from 1 to 1000 cents, at each of the
    five rates. *)
Lemma binary64_agrees_on_small_amounts :
  forallb (fun a => forallb (agrees_with_SpecFloat (Pos.of_nat a))
                      [49; 39; 29; 19; 15]%positive)
          (seq 1 1000) = true.
Proof. vm_compute. reflexivity. Qed.

Lemma fee_of_zero : CreateCheckout.calculatePlatformFee 0 == 30.
Proof. vm_compute. reflexivity. Qed.

(** C2, as listed in the specification: the eight boundary values
    520, 420, 2180, 1980, 3130, 2930, 5050, 3750 are not the values of the
    fee calculator; already the fee of 49999 cents differs from 2180. *)
Lemma fee_boundaries_as_listed_fail :
  ~ (CreateCheckout.calculatePlatformFee 9999 == 520 /\
     CreateCheckout.calculatePlatformFee 10000 == 420 /\
     CreateCheckout.calculatePlatformFee 49999 == 2180 /\
     CreateCheckout.calculatePlatformFee 50000 == 1980 /\
     CreateCheckout.calculatePlatformFee 99999 == 3130 /\
     CreateCheckout.calculatePlatformFee 100000 == 2930 /\
     CreateCheckout.calculatePlatformFee 249999 == 5050 /\
     CreateCheckout.calculatePlatformFee 250000 == 3750).
Proof.
  intros (_ & _ & H & _). vm_compute in H. discriminate H.
Qed.

(** C2, amended: at the tier boundaries the fee calculator returns
    fee(9999)=520, fee(10000)=420, fee(49999)=1980, fee(50000)=1480,
    fee(99999)=2930, fee(100000)=1930, fee(249999)=4780 and
    fee(250000)=3750 (amounts in integer cents). *)
Theorem fee_boundaries :
  CreateCheckout.calculatePlatformFee 9999 == 520 /\
  CreateCheckout.calculatePlatformFee 10000 == 420 /\
  CreateCheckout.calculatePlatformFee 49999 == 1980 /\
  CreateCheckout.calculatePlatformFee 50000 == 1480 /\
  CreateCheckout.calculatePlatformFee 99999 == 2930 /\
  CreateCheckout.calculatePlatformFee 100000 == 1930 /\
  CreateCheckout.calculatePlatformFee 249999 == 4780 /\
  CreateCheckout.calculatePlatformFee 250000 == 3750.
Proof. repeat split; vm_compute; reflexivity. Qed.

(** C3, as stated: "for every positive cent amount a, fee(a) >= 0 and
    fee(a) < a" fails at a = 1, where the fee is 30 cents. *)
Lemma fee_below_amount_fails_at_1 :
  (0 < 1)%Z /\
  CreateCheckout.calculatePlatformFee (inject_Z 1) == 30 /\
  ~ (0 <= CreateCheckout.calculatePlatformFee (inject_Z 1) /\
     CreateCheckout.calculatePlatformFee (inject_Z 1) < inject_Z 1).
Proof.
  split; [lia|]. split; [vm_compute; reflexivity|].
  intros [_ H]. vm_compute in H. discriminate H.
Qed.

(** C3, amended: for every positive integer cent amount a the fee is
    non-negative, and it is below the amount exactly when a is at least
    33 cents. *)
Theorem fee_nonneg_and_below_amount_from_33 (a : Z) :
  (0 < a)%Z ->
  0 <= CreateCheckout.calculatePlatformFee (inject_Z a) /\
  (CreateCheckout.calculatePlatformFee (inject_Z a) < inject_Z a <-> (33 <= a)%Z).
Proof.
  intros Ha. split.
  - destruct (fee_lower_bound a Ha) as [H _]. lra.
  - split.
    + intros Hlt. destruct (Z_lt_le_dec a 33) as [Hs|]; [|assumption].
      pose proof (fee_not_below_small_amount a (conj Ha Hs)). lra.
    + apply fee_below_amount.
Qed.

Lemma fee_nonneg_and_below_amount_from_33_witness :
  0 <= CreateCheckout.calculatePlatformFee (inject_Z 33) /\
  (CreateCheckout.calculatePlatformFee (inject_Z 33) < inject_Z 33 <-> (33 <= 33)%Z).
Proof. apply (fee_nonneg_and_below_amount_from_33 33). lia. Defined.

(** C10: for every positive integer cent amount the platform fee is
    strictly positive: at least 30 cents below 250000 cents and at least
    3750 cents from 250000 cents on.  Hence the guard "connect routing and
    fee > 0" of the session configuration attaches the application fee and
    the destination whenever connect routing is selected. *)
Theorem fee_positive_guard_never_suppresses (a : Z) :
  (0 < a)%Z ->
  0 < CreateCheckout.calculatePlatformFee (inject_Z a) /\
  ((a < 250000)%Z -> 30 <= CreateCheckout.calculatePlatformFee (inject_Z a)) /\
  ((250000 <= a)%Z -> 3750 <= CreateCheckout.calculatePlatformFee (inject_Z a)) /\
  forall req job_id job total r,
    CreateCheckout.useStripeConnect r = true ->
    payment_intent_data
      (CreateCheckout.sessionConfig req job_id job (inject_Z a)
         (CreateCheckout.calculatePlatformFee (inject_Z a)) total r)
    = Some {| application_fee_amount :=
                CreateCheckout.calculatePlatformFee (inject_Z a);
              transfer_destination := CreateCheckout.connectedStripeAccountId r |}.
Proof.
  intros Ha. destruct (fee_lower_bound a Ha) as [H30 H3750].
  split; [lra|]. split; [intros _; exact H30|]. split; [exact H3750|].
  intros req job_id job total r Hr.
  unfold CreateCheckout.sessionConfig; cbn [payment_intent_data].
  rewrite Hr. cbn [andb].
  assert (Hpos : Qltb 0 (CreateCheckout.calculatePlatformFee (inject_Z a)) = true)
    by (apply Qltb_true; lra).
  now rewrite Hpos.
Qed.

Lemma fee_positive_guard_never_suppresses_witness :
  0 < CreateCheckout.calculatePlatformFee (inject_Z 4999) /\
  ((4999 < 250000)%Z -> 30 <= CreateCheckout.calculatePlatformFee (inject_Z 4999)) /\
  ((250000 <= 4999)%Z -> 3750 <= CreateCheckout.calculatePlatformFee (inject_Z 4999)) /\
  forall req job_id job total r,
    CreateCheckout.useStripeConnect r = true ->
    payment_intent_data
      (CreateCheckout.sessionConfig req job_id job (inject_Z 4999)
         (CreateCheckout.calculatePlatformFee (inject_Z 4999)) total r)
    = Some {| application_fee_amount :=
                CreateCheckout.calculatePlatformFee (inject_Z 4999);
              transfer_destination := CreateCheckout.connectedStripeAccountId r |}.
Proof. apply (fee_positive_guard_never_suppresses 4999). lia. Defined.

(** ** Running the handlers *)

Ltac unfold_monad :=
  unfold serve, bind, ret, respond, throw, try_catch, read_db, write_db,
    update_db, call_stripe in *.

Lemma not_options (m : string) : m <> "OPTIONS" -> String.eqb m "OPTIONS" = false.
Proof. intros H. now apply String.eqb_neq. Qed.

Lemma truthy_Some (o : option string) :
  truthy o = true -> exists s, o = Some s /\ s <> "" /\ render o = s.
Proof.
  destruct o as [s|]; [|discriminate]. cbn. intros H.
  exists s. repeat split. intros ->. discriminate H.
Qed.

(** The base price in cents is a whole, non-negative number, and the fee on
    it is positive. *)
Lemma base_cents_integer (job : Job) (base : Q) :
  CreateCheckout.basePriceInCents job = Some base ->
  exists z, (0 <= z)%Z /\ base = inject_Z z.
Proof.
  unfold CreateCheckout.basePriceInCents.
  destruct (price job) as [p|]; [|discriminate].
  destruct (Qle_bool (literal p) 0) eqn:Hp; [discriminate|].
  intros [= <-]. eexists. split; [|reflexivity].
  assert (Hpos : 0 < literal p).
  { apply Qnot_le_lt. intros H. apply Qle_bool_iff in H. congruence. }
  assert (Hx : 0 < literal p * 100) by lra.
  destruct (binary64_bounds _ Hx) as [Hlo _]. unfold eps in Hlo.
  change 0%Z with (Qfloor 0). apply Qfloor_resp_le. unfold fmul. lra.
Qed.

Lemma fee_positive_on_cents (z : Z) :
  (0 <= z)%Z -> 0 < CreateCheckout.calculatePlatformFee (inject_Z z).
Proof.
  intros Hz. destruct (Z.eq_dec z 0) as [->|Hne].
  - change (inject_Z 0) with 0. rewrite fee_of_zero. reflexivity.
  - destruct (fee_lower_bound z ltac:(lia)) as [H _]. lra.
Qed.


(** ** Whole numbers in an integer column *)

Lemma Qred_inject_Z (k : Z) : Qred (inject_Z k) = inject_Z k.
Proof.
  unfold Qred, inject_Z; cbn [Qnum Qden].
  pose proof (Z.ggcd_gcd k 1) as Hg. pose proof (Z.ggcd_correct_divisors k 1) as Hd.
  destruct (Z.ggcd k 1) as [g [aa bb]]. cbn [fst snd] in *.
  rewrite Z.gcd_1_r in Hg. subst g. destruct Hd as [Hk Hb].
  rewrite !Z.mul_1_l in *. now subst.
Qed.

(** The values the integer column accepts are the whole numbers of 32
    bits. *)
Lemma int4_spec (q : Q) :
  GenerateReceipt.int4 q = true <->
  exists n : Z, q == inject_Z n /\ (-2147483648 <= n <= 2147483647)%Z.
Proof.
  unfold GenerateReceipt.int4. split.
  - intros H. apply andb_true_iff in H as [H Hhi]. apply andb_true_iff in H as [Hden Hlo].
    apply Pos.eqb_eq in Hden. apply Z.leb_le in Hlo, Hhi.
    exists (Qnum (Qred q)). split; [|lia].
    rewrite <- (Qred_correct q) at 1.
    destruct (Qred q) as [a b]. cbn [Qden Qnum] in *. subst b. reflexivity.
  - intros (n & Hq & Hlo & Hhi).
    assert (E : Qred q = inject_Z n).
    { rewrite <- (Qred_inject_Z n). now apply Qred_complete. }
    rewrite E. cbn [Qden Qnum inject_Z]. rewrite Pos.eqb_refl. cbn [andb].
    apply andb_true_iff. split; apply Z.leb_le; lia.
Qed.

(** ** The webhook reconciler rejects unverified events *)

(** C7, as stated: a delivery that carries no signature at all is rejected,
    but not with a client error: the handler throws and its outermost
    [catch] answers with status 500. *)
Lemma missing_signature_is_server_error :
  let env := Sample.environment (Sample.processor true true true) "t1" "u1" in
  let req := {| StripeWebhook.method := "POST";
                StripeWebhook.stripe_signature := None;
                StripeWebhook.raw_body := "{}" |} in
  status (fst (StripeWebhook.stripe_webhook env req Sample.world)) = 500%Z /\
  is_client_error (fst (StripeWebhook.stripe_webhook env req Sample.world)) = false /\
  snd (StripeWebhook.stripe_webhook env req Sample.world) = Sample.world.
Proof. cbv zeta. repeat split. Qed.

(** C7, amended: a delivery that is not verified changes nothing, whatever
    the reason: the jobs, profiles and receipts tables are as before and the
    processor's API has not been called.  It is answered with a client
    error, status 400 and the text "Webhook signature verification failed",
    when the signature header is present, both secrets are configured and
    the verification throws.  Without a signature header (or with an empty
    one) the answer is the server error 500 {error: "No Stripe signature
    found"}, and with a header but without one of the secrets it is 500
    {error: "Missing Stripe configuration"}. *)
Theorem invalid_signature_rejected (env : Env) (req : StripeWebhook.Request)
    (w : World) :
  StripeWebhook.method req <> "OPTIONS" ->
  (truthy (StripeWebhook.stripe_signature req) = true ->
   truthy (STRIPE_SECRET_KEY env) = true ->
   truthy (STRIPE_WEBHOOK_SECRET env) = true ->
   forall e,
     webhooks_constructEvent (stripe env) (StripeWebhook.raw_body req)
       (render (StripeWebhook.stripe_signature req))
       (render (STRIPE_WEBHOOK_SECRET env)) = Err e ->
     fst (StripeWebhook.stripe_webhook env req w)
       = {| status := 400; body := Text "Webhook signature verification failed" |} /\
     is_client_error (fst (StripeWebhook.stripe_webhook env req w)) = true /\
     snd (StripeWebhook.stripe_webhook env req w) = w) /\
  (truthy (StripeWebhook.stripe_signature req) = false ->
   fst (StripeWebhook.stripe_webhook env req w)
     = {| status := 500;
          body := Json (JObj [("error", JStr "No Stripe signature found")]) |} /\
   is_client_error (fst (StripeWebhook.stripe_webhook env req w)) = false /\
   snd (StripeWebhook.stripe_webhook env req w) = w) /\
  (truthy (StripeWebhook.stripe_signature req) = true ->
   truthy (STRIPE_SECRET_KEY env) && truthy (STRIPE_WEBHOOK_SECRET env) = false ->
   fst (StripeWebhook.stripe_webhook env req w)
     = {| status := 500;
          body := Json (JObj [("error", JStr "Missing Stripe configuration")]) |} /\
   is_client_error (fst (StripeWebhook.stripe_webhook env req w)) = false /\
   snd (StripeWebhook.stripe_webhook env req w) = w).
Proof.
  intros Hm.
  unfold StripeWebhook.stripe_webhook, StripeWebhook.handler.
  rewrite (not_options _ Hm).
  split; [|split].
  - intros Hsig Hkey Hsecret e Hverify.
    rewrite Hsig, Hkey, Hsecret. cbn [negb orb].
    unfold_monad. rewrite Hverify. cbn. auto.
  - intros Hsig. rewrite Hsig. cbn [negb]. unfold_monad. cbn. auto.
  - intros Hsig Hconf. rewrite Hsig. cbn [negb].
    destruct (truthy (STRIPE_SECRET_KEY env)), (truthy (STRIPE_WEBHOOK_SECRET env));
      try discriminate Hconf; cbn [negb orb]; unfold_monad; cbn; auto.
Qed.

Lemma invalid_signature_rejected_witness :
  (truthy (StripeWebhook.stripe_signature (Sample.webhook_request "forged")) = true ->
   truthy (STRIPE_SECRET_KEY (Sample.environment (Sample.processor true true true) "t1" "u1")) = true ->
   truthy (STRIPE_WEBHOOK_SECRET (Sample.environment (Sample.processor true true true) "t1" "u1")) = true ->
   forall e,
     webhooks_constructEvent
       (stripe (Sample.environment (Sample.processor true true true) "t1" "u1"))
       (StripeWebhook.raw_body (Sample.webhook_request "forged"))
       (render (StripeWebhook.stripe_signature (Sample.webhook_request "forged")))
       (render (STRIPE_WEBHOOK_SECRET (Sample.environment (Sample.processor true true true) "t1" "u1"))) = Err e ->
     fst (StripeWebhook.stripe_webhook
         (Sample.environment (Sample.processor true true true) "t1" "u1")
         (Sample.webhook_request "forged") Sample.world)
       = {| status := 400; body := Text "Webhook signature verification failed" |} /\
     is_client_error (fst (StripeWebhook.stripe_webhook
         (Sample.environment (Sample.processor true true true) "t1" "u1")
         (Sample.webhook_request "forged") Sample.world)) = true /\
     snd (StripeWebhook.stripe_webhook
         (Sample.environment (Sample.processor true true true) "t1" "u1")
         (Sample.webhook_request "forged") Sample.world) = Sample.world) /\
  (truthy (StripeWebhook.stripe_signature (Sample.webhook_request "forged")) = false ->
   fst (StripeWebhook.stripe_webhook
         (Sample.environment (Sample.processor true true true) "t1" "u1")
         (Sample.webhook_request "forged") Sample.world)
     = {| status := 500;
          body := Json (JObj [("error", JStr "No Stripe signature found")]) |} /\
   is_client_error (fst (StripeWebhook.stripe_webhook
         (Sample.environment (Sample.processor true true true) "t1" "u1")
         (Sample.webhook_request "forged") Sample.world)) = false /\
   snd (StripeWebhook.stripe_webhook
         (Sample.environment (Sample.processor true true true) "t1" "u1")
         (Sample.webhook_request "forged") Sample.world) = Sample.world) /\
  (truthy (StripeWebhook.stripe_signature (Sample.webhook_request "forged")) = true ->
   truthy (STRIPE_SECRET_KEY (Sample.environment (Sample.processor true true true) "t1" "u1"))
   && truthy (STRIPE_WEBHOOK_SECRET (Sample.environment (Sample.processor true true true) "t1" "u1")) = false ->
   fst (StripeWebhook.stripe_webhook
         (Sample.environment (Sample.processor true true true) "t1" "u1")
         (Sample.webhook_request "forged") Sample.world)
     = {| status := 500;
          body := Json (JObj [("error", JStr "Missing Stripe configuration")]) |} /\
   is_client_error (fst (StripeWebhook.stripe_webhook
         (Sample.environment (Sample.processor true true true) "t1" "u1")
         (Sample.webhook_request "forged") Sample.world)) = false /\
   snd (StripeWebhook.stripe_webhook
         (Sample.environment (Sample.processor true true true) "t1" "u1")
         (Sample.webhook_request "forged") Sample.world) = Sample.world).
Proof.
  apply (invalid_signature_rejected
           (Sample.environment (Sample.processor true true true) "t1" "u1")
           (Sample.webhook_request "forged") Sample.world).
  discriminate.
Defined.

(** The forged delivery of the sample is answered with the client error. *)
Lemma forged_delivery_rejected :
  fst (StripeWebhook.stripe_webhook
         (Sample.environment (Sample.processor true true true) "t1" "u1")
         (Sample.webhook_request "forged") Sample.world)
    = {| status := 400; body := Text "Webhook signature verification failed" |} /\
  snd (StripeWebhook.stripe_webhook
         (Sample.environment (Sample.processor true true true) "t1" "u1")
         (Sample.webhook_request "forged") Sample.world) = Sample.world.
Proof. split; reflexivity. Qed.

(** A webhook request answered with a client error never changes the
    tables, whatever the reason of the rejection. *)
Lemma client_error_changes_nothing (env : Env) (req : StripeWebhook.Request)
    (w : World) :
  is_client_error (fst (StripeWebhook.stripe_webhook env req w)) = true ->
  snd (StripeWebhook.stripe_webhook env req w) = w.
Proof.
  unfold StripeWebhook.stripe_webhook, StripeWebhook.handler.
  destruct (String.eqb (StripeWebhook.method req) "OPTIONS"); [discriminate|].
  destruct (truthy (StripeWebhook.stripe_signature req)); [|discriminate].
  destruct (truthy (STRIPE_SECRET_KEY env)); [|discriminate].
  destruct (truthy (STRIPE_WEBHOOK_SECRET env)); [|discriminate].
  cbn [negb orb]. unfold_monad.
  destruct (webhooks_constructEvent _ _ _ _) as [event|]; [|reflexivity].
  destruct (String.eqb (event_type event) _); [|discriminate].
  destruct (truthy (cs_metadata_job_id (event_object event))); cbn [negb];
    [|reflexivity].
  destruct (jobs (db w) !! _); [|discriminate].
  unfold StripeWebhook.trigger_receipt.
  destruct (GenerateReceipt.generate_receipt _ _ _). discriminate.
Qed.

(** ** Minimum amount *)

(** C8: for every job whose base price plus fee is below 50 cents, the
    checkout orchestrator answers success:false and calls the processor
    neither for a checkout session nor for anything else; the tables are
    unchanged. *)
Theorem below_minimum_rejected (env : Env) (req : CreateCheckout.Request)
    (w : World) (id : string) (job : Job) (base : Q) :
  CreateCheckout.method req <> "OPTIONS" ->
  CreateCheckout.request_body req = CreateCheckout.Object (Some id) ->
  jobs (db w) !! id = Some job ->
  CreateCheckout.basePriceInCents job = Some base ->
  fadd base (CreateCheckout.calculatePlatformFee base) < 50 ->
  success_of (fst (CreateCheckout.create_checkout env req w)) = Some false /\
  snd (CreateCheckout.create_checkout env req w) = w.
Proof.
  intros Hm Hbody Hjob Hbase Htotal. apply Qltb_true in Htotal.
  unfold CreateCheckout.create_checkout, CreateCheckout.handler.
  rewrite (not_options _ Hm), Hbody.
  destruct (truthy (STRIPE_SECRET_KEY env)); cbn [negb]; [|unfold_monad; cbn; auto].
  destruct (truthy (Some id)) eqn:Hid; cbn [negb]; [|unfold_monad; cbn; auto].
  cbn [render]. unfold_monad. rewrite Hjob, Hbase, Htotal. cbn. auto.
Qed.

Lemma below_minimum_rejected_witness :
  success_of (fst (CreateCheckout.create_checkout
                     (Sample.environment (Sample.processor true true true) "t1" "u1")
                     (Sample.checkout_request "job-2") Sample.world)) = Some false /\
  snd (CreateCheckout.create_checkout
         (Sample.environment (Sample.processor true true true) "t1" "u1")
         (Sample.checkout_request "job-2") Sample.world) = Sample.world.
Proof.
  apply (below_minimum_rejected _ _ _ "job-2" Sample.job2 1);
    [discriminate | reflexivity | reflexivity | reflexivity | reflexivity].
Defined.

(** ** Account onboarding *)

(** C9, as stated: with a connected account that the processor reports
    able to accept charges, the onboarding operation does short-circuit,
    but the response it returns has success:true, not success:false. *)
Lemma already_connected_is_success_true :
  let env := Sample.environment (Sample.processor true true true) "t1" "u1" in
  let resp := fst (StripeConnect.stripe_connect env Sample.connect_request Sample.world) in
  stripe_account_id Sample.owner = Some "acct_owner" /\
  accounts_retrieve (stripe env) "acct_owner"
    = Ok {| account_id := "acct_owner"; details_submitted := true;
            charges_enabled := true |} /\
  field "already_connected" (body_json resp) = Some (JBool true) /\
  success_of resp = Some true /\
  success_of resp <> Some false.
Proof. cbv zeta. repeat split; try reflexivity. vm_compute. discriminate. Qed.

(** C9, amended: when the calling user already has a connected account and
    the processor reports that its details are submitted and that it can
    accept charges, the onboarding operation short-circuits: it creates
    neither an account nor an onboarding link (its only call to the
    processor is the status query) and answers
    {success:true, url, already_connected:true} with the dashboard url. *)
Theorem already_connected_short_circuit (env : Env) (req : StripeConnect.Request)
    (w : World) (user : User) (p : Profile) (account : StripeAccount) :
  StripeConnect.method req <> "OPTIONS" ->
  truthy (StripeConnect.authorization req) = true ->
  auth_getUser env
    (StripeConnect.replace "Bearer " "" (render (StripeConnect.authorization req)))
    = Ok user ->
  truthy (user_email user) = true ->
  single (List.filter (fun q => String.eqb (profile_id q) (user_id user))
            (profiles (db w))) = Ok p ->
  truthy (stripe_account_id p) = true ->
  truthy (STRIPE_SECRET_KEY env) = true ->
  accounts_retrieve (stripe env) (render (stripe_account_id p)) = Ok account ->
  details_submitted account = true ->
  charges_enabled account = true ->
  let result := StripeConnect.stripe_connect env req w in
  fst result = StripeConnect.already_connected_response /\
  success_of (fst result) = Some true /\
  field "already_connected" (body_json (fst result)) = Some (JBool true) /\
  field "url" (body_json (fst result)) = Some (JStr StripeConnect.dashboard_url) /\
  stripe_log (snd result)
    = stripe_log w ++ [AccountsRetrieve (render (stripe_account_id p))] /\
  List.filter is_link_create (stripe_log (snd result))
    = List.filter is_link_create (stripe_log w) /\
  jobs (db (snd result)) = jobs (db w) /\
  receipts (db (snd result)) = receipts (db w).
Proof.
  intros Hm Hauth Huser Hemail Hprofile Hacct Hkey Hretrieve Hdetails Hcharges.
  assert (E : StripeConnect.stripe_connect env req w
              = (StripeConnect.already_connected_response,
                 {| db := if StripeConnect.same_flag true (stripe_connected p)
                          then db w
                          else match updateError env "profiles" (user_id user) with
                               | Some _ => db w
                               | None =>
                                   StripeConnect.update_profile (user_id user)
                                     (StripeConnect.set_connected true (now env)) (db w)
                               end;
                    stripe_log := stripe_log w
                                  ++ [AccountsRetrieve (render (stripe_account_id p))] |})).
  { unfold StripeConnect.stripe_connect, StripeConnect.handler.
    rewrite (not_options _ Hm), Hauth, Huser, Hemail. cbn [negb].
    unfold_monad. rewrite Hprofile. unfold StripeConnect.check_existing.
    rewrite Hacct, Hkey. cbn [negb]. unfold_monad.
    rewrite Hretrieve, Hdetails, Hcharges. cbn [andb].
    destruct (StripeConnect.same_flag true (stripe_connected p)); cbn;
      [reflexivity|].
    destruct (updateError env "profiles" (user_id user)); reflexivity. }
  cbv zeta. rewrite E. cbn [fst snd stripe_log db].
  repeat split; try reflexivity.
  - rewrite List.filter_app. cbn. apply app_nil_r.
  - destruct (StripeConnect.same_flag true (stripe_connected p)),
      (updateError env "profiles" (user_id user)); reflexivity.
  - destruct (StripeConnect.same_flag true (stripe_connected p)),
      (updateError env "profiles" (user_id user)); reflexivity.
Qed.

Lemma already_connected_short_circuit_witness :
  let result := StripeConnect.stripe_connect
                  (Sample.environment (Sample.processor true true true) "t1" "u1")
                  Sample.connect_request Sample.world in
  fst result = StripeConnect.already_connected_response /\
  success_of (fst result) = Some true /\
  field "already_connected" (body_json (fst result)) = Some (JBool true) /\
  field "url" (body_json (fst result)) = Some (JStr StripeConnect.dashboard_url) /\
  stripe_log (snd result)
    = stripe_log Sample.world ++ [AccountsRetrieve (render (stripe_account_id Sample.owner))] /\
  List.filter is_link_create (stripe_log (snd result))
    = List.filter is_link_create (stripe_log Sample.world) /\
  jobs (db (snd result)) = jobs (db Sample.world) /\
  receipts (db (snd result)) = receipts (db Sample.world).
Proof.
  apply (already_connected_short_circuit
           (Sample.environment (Sample.processor true true true) "t1" "u1")
           Sample.connect_request Sample.world
           {| user_id := "user-1"; user_email := Some "owner@example.com" |}
           Sample.owner
           {| account_id := "acct_owner"; details_submitted := true;
              charges_enabled := true |});
    [discriminate | reflexivity ..].
Defined.

(** Without submitted details the short-circuit does not apply even if the
    account can accept charges: a new onboarding link is generated. *)
Lemma charges_enabled_alone_does_not_short_circuit :
  stripe_log (snd (StripeConnect.stripe_connect
                     (Sample.environment (Sample.processor false true true) "t1" "u1")
                     Sample.connect_request Sample.world))
  = [AccountsRetrieve "acct_owner"; AccountLinksCreate "acct_owner"].
Proof. vm_compute. reflexivity. Qed.

(** ** The account router *)

Lemma single_Ok {A : Type} (rows : list A) (row : A) :
  single rows = Ok row -> rows = [row].
Proof.
  destruct rows as [|r [|r' rest]]; cbn; intros H; try discriminate.
  now injection H as ->.
Qed.

Lemma single_filter_Ok {A : Type} (f : A -> bool) (rows : list A) (row : A) :
  single (List.filter f rows) = Ok row -> In row rows /\ f row = true.
Proof.
  intros H. apply single_Ok in H. apply filter_In. rewrite H. now left.
Qed.

Lemma connected_profile_true (company : option string) (p : Profile) :
  CreateCheckout.connected_profile company p = true ->
  profile_company_id p = company /\ stripe_connected p = Some true.
Proof.
  unfold CreateCheckout.connected_profile.
  destruct company as [c|], (profile_company_id p) as [c'|],
    (stripe_connected p) as [[|]|]; try discriminate.
  intros H. apply String.eqb_eq in H. now subst.
Qed.

(** The routing decision always yields a value, leaves the tables alone and
    queries the processor at most once; connect routing is selected only
    for the single profile of the company that is flagged connected, stores
    an account other than the platform's, and whose account the processor
    reports able to accept charges. *)
Lemma determine_routing_spec (env : Env) (job : Job) (w : World) :
  exists r calls w',
    CreateCheckout.determine_routing env job w = (Value r, w') /\
    db w' = db w /\
    stripe_log w' = stripe_log w ++ calls /\
    List.filter is_session_create calls = [] /\
    (CreateCheckout.useStripeConnect r = true ->
     exists p acct account,
       single (List.filter (CreateCheckout.connected_profile (company_id job))
                 (profiles (db w))) = Ok p /\
       stripe_account_id p = Some acct /\
       acct <> "" /\
       acct <> CreateCheckout.PLATFORM_STRIPE_ACCOUNT_ID /\
       accounts_retrieve (stripe env) acct = Ok account /\
       charges_enabled account = true /\
       CreateCheckout.connectedStripeAccountId r = Some acct /\
       CreateCheckout.connectedAccountChargesEnabled r = true).
Proof.
  unfold CreateCheckout.determine_routing.
  assert (Hplatform : forall P : CreateCheckout.Routing -> Prop,
             exists r calls w',
               (Value CreateCheckout.platform_routing, w) = (Value r, w') /\
               db w' = db w /\ stripe_log w' = stripe_log w ++ calls /\
               List.filter is_session_create calls = [] /\
               (CreateCheckout.useStripeConnect r = true -> P r)).
  { intros P. exists CreateCheckout.platform_routing, [], w.
    rewrite app_nil_r. repeat split. discriminate. }
  destruct (truthy (company_id job)); [|apply Hplatform].
  unfold_monad.
  destruct (single _) as [p|] eqn:Hp; [|apply Hplatform].
  destruct (truthy (stripe_account_id p)) eqn:Hacct; [|apply Hplatform].
  destruct (truthy_Some _ Hacct) as (acct & Ea & Hne & Er). rewrite Er.
  destruct (String.eqb acct CreateCheckout.PLATFORM_STRIPE_ACCOUNT_ID) eqn:Hpl;
    cbn [negb].
  { eexists _, [], w. rewrite app_nil_r. repeat split. discriminate. }
  apply String.eqb_neq in Hpl.
  destruct (accounts_retrieve (stripe env) acct) as [account|e] eqn:Hr.
  - destruct (charges_enabled account) eqn:Hc.
    + eexists _, [AccountsRetrieve acct], _. repeat split.
      intros _. exists p, acct, account. repeat split; assumption.
    + eexists _, [AccountsRetrieve acct], _. repeat split. discriminate.
  - eexists _, [AccountsRetrieve acct], _. repeat split. discriminate.
Qed.

(** C4: the account router returns platform routing whenever no profile of
    the tenant stores a connected-account identifier; whenever the
    processor's live query reports charges_enabled=false for the accounts
    the tenant stores, whatever the cached connected flag of the profile
    says; and whenever that query fails. *)
Theorem router_falls_back_to_platform (env : Env) (job : Job) (w : World) :
  ((forall p, In p (profiles (db w)) ->
              profile_company_id p = company_id job ->
              truthy (stripe_account_id p) = false) ->
   CreateCheckout.routes_to_platform (CreateCheckout.determine_routing env job w)) /\
  ((forall p acct, In p (profiles (db w)) ->
              profile_company_id p = company_id job ->
              stripe_account_id p = Some acct ->
              exists account, accounts_retrieve (stripe env) acct = Ok account /\
                              charges_enabled account = false) ->
   CreateCheckout.routes_to_platform (CreateCheckout.determine_routing env job w)) /\
  ((forall p acct, In p (profiles (db w)) ->
              profile_company_id p = company_id job ->
              stripe_account_id p = Some acct ->
              exists e, accounts_retrieve (stripe env) acct = Err e) ->
   CreateCheckout.routes_to_platform (CreateCheckout.determine_routing env job w)).
Proof.
  destruct (determine_routing_spec env job w)
    as (r & calls & w' & E & _ & _ & _ & Hconnect).
  unfold CreateCheckout.routes_to_platform. rewrite E. cbn [fst].
  assert (Hcases : forall P : Prop,
            (forall p acct account,
               In p (profiles (db w)) -> profile_company_id p = company_id job ->
               stripe_account_id p = Some acct -> acct <> "" ->
               accounts_retrieve (stripe env) acct = Ok account ->
               charges_enabled account = true -> False) ->
            CreateCheckout.useStripeConnect r = false).
  { intros _ Hno. destruct (CreateCheckout.useStripeConnect r); [|reflexivity].
    destruct (Hconnect eq_refl) as (p & acct & account & Hp & Ha & Hne & _ & Hr & Hc & _).
    apply single_filter_Ok in Hp. destruct Hp as [Hin Hf].
    apply connected_profile_true in Hf. destruct Hf as [Hco _].
    exfalso. exact (Hno p acct account Hin Hco Ha Hne Hr Hc). }
  repeat split; intros H; apply (Hcases True); intros p acct account Hin Hco Ha Hne Hr Hc.
  - specialize (H p Hin Hco). rewrite Ha in H. cbn in H.
    apply String.eqb_neq in Hne. rewrite Hne in H. discriminate.
  - destruct (H p acct Hin Hco Ha) as (account' & Hr' & Hc'). congruence.
  - destruct (H p acct Hin Hco Ha) as (e & Hr'). congruence.
Qed.

Lemma router_falls_back_to_platform_witness :
  CreateCheckout.routes_to_platform
    (CreateCheckout.determine_routing (Sample.environment (Sample.processor true true true) "t1" "u1")
       Sample.job1 (Sample.world_of Sample.newcomer)) /\
  CreateCheckout.routes_to_platform
    (CreateCheckout.determine_routing (Sample.environment (Sample.processor true false true) "t1" "u1")
       Sample.job1 (Sample.world_of Sample.owner)) /\
  CreateCheckout.routes_to_platform
    (CreateCheckout.determine_routing (Sample.environment (Sample.processor true true true) "t1" "u1")
       Sample.job1 (Sample.world_of Sample.stale)).
Proof.
  split; [|split].
  - apply (proj1 (router_falls_back_to_platform _ _ _)).
    intros p [<-|[]] _. reflexivity.
  - apply (proj1 (proj2 (router_falls_back_to_platform _ _ _))).
    intros p acct [<-|[]] _ [= <-]. eexists. split; reflexivity.
  - apply (proj2 (proj2 (router_falls_back_to_platform _ _ _))).
    intros p acct [<-|[]] _ [= <-]. eexists. reflexivity.
Defined.

(** The cached flag of the sample owner says connected, the live query
    says the account cannot accept charges: the job is routed to the
    platform, after one query to the processor. *)
Lemma cached_flag_is_not_trusted :
  stripe_connected Sample.owner = Some true /\
  CreateCheckout.determine_routing (Sample.environment (Sample.processor true false true) "t1" "u1")
    Sample.job1 Sample.world
  = (Value {| CreateCheckout.useStripeConnect := false;
              CreateCheckout.connectedStripeAccountId := Some "acct_owner";
              CreateCheckout.connectedAccountChargesEnabled := false |},
     {| db := Sample.database; stripe_log := [AccountsRetrieve "acct_owner"] |}).
Proof. split; reflexivity. Qed.

(** ** The checkout orchestrator *)

(** The four ways in which the creation of the session can end. *)
Lemma create_session_eq (env : Env) (job_id : string) (base platformFee total : Q)
    (r : CreateCheckout.Routing) (config : SessionConfig) (w1 : World) :
  CreateCheckout.create_session env job_id base platformFee total r config w1 =
  let acct := if CreateCheckout.useStripeConnect r
                 && truthy (CreateCheckout.connectedStripeAccountId r)
              then CreateCheckout.connectedStripeAccountId r else None in
  let log2 := stripe_log w1 ++ [CheckoutSessionsCreate config acct] in
  match checkout_sessions_create (stripe env) config acct with
  | Ok session =>
      (Returned (CreateCheckout.success_response session base platformFee total r),
       {| db := match updateError env "jobs" job_id with
                | Some _ => db w1
                | None =>
                    CreateCheckout.set_payment_url job_id (session_url session) (db w1)
                end;
          stripe_log := log2 |})
  | Err e =>
      if CreateCheckout.useStripeConnect r then
        let log3 :=
          log2 ++ [CheckoutSessionsCreate (CreateCheckout.fallbackConfig config) None] in
        match checkout_sessions_create (stripe env)
                (CreateCheckout.fallbackConfig config) None with
        | Ok fallbackSession =>
            (Returned (CreateCheckout.fallback_response fallbackSession),
             {| db := db w1; stripe_log := log3 |})
        | Err e' => (Thrown e', {| db := db w1; stripe_log := log3 |})
        end
      else (Thrown e, {| db := db w1; stripe_log := log2 |})
  end.
Proof.
  unfold CreateCheckout.create_session. unfold_monad. cbv zeta.
  destruct (CreateCheckout.useStripeConnect r
            && truthy (CreateCheckout.connectedStripeAccountId r)) eqn:Hc;
    destruct (checkout_sessions_create (stripe env) config _) as [session|e];
    cbn [db stripe_log];
    try (destruct (updateError env "jobs" job_id); reflexivity);
    destruct (CreateCheckout.useStripeConnect r); try reflexivity;
    cbn [db stripe_log];
    destruct (checkout_sessions_create (stripe env) _ None); reflexivity.
Qed.

(** A request that passes validation and the minimum-amount check ends
    with the creation of the session; an exception thrown there is
    reported as a failure. *)
Lemma create_checkout_reaches_session (env : Env) (req : CreateCheckout.Request)
    (w : World) (id : string) (job : Job) (base : Q)
    (r : CreateCheckout.Routing) (w1 : World) :
  CreateCheckout.method req <> "OPTIONS" ->
  truthy (STRIPE_SECRET_KEY env) = true ->
  CreateCheckout.request_body req = CreateCheckout.Object (Some id) ->
  id <> "" ->
  jobs (db w) !! id = Some job ->
  CreateCheckout.basePriceInCents job = Some base ->
  50 <= fadd base (CreateCheckout.calculatePlatformFee base) ->
  CreateCheckout.determine_routing env job w = (Value r, w1) ->
  CreateCheckout.create_checkout env req w =
  let platformFee := CreateCheckout.calculatePlatformFee base in
  let total := fadd base platformFee in
  match CreateCheckout.create_session env id base platformFee total r
          (CreateCheckout.sessionConfig req id job base platformFee total r) w1 with
  | (Value resp, w') => (resp, w')
  | (Returned resp, w') => (resp, w')
  | (Thrown e, w') => (CreateCheckout.reported_failure e, w')
  end.
Proof.
  intros Hm Hkey Hbody Hid Hjob Hbase Htotal Hroute.
  apply Qltb_false in Htotal.
  unfold CreateCheckout.create_checkout, CreateCheckout.handler.
  rewrite (not_options _ Hm), Hkey, Hbody. cbn [negb truthy render].
  apply String.eqb_neq in Hid. rewrite Hid. cbn [negb].
  unfold_monad. rewrite Hjob, Hbase, Htotal, Hroute. cbv zeta.
  destruct (CreateCheckout.create_session _ _ _ _ _ _ _ _) as [[resp|resp|e] w'];
    reflexivity.
Qed.

(** C5: if connect routing was selected and the creation of the checkout
    session fails, the orchestrator retries exactly once, in the platform
    context and with the configuration of the first attempt from which only
    the payment intent data (application fee and destination) is removed:
    product, amount (base plus fee), return addresses and metadata are
    those of the first attempt; if the retry succeeds the response is
    success:true with a warning and without any error field, whatever the
    error of the first attempt was.  If platform-only routing was selected
    and the creation fails, the error is reported: success:false with the
    message of the error, after a single attempt. *)
Theorem connect_failure_falls_back (env : Env) (req : CreateCheckout.Request)
    (w : World) (id : string) (job : Job) (base : Q)
    (r : CreateCheckout.Routing) (w1 : World) (e : string) :
  CreateCheckout.method req <> "OPTIONS" ->
  truthy (STRIPE_SECRET_KEY env) = true ->
  CreateCheckout.request_body req = CreateCheckout.Object (Some id) ->
  id <> "" ->
  jobs (db w) !! id = Some job ->
  CreateCheckout.basePriceInCents job = Some base ->
  50 <= fadd base (CreateCheckout.calculatePlatformFee base) ->
  CreateCheckout.determine_routing env job w = (Value r, w1) ->
  let platformFee := CreateCheckout.calculatePlatformFee base in
  let config := CreateCheckout.sessionConfig req id job base platformFee
                  (fadd base platformFee) r in
  let retry := {| product_name := product_name config;
                  product_description := product_description config;
                  unit_amount := unit_amount config;
                  success_url := success_url config;
                  cancel_url := cancel_url config;
                  metadata := metadata config;
                  payment_intent_data := None |} in
  let result := CreateCheckout.create_checkout env req w in
  (CreateCheckout.useStripeConnect r = true ->
   checkout_sessions_create (stripe env) config
     (CreateCheckout.connectedStripeAccountId r) = Err e ->
   payment_intent_data retry = None /\
   unit_amount retry = fadd base platformFee /\
   product_name retry = or_else (job_name job) "Service" /\
   success_url retry
     = render (CreateCheckout.origin req)
       +:+ "/payment-success?session_id={CHECKOUT_SESSION_ID}" /\
   cancel_url retry = render (CreateCheckout.origin req) +:+ "/" /\
   md_job_id (metadata retry) = id /\
   payment_intent_data config
     = Some {| application_fee_amount := platformFee;
               transfer_destination := CreateCheckout.connectedStripeAccountId r |} /\
   stripe_log (snd result)
     = stripe_log w1
       ++ [CheckoutSessionsCreate config (CreateCheckout.connectedStripeAccountId r);
           CheckoutSessionsCreate retry None] /\
   forall fallbackSession,
     checkout_sessions_create (stripe env) retry None = Ok fallbackSession ->
     fst result = CreateCheckout.fallback_response fallbackSession /\
     success_of (fst result) = Some true /\
     has_field "warning" (body_json (fst result)) = true /\
     has_field "error" (body_json (fst result)) = false) /\
  (CreateCheckout.useStripeConnect r = false ->
   checkout_sessions_create (stripe env) config None = Err e ->
   stripe_log (snd result) = stripe_log w1 ++ [CheckoutSessionsCreate config None] /\
   success_of (fst result) = Some false /\
   field "error" (body_json (fst result))
     = Some (JStr (or_else (Some e) "Internal server error"))).
Proof.
  intros Hm Hkey Hbody Hid Hjob Hbase Htotal Hroute platformFee config retry result.
  subst result.
  rewrite (create_checkout_reaches_session env req w id job base r w1
             Hm Hkey Hbody Hid Hjob Hbase Htotal Hroute).
  cbv zeta. fold platformFee. fold config. rewrite create_session_eq. cbv zeta.
  change (CreateCheckout.fallbackConfig config) with retry. split.
  - intros Hconnect Hfail.
    destruct (determine_routing_spec env job w)
      as (r' & calls & w1' & E & _ & _ & _ & Hacct).
    rewrite Hroute in E. injection E as <- <-.
    destruct (Hacct Hconnect) as (p & acct & account & _ & _ & Hne & _ & _ & _ & Hid' & _).
    rewrite Hconnect, Hid' in *. cbn [andb truthy].
    apply String.eqb_neq in Hne. rewrite Hne. cbn [negb].
    rewrite Hfail. do 6 (split; [reflexivity|]). split.
    { subst config. unfold CreateCheckout.sessionConfig. cbn [payment_intent_data].
      rewrite Hconnect. cbn [andb].
      assert (Hfee : Qltb 0 platformFee = true).
      { apply Qltb_true. subst platformFee.
        destruct (base_cents_integer job base Hbase) as (z & Hz & ->).
        now apply fee_positive_on_cents. }
      rewrite Hfee, ?Hid'. reflexivity. }
    split.
    + destruct (checkout_sessions_create (stripe env) retry None);
        cbn [snd stripe_log]; now rewrite <- app_assoc.
    + intros fallbackSession Hok. rewrite Hok. cbn [fst]. repeat split.
  - intros Hplatform Hfail. rewrite Hplatform. cbn [andb].
    rewrite Hfail. cbn [fst snd stripe_log]. repeat split.
Qed.

Lemma connect_failure_falls_back_witness :
  (let env := Sample.environment (Sample.processor true true false) "t1" "u1" in
   let req := Sample.checkout_request "job-1" in
   let r := {| CreateCheckout.useStripeConnect := true;
               CreateCheckout.connectedStripeAccountId := Some "acct_owner";
               CreateCheckout.connectedAccountChargesEnabled := true |} in
   let config := CreateCheckout.sessionConfig req "job-1" Sample.job1 4999
                   (CreateCheckout.calculatePlatformFee 4999)
                   (fadd 4999 (CreateCheckout.calculatePlatformFee 4999)) r in
   let retry := {| product_name := product_name config;
                   product_description := product_description config;
                   unit_amount := unit_amount config;
                   success_url := success_url config;
                   cancel_url := cancel_url config;
                   metadata := metadata config;
                   payment_intent_data := None |} in
   let result := CreateCheckout.create_checkout env req Sample.world in
   payment_intent_data retry = None /\
   unit_amount retry = fadd 4999 (CreateCheckout.calculatePlatformFee 4999) /\
   product_name retry = or_else (job_name Sample.job1) "Service" /\
   success_url retry
     = render (CreateCheckout.origin req)
       +:+ "/payment-success?session_id={CHECKOUT_SESSION_ID}" /\
   cancel_url retry = render (CreateCheckout.origin req) +:+ "/" /\
   md_job_id (metadata retry) = "job-1" /\
   payment_intent_data config
     = Some {| application_fee_amount := CreateCheckout.calculatePlatformFee 4999;
               transfer_destination := Some "acct_owner" |} /\
   stripe_log (snd result)
     = [AccountsRetrieve "acct_owner"]
       ++ [CheckoutSessionsCreate config (Some "acct_owner");
           CheckoutSessionsCreate retry None] /\
   forall fallbackSession,
     checkout_sessions_create (stripe env) retry None = Ok fallbackSession ->
     fst result = CreateCheckout.fallback_response fallbackSession /\
     success_of (fst result) = Some true /\
     has_field "warning" (body_json (fst result)) = true /\
     has_field "error" (body_json (fst result)) = false) /\
  (let env := Sample.environment Sample.outage "t1" "u1" in
   let req := Sample.checkout_request "job-1" in
   let config := CreateCheckout.sessionConfig req "job-1" Sample.job1 4999
                   (CreateCheckout.calculatePlatformFee 4999)
                   (fadd 4999 (CreateCheckout.calculatePlatformFee 4999))
                   CreateCheckout.platform_routing in
   let result := CreateCheckout.create_checkout env req
                   (Sample.world_of Sample.newcomer) in
   stripe_log (snd result) = [] ++ [CheckoutSessionsCreate config None] /\
   success_of (fst result) = Some false /\
   field "error" (body_json (fst result))
     = Some (JStr (or_else (Some "api_connection_error") "Internal server error"))).
Proof.
  split.
  - refine (proj1 (connect_failure_falls_back
                     (Sample.environment (Sample.processor true true false) "t1" "u1")
                     (Sample.checkout_request "job-1") Sample.world
                     "job-1" Sample.job1 4999
                     {| CreateCheckout.useStripeConnect := true;
                        CreateCheckout.connectedStripeAccountId := Some "acct_owner";
                        CreateCheckout.connectedAccountChargesEnabled := true |}
                     {| db := Sample.database;
                        stripe_log := [AccountsRetrieve "acct_owner"] |}
                     "No such destination" _ _ _ _ _ _ _ _) eq_refl eq_refl);
      [discriminate | reflexivity | reflexivity | discriminate
      | reflexivity | reflexivity | vm_compute; discriminate | reflexivity].
  - refine (proj2 (connect_failure_falls_back
                     (Sample.environment Sample.outage "t1" "u1")
                     (Sample.checkout_request "job-1")
                     (Sample.world_of Sample.newcomer)
                     "job-1" Sample.job1 4999
                     CreateCheckout.platform_routing
                     (Sample.world_of Sample.newcomer)
                     "api_connection_error" _ _ _ _ _ _ _ _) eq_refl eq_refl);
      [discriminate | reflexivity | reflexivity | discriminate
      | reflexivity | reflexivity | vm_compute; discriminate | reflexivity].
Defined.

(** C6: the success:true response of the primary path includes pricing_info
    and routing_info (sample job of 49.99 on a connected account), but when
    the creation of the session in the connected context fails and the
    platform-only retry succeeds, the success:true response has neither. *)
Lemma fallback_success_lacks_pricing_info :
  let primary := fst (CreateCheckout.create_checkout
                     (Sample.environment (Sample.processor true true true) "t1" "u1")
                     (Sample.checkout_request "job-1") Sample.world) in
  let resp := fst (CreateCheckout.create_checkout
                     (Sample.environment (Sample.processor true true false) "t1" "u1")
                     (Sample.checkout_request "job-1") Sample.world) in
  success_of primary = Some true /\
  has_field "pricing_info" (body_json primary) = true /\
  has_field "routing_info" (body_json primary) = true /\
  success_of resp = Some true /\
  has_field "pricing_info" (body_json resp) = false /\
  has_field "routing_info" (body_json resp) = false /\
  ~ (has_field "pricing_info" (body_json resp) = true /\
     has_field "routing_info" (body_json resp) = true).
Proof.
  cbv zeta. repeat split; try reflexivity. intros [H _]. vm_compute in H. discriminate H.
Qed.

Ltac crunch Hs :=
  unfold CreateCheckout.create_checkout, CreateCheckout.handler in Hs;
  repeat (first
    [ progress cbn [truthy negb render fst snd] in Hs
    | match goal with
      | H : _ = _ |- _ => tryif constr_eq H Hs then fail else rewrite H in Hs
      end
    | progress unfold_monad ]);
  cbn in Hs.

(** The two shapes of a success:true response of checkout initiation: the
    response of the primary path, sent after a single session creation
    call, which includes pricing_info with the computed base, fee and total
    and routing_info with the routing method used; and the response of the
    platform-only fallback path, sent after a second session creation call,
    which carries success, url, sessionId and warning only. *)
Lemma success_response_shapes (env : Env) (req : CreateCheckout.Request) (w : World) :
  success_of (fst (CreateCheckout.create_checkout env req w)) = Some true ->
  exists calls,
    stripe_log (snd (CreateCheckout.create_checkout env req w)) = stripe_log w ++ calls /\
    ((session_creations calls = 1%nat /\
      has_field "pricing_info" (body_json (fst (CreateCheckout.create_checkout env req w))) = true /\
      has_field "routing_info" (body_json (fst (CreateCheckout.create_checkout env req w))) = true /\
      has_field "warning" (body_json (fst (CreateCheckout.create_checkout env req w))) = false /\
      exists id job base r session,
        jobs (db w) !! id = Some job /\
        CreateCheckout.basePriceInCents job = Some base /\
        fst (CreateCheckout.create_checkout env req w)
        = CreateCheckout.success_response session base
            (CreateCheckout.calculatePlatformFee base)
            (fadd base (CreateCheckout.calculatePlatformFee base)) r)
     \/
     (session_creations calls = 2%nat /\
      has_field "pricing_info" (body_json (fst (CreateCheckout.create_checkout env req w))) = false /\
      has_field "routing_info" (body_json (fst (CreateCheckout.create_checkout env req w))) = false /\
      has_field "warning" (body_json (fst (CreateCheckout.create_checkout env req w))) = true /\
      exists fallbackSession,
        fst (CreateCheckout.create_checkout env req w)
        = CreateCheckout.fallback_response fallbackSession)).
Proof.
  intros Hs.
  destruct (String.eqb (CreateCheckout.method req) "OPTIONS") eqn:Hm.
  { exfalso. crunch Hs. discriminate Hs. }
  destruct (truthy (STRIPE_SECRET_KEY env)) eqn:Hkey.
  2:{ exfalso. crunch Hs. discriminate Hs. }
  destruct (CreateCheckout.request_body req) as [| |[id|]] eqn:Hbody.
  1,2,4: exfalso; crunch Hs; discriminate Hs.
  destruct (String.eqb id "") eqn:Hid.
  { exfalso. crunch Hs. discriminate Hs. }
  destruct (jobs (db w) !! id) as [job|] eqn:Hjob.
  2:{ exfalso. crunch Hs. discriminate Hs. }
  destruct (CreateCheckout.basePriceInCents job) as [base|] eqn:Hbase.
  2:{ exfalso. crunch Hs. discriminate Hs. }
  destruct (Qltb (fadd base (CreateCheckout.calculatePlatformFee base)) 50) eqn:Htotal.
  { exfalso. crunch Hs. discriminate Hs. }
  apply String.eqb_neq in Hm, Hid. apply Qltb_false in Htotal.
  destruct (determine_routing_spec env job w)
    as (r & calls0 & w1 & E & Hdb & Hlog & Hnone & _).
  rewrite (create_checkout_reaches_session env req w id job base r w1
             Hm Hkey Hbody Hid Hjob Hbase Htotal E) in *.
  cbv zeta in *. rewrite create_session_eq in *. cbv zeta in *.
  set (acct := if CreateCheckout.useStripeConnect r
                  && truthy (CreateCheckout.connectedStripeAccountId r)
               then CreateCheckout.connectedStripeAccountId r else None) in *.
  destruct (checkout_sessions_create (stripe env) _ acct) as [session|e].
  - eexists (calls0 ++ [_]). cbn [fst snd stripe_log]. rewrite Hlog, <- app_assoc.
    split; [reflexivity|]. left.
    unfold session_creations. rewrite List.filter_app, Hnone.
    repeat split. exists id, job, base, r, session. auto.
  - destruct (CreateCheckout.useStripeConnect r).
    2:{ exfalso. cbn in Hs. discriminate Hs. }
    destruct (checkout_sessions_create (stripe env) _ None) as [fallbackSession|e'].
    2:{ exfalso. cbn in Hs. discriminate Hs. }
    eexists (calls0 ++ [_; _]). cbn [fst snd stripe_log].
    rewrite Hlog, <- !app_assoc. split; [reflexivity|]. right.
    unfold session_creations. rewrite List.filter_app, Hnone.
    repeat split. exists fallbackSession. reflexivity.
Qed.

(** ** The split instructions on the calls of the orchestrator *)

Lemma no_session_create_in (calls : list StripeCall) config acct :
  List.filter is_session_create calls = [] ->
  ~ In (CheckoutSessionsCreate config acct) calls.
Proof.
  intros Hnone Hin.
  assert (H : In (CheckoutSessionsCreate config acct)
                (List.filter is_session_create calls))
    by (apply filter_In; split; [assumption | reflexivity]).
  rewrite Hnone in H. destruct H.
Qed.

Ltac early_exit :=
  exists []; rewrite app_nil_r; split; [|intros ? ? []];
  unfold CreateCheckout.create_checkout, CreateCheckout.handler;
  repeat (first
    [ progress cbn [truthy negb render fst snd]
    | match goal with H : _ = _ |- _ => rewrite H end
    | progress unfold_monad ]);
  reflexivity.

(** In every run of the orchestrator, each session that is created in the
    context of a connected account carries the split instructions: a
    positive application fee and that account as destination. *)
Lemma connect_calls_carry_split (env : Env) (req : CreateCheckout.Request) (w : World) :
  exists calls,
    stripe_log (snd (CreateCheckout.create_checkout env req w)) = stripe_log w ++ calls /\
    forall config acct,
      In (CheckoutSessionsCreate config (Some acct)) calls ->
      exists platformFee,
        0 < platformFee /\
        payment_intent_data config
        = Some {| application_fee_amount := platformFee;
                  transfer_destination := Some acct |}.
Proof.
  destruct (String.eqb (CreateCheckout.method req) "OPTIONS") eqn:Hm; [early_exit|].
  destruct (truthy (STRIPE_SECRET_KEY env)) eqn:Hkey; [|early_exit].
  destruct (CreateCheckout.request_body req) as [| |[id|]] eqn:Hbody;
    [early_exit | early_exit | | early_exit].
  destruct (String.eqb id "") eqn:Hid; [early_exit|].
  destruct (jobs (db w) !! id) as [job|] eqn:Hjob; [|early_exit].
  destruct (CreateCheckout.basePriceInCents job) as [base|] eqn:Hbase; [|early_exit].
  destruct (Qltb (fadd base (CreateCheckout.calculatePlatformFee base)) 50) eqn:Htotal;
    [early_exit|].
  apply String.eqb_neq in Hm, Hid. apply Qltb_false in Htotal.
  destruct (determine_routing_spec env job w)
    as (r & calls0 & w1 & E & Hdb & Hlog & Hnone & _).
  rewrite (create_checkout_reaches_session env req w id job base r w1
             Hm Hkey Hbody Hid Hjob Hbase Htotal E).
  cbv zeta. rewrite create_session_eq. cbv zeta.
  destruct (base_cents_integer job base Hbase) as (z & Hz & ->).
  pose proof (fee_positive_on_cents z Hz) as Hfee.
  set (platformFee := CreateCheckout.calculatePlatformFee (inject_Z z)) in *.
  set (config := CreateCheckout.sessionConfig req id job (inject_Z z) platformFee
                   (fadd (inject_Z z) platformFee) r).
  set (acct0 := if CreateCheckout.useStripeConnect r
                   && truthy (CreateCheckout.connectedStripeAccountId r)
                then CreateCheckout.connectedStripeAccountId r else None).
  assert (Hfirst : forall acct, acct0 = Some acct ->
            payment_intent_data config
            = Some {| application_fee_amount := platformFee;
                      transfer_destination := Some acct |}).
  { intros acct. subst acct0.
    destruct (CreateCheckout.useStripeConnect r) eqn:Hu; cbn [andb]; [|discriminate].
    destruct (truthy (CreateCheckout.connectedStripeAccountId r)); [|discriminate].
    intros Ha. unfold config, CreateCheckout.sessionConfig. cbn [payment_intent_data].
    rewrite Hu, Ha. cbn [andb].
    now rewrite (proj2 (Qltb_true 0 platformFee) Hfee). }
  assert (Hcases : forall rest,
            (forall config' acct, In (CheckoutSessionsCreate config' (Some acct)) rest -> False) ->
            forall config' acct,
              In (CheckoutSessionsCreate config' (Some acct))
                 (calls0 ++ CheckoutSessionsCreate config acct0 :: rest) ->
              exists fee, 0 < fee /\
                payment_intent_data config'
                = Some {| application_fee_amount := fee;
                          transfer_destination := Some acct |}).
  { intros rest Hrest config' acct Hin. apply in_app_or in Hin.
    destruct Hin as [Hin|[Heq|Hin]].
    - exfalso. exact (no_session_create_in calls0 _ _ Hnone Hin).
    - injection Heq as <- Ha. exists platformFee. split; [exact Hfee|]. now apply Hfirst.
    - exfalso. exact (Hrest _ _ Hin). }
  destruct (checkout_sessions_create (stripe env) config acct0) as [session|e].
  - exists (calls0 ++ [CheckoutSessionsCreate config acct0]).
    cbn [snd stripe_log]. rewrite Hlog, <- app_assoc. split; [reflexivity|].
    apply Hcases. intros ? ? [].
  - destruct (CreateCheckout.useStripeConnect r).
    + exists (calls0 ++ [CheckoutSessionsCreate config acct0;
                         CheckoutSessionsCreate (CreateCheckout.fallbackConfig config) None]).
      split.
      * destruct (checkout_sessions_create (stripe env) _ None);
          cbn [snd stripe_log]; now rewrite Hlog, <- !app_assoc.
      * apply Hcases. intros ? ? [H|[]]. discriminate H.
    + exists (calls0 ++ [CheckoutSessionsCreate config acct0]).
      cbn [snd stripe_log]. rewrite Hlog, <- app_assoc. split; [reflexivity|].
      apply Hcases. intros ? ? [].
Qed.

(** ** Replay of a webhook event *)


(** With a library build whose synchronous verification works, the same
    replay is acknowledged twice and the job is paid after each delivery,
    but two receipts are stored for the session id, not one, and the second
    delivery overwrites the paid timestamp and the receipt reference. *)
Lemma replay_stores_two_receipts :
  let env := Sample.environment (Sample.verifying true true true) "t1" "u1" in
  let req := Sample.webhook_request "good" in
  let first := StripeWebhook.stripe_webhook env req Sample.world in
  let second := StripeWebhook.stripe_webhook (later env "t2" "u2") req (snd first) in
  fst first = {| status := 200; body := Json (JObj [("received", JBool true)]) |} /\
  fst second = {| status := 200; body := Json (JObj [("received", JBool true)]) |} /\
  StripeWebhook.status_of "job-1" (db (snd second)) = Some paid /\
  StripeWebhook.receipts_for "cs_1" (db (snd second)) = 2%nat /\
  StripeWebhook.receipts_for "cs_1" (db (snd second)) <> 1%nat /\
  StripeWebhook.job_field paid_at "job-1" (db (snd first)) = Some "t1" /\
  StripeWebhook.job_field paid_at "job-1" (db (snd second)) = Some "t2" /\
  StripeWebhook.job_field receipt_id "job-1" (db (snd first)) = Some "u1" /\
  StripeWebhook.job_field receipt_id "job-1" (db (snd second)) = Some "u2".
Proof. cbv zeta. repeat split; try (vm_compute; reflexivity). vm_compute. discriminate. Qed.

Lemma receipts_for_insert (row : Receipt) (d : Database) (session : string) :
  GenerateReceipt.has_receipt (receipt_row_id row) d = false ->
  GenerateReceipt.int4 (amount_paid row) = true ->
  receipt_session_id row = session ->
  StripeWebhook.receipts_for session (GenerateReceipt.insert_receipt row d)
  = S (StripeWebhook.receipts_for session d).
Proof.
  intros Hfresh Hint Hs. unfold GenerateReceipt.insert_receipt.
  rewrite Hfresh, Hint. cbn [negb orb].
  unfold StripeWebhook.receipts_for. cbn [receipts].
  rewrite List.filter_app, length_app. cbn [List.filter].
  rewrite Hs, String.eqb_refl. cbn. lia.
Qed.

Lemma has_receipt_insert (row : Receipt) (d : Database) :
  GenerateReceipt.int4 (amount_paid row) = true ->
  GenerateReceipt.has_receipt (receipt_row_id row)
    (GenerateReceipt.insert_receipt row d) = true.
Proof.
  intros Hint. unfold GenerateReceipt.insert_receipt. rewrite Hint.
  destruct (GenerateReceipt.has_receipt (receipt_row_id row) d) eqn:H; [exact H|].
  cbn [negb orb].
  unfold GenerateReceipt.has_receipt. cbn [receipts].
  rewrite existsb_app. cbn. rewrite String.eqb_refl. now rewrite orb_true_r.
Qed.

Lemma has_receipt_insert_other (row : Receipt) (d : Database) (id : string) :
  id <> receipt_row_id row ->
  GenerateReceipt.has_receipt id (GenerateReceipt.insert_receipt row d)
  = GenerateReceipt.has_receipt id d.
Proof.
  intros Hne. unfold GenerateReceipt.insert_receipt.
  destruct (GenerateReceipt.has_receipt (receipt_row_id row) d || _); [reflexivity|].
  unfold GenerateReceipt.has_receipt. cbn [receipts].
  rewrite existsb_app. cbn.
  apply not_eq_sym, String.eqb_neq in Hne. rewrite Hne. now rewrite !orb_false_r.
Qed.






(** * Further properties of the handlers *)

(** ** Whole cents *)

Lemma binary64_canonical (x y : Q) : binary64 x == y -> binary64 x = Qred y.
Proof.
  unfold binary64. destruct (Qnum x).
  - intros H. change 0 with (Qred 0). now apply Qred_complete.
  - intros H. rewrite Qred_correct in H. now apply Qred_complete.
  - intros H. rewrite Qred_correct in H. now apply Qred_complete.
Qed.

(** On integers below [2^53] rounding returns the integer itself. *)
Lemma binary64_int_eq (k : Z) :
  (0 <= k < 2 ^ 53)%Z -> binary64 (inject_Z k) = inject_Z k.
Proof.
  intros H. rewrite <- (Qred_inject_Z k) at 2.
  apply binary64_canonical. now apply binary64_int.
Qed.

Lemma fadd_int_eq (r k : Z) :
  (0 <= r + k < 2 ^ 53)%Z -> fadd (inject_Z r) (inject_Z k) = inject_Z (r + k).
Proof.
  intros H. unfold fadd.
  assert (E : inject_Z r + inject_Z k = inject_Z (r + k)).
  { unfold Qplus, inject_Z; cbn. now rewrite !Z.mul_1_r. }
  rewrite E. now apply binary64_int_eq.
Qed.

Lemma Qfloor_unique (x : Q) (z : Z) :
  inject_Z z <= x -> x < inject_Z (z + 1) -> Qfloor x = z.
Proof.
  intros Hlo Hhi.
  pose proof (Qfloor_le x) as Fl. pose proof (Qlt_floor x) as Fh.
  assert (H1 : inject_Z z < inject_Z (Qfloor x + 1)) by lra.
  assert (H2 : inject_Z (Qfloor x) < inject_Z (z + 1)) by lra.
  rewrite <- Zlt_Qlt in H1, H2. lia.
Qed.

Lemma inject_Z_bound (a b : Z) : (a <= b)%Z -> inject_Z a <= inject_Z b.
Proof. intros H. now rewrite <- Zle_Qle. Qed.

(** A price of [c] cents, stored with two decimals, is converted to exactly
    [c] cents: neither the reading of the decimal as a binary64 number nor
    the multiplication by 100 loses a cent. *)
Theorem price_to_cents_exact (job : Job) (c : Z) :
  (0 < c < 10 ^ 10)%Z ->
  price job = Some (c # 100) ->
  CreateCheckout.basePriceInCents job = Some (inject_Z c).
Proof.
  intros [Hc0 Hc1] Hp. unfold CreateCheckout.basePriceInCents. rewrite Hp.
  assert (HC0 : 1 <= inject_Z c) by (apply (inject_Z_bound 1 c); lia).
  assert (HC1 : inject_Z c <= 10000000000)
    by (apply (inject_Z_bound c 10000000000); change (10 ^ 10)%Z with 10000000000%Z in Hc1; lia).
  assert (Hx : c # 100 == inject_Z c * (1 # 100)).
  { unfold Qeq, Qmult, inject_Z; cbn. lia. }
  assert (Hpos : 0 < c # 100) by (rewrite Hx; lra).
  destruct (binary64_bounds (c # 100) Hpos) as [L1 U1]. unfold eps in L1, U1.
  fold (literal (c # 100)) in L1, U1.
  remember (literal (c # 100)) as jobPrice eqn:Ejp. clear Ejp.
  assert (Hjp : 0 < jobPrice /\ inject_Z c * (1 # 100) * (1 - (1 # 9007199254740992)) <= jobPrice
                /\ jobPrice <= inject_Z c * (1 # 100) * (1 + (1 # 9007199254740992))).
  { revert Hx Hpos L1 U1. generalize (c # 100). intros X Hx Hpos L1 U1. lra. }
  clear Hx Hpos L1 U1. destruct Hjp as (Hjp & L1 & U1).
  assert (Hle : Qle_bool jobPrice 0 = false).
  { apply not_true_iff_false. rewrite Qle_bool_iff. lra. }
  rewrite Hle. f_equal. unfold Math_round. f_equal.
  assert (Hy : 0 < jobPrice * 100) by lra.
  destruct (binary64_bounds _ Hy) as [L2 U2]. unfold eps in L2, U2.
  fold (fmul jobPrice 100) in L2, U2.
  apply Qfloor_unique; rewrite ?inject_Z_plus; change (inject_Z 1) with 1; lra.
Qed.

Lemma price_to_cents_exact_witness :
  CreateCheckout.basePriceInCents Sample.job1 = Some (inject_Z 4999).
Proof. apply (price_to_cents_exact Sample.job1 4999); [lia | reflexivity]. Defined.

(** ** The fee calculator against the decimal schedule *)

(** The comparison of the amount in dollars with a tier threshold is the
    comparison of the amount in cents with a hundred times the threshold:
    the division by 100 rounds, but never across a threshold. *)
Lemma tier_threshold_exact (a t : Z) :
  (0 < a)%Z -> In t [100; 500; 1000; 2500]%Z ->
  Qltb (fdiv (inject_Z a) 100) (inject_Z t) = (a <? 100 * t)%Z.
Proof.
  intros Ha Ht.
  pose proof (inject_Z_pos a Ha) as HA.
  assert (Hq : 0 < inject_Z a / 100).
  { unfold Qdiv. change (/ 100) with (1 # 100). lra. }
  destruct (binary64_bounds _ Hq) as [Hlo Hhi]. unfold eps in Hlo, Hhi.
  unfold fdiv. remember (binary64 (inject_Z a / 100)) as v eqn:Ev.
  unfold Qdiv in Hlo, Hhi. change (/ 100) with (1 # 100) in Hlo, Hhi.
  assert (Ht' : (1 <= t <= 2500)%Z).
  { cbn [In] in Ht. repeat (destruct Ht as [<-|Ht]; [lia|]). destruct Ht. }
  assert (HT : 1 <= inject_Z t /\ inject_Z t <= 2500).
  { split; [apply (inject_Z_bound 1 t) | apply (inject_Z_bound t 2500)]; lia. }
  destruct (Z.ltb_spec a (100 * t)) as [Hlt|Hge].
  - apply Qltb_true.
    assert (Hb : inject_Z a <= inject_Z (100 * t + -1)) by (apply inject_Z_bound; lia).
    rewrite inject_Z_plus, inject_Z_mult in Hb.
    change (inject_Z 100) with 100 in Hb. change (inject_Z (-1)) with (-1) in Hb.
    lra.
  - apply Qltb_false.
    destruct (Z.eq_dec a (100 * t)) as [->|Hne].
    + subst v. cbn [In] in Ht.
      repeat (destruct Ht as [<-|Ht]; [vm_compute; discriminate|]). destruct Ht.
    + assert (Hb : inject_Z (100 * t + 1) <= inject_Z a) by (apply inject_Z_bound; lia).
      rewrite inject_Z_plus, inject_Z_mult in Hb.
      change (inject_Z 100) with 100 in Hb. change (inject_Z 1) with 1 in Hb.
      lra.
Qed.

Lemma literal_close (n : positive) :
  In n [49; 39; 29; 19; 15]%positive ->
  (Zpos n # 1000) - (1 # 100000000000000000) <= literal (Zpos n # 1000) /\
  literal (Zpos n # 1000) <= (Zpos n # 1000) + (1 # 100000000000000000).
Proof.
  cbn [In]. intros H.
  repeat (destruct H as [<- | H]; [split; vm_compute; discriminate|]).
  destruct H.
Qed.

(** Away from half cents, the rounded binary64 product is the decimal
    percentage rounded half up. *)
Lemma percent_exact (a : Z) (n : positive) :
  (0 < a < 10 ^ 10)%Z -> In n [49; 39; 29; 19; 15]%positive ->
  ((Zpos n * a) mod 1000 <> 500)%Z ->
  percent a (literal (Zpos n # 1000)) = ((Zpos n * a + 500) / 1000)%Z.
Proof.
  intros [Ha0 Ha1] Hn Htie.
  destruct (literal_close n Hn) as [Lc Uc].
  destruct (literal_range n Hn) as [Hc14 _].
  set (c := literal (Zpos n # 1000)) in *.
  assert (Hc : 0 < c) by lra.
  destruct (percent_bounds a c Ha0 Hc) as [_ _].
  unfold percent, fmul.
  pose proof (inject_Z_pos a Ha0) as HA0.
  assert (HA1 : inject_Z a <= 10000000000)
    by (apply (inject_Z_bound a 10000000000);
        change (10 ^ 10)%Z with 10000000000%Z in Ha1; lia).
  assert (Hac : 0 < inject_Z a * c) by (apply Qmult_lt_0_compat; assumption).
  destruct (binary64_bounds _ Hac) as [Lv Uv]. unfold eps in Lv, Uv.
  set (v := binary64 (inject_Z a * c)) in *.
  (* the decimal percentage, its quotient and its remainder *)
  set (q := ((Zpos n * a + 500) / 1000)%Z).
  set (r := ((Zpos n * a + 500) mod 1000)%Z).
  assert (Hdiv : (Zpos n * a + 500 = 1000 * q + r)%Z) by (apply Z.div_mod; lia).
  assert (Hr : (1 <= r <= 999)%Z).
  { pose proof (Z.mod_pos_bound (Zpos n * a + 500) 1000 ltac:(lia)) as Hb. fold r in Hb.
    assert (r <> 0)%Z; [|lia]. intros Hr0. apply Htie.
    pose proof (Z.div_mod (Zpos n * a) 1000 ltac:(lia)) as Hd.
    pose proof (Z.mod_pos_bound (Zpos n * a) 1000 ltac:(lia)) as Hb'.
    lia. }
  assert (HQ : inject_Z (Zpos n) * inject_Z a + 500 == 1000 * inject_Z q + inject_Z r).
  { rewrite <- inject_Z_mult. change 500 with (inject_Z 500). change 1000 with (inject_Z 1000).
    rewrite <- inject_Z_plus, <- inject_Z_mult, <- inject_Z_plus. now rewrite Hdiv. }
  assert (HR : 1 <= inject_Z r /\ inject_Z r <= 999).
  { split; [apply (inject_Z_bound 1 r) | apply (inject_Z_bound r 999)]; lia. }
  assert (P1 : 0 <= inject_Z a * (c - ((Zpos n # 1000) - (1 # 100000000000000000))))
    by (apply Qmult_le_0_compat; lra).
  assert (P2 : 0 <= inject_Z a * ((Zpos n # 1000) + (1 # 100000000000000000) - c))
    by (apply Qmult_le_0_compat; lra).
  assert (Hn' : inject_Z (Zpos n) == 1000 * (Zpos n # 1000)).
  { unfold Qeq, Qmult, inject_Z; cbn. lia. }
  assert (Hsmall : Zpos n # 1000 <= 1 # 20).
  { cbn [In] in Hn. repeat (destruct Hn as [<-|Hn]; [unfold Qle; cbn; lia|]). destruct Hn. }
  assert (P3 : 0 <= inject_Z a * ((1 # 20) - (Zpos n # 1000)))
    by (apply Qmult_le_0_compat; lra).
  rewrite Hn' in HQ. clear Hn'.
  revert HQ P1 P2 P3 Lc Uc Hsmall. generalize (Zpos n # 1000).
  intros rho HQ P1 P2 P3 Lc Uc Hsmall.
  apply Qfloor_unique; rewrite ?inject_Z_plus; change (inject_Z 1) with 1; lra.
Qed.

Lemma percent_range (a : Z) (n : positive) :
  (0 < a < 10 ^ 10)%Z -> In n [49; 39; 29; 19; 15]%positive ->
  (0 <= percent a (literal (Zpos n # 1000)) < 10 ^ 9)%Z.
Proof.
  intros [Ha0 Ha1] Hn. destruct (literal_range n Hn) as [Hc0 Hc1].
  set (c := literal (Zpos n # 1000)) in *.
  assert (Hc : 0 < c) by lra.
  split; [now apply percent_nonneg|].
  destruct (percent_bounds a c Ha0 Hc) as [_ Hhi]. unfold eps in Hhi.
  pose proof (inject_Z_pos a Ha0) as HA0.
  assert (HA1 : inject_Z a <= 10000000000)
    by (apply (inject_Z_bound a 10000000000);
        change (10 ^ 10)%Z with 10000000000%Z in Ha1; lia).
  assert (P : 0 <= inject_Z a * ((1 # 20) - c)) by (apply Qmult_le_0_compat; lra).
  assert (Hq : inject_Z (percent a c) < inject_Z (10 ^ 9)).
  { change (inject_Z (10 ^ 9)) with 1000000000. lra. }
  now rewrite <- Zlt_Qlt in Hq.
Qed.

Ltac exact_tiers a Ha :=
  unfold CreateCheckout.calculatePlatformFee;
  change (Qltb (fdiv (inject_Z a) 100) 100)
    with (Qltb (fdiv (inject_Z a) 100) (inject_Z 100));
  change (Qltb (fdiv (inject_Z a) 100) 500)
    with (Qltb (fdiv (inject_Z a) 100) (inject_Z 500));
  change (Qltb (fdiv (inject_Z a) 100) 1000)
    with (Qltb (fdiv (inject_Z a) 100) (inject_Z 1000));
  change (Qltb (fdiv (inject_Z a) 100) 2500)
    with (Qltb (fdiv (inject_Z a) 100) (inject_Z 2500));
  rewrite !(tier_threshold_exact a _ Ha) by (cbn; tauto);
  change (100 * 100)%Z with 10000%Z; change (100 * 500)%Z with 50000%Z;
  change (100 * 1000)%Z with 100000%Z; change (100 * 2500)%Z with 250000%Z.

(** The tiers of the calculator are the tiers of the comments: the amount
    in cents is compared with 10000, 50000, 100000 and 250000, and the fee
    is the rounded percentage plus the fixed part of the tier. *)
Lemma fee_by_tier (a : Z) :
  (0 < a < 10 ^ 10)%Z ->
  CreateCheckout.calculatePlatformFee (inject_Z a)
  = inject_Z (percent a (literal (Schedule.rate a # 1000)) + Schedule.fixed a).
Proof.
  intros [Ha0 Ha1]. exact_tiers a Ha0.
  unfold Schedule.rate, Schedule.fixed.
  assert (Hfixed : forall n, In n [49; 39; 29; 19]%positive ->
            fadd (Math_round (fmul (inject_Z a) (literal (Zpos n # 1000)))) 30
            = inject_Z (percent a (literal (Zpos n # 1000)) + 30)).
  { intros n Hn. rewrite Math_round_percent.
    apply (fadd_int_eq _ 30).
    pose proof (percent_range a n (conj Ha0 Ha1) ltac:(cbn [In] in *; tauto)) as Hr.
    change (10 ^ 9)%Z with 1000000000%Z in Hr.
    change (2 ^ 53)%Z with 9007199254740992%Z. lia. }
  destruct (a <? 10000)%Z eqn:T1.
  { assert (E : (a <? 250000)%Z = true) by lia. rewrite E. apply Hfixed. cbn; tauto. }
  destruct (a <? 50000)%Z eqn:T2.
  { assert (E : (a <? 250000)%Z = true) by lia. rewrite E. apply Hfixed. cbn; tauto. }
  destruct (a <? 100000)%Z eqn:T3.
  { assert (E : (a <? 250000)%Z = true) by lia. rewrite E. apply Hfixed. cbn; tauto. }
  destruct (a <? 250000)%Z eqn:T4.
  { apply Hfixed. cbn; tauto. }
  rewrite Math_round_percent. now rewrite Z.add_0_r.
Qed.

(** Whatever the amount below [10^10] cents (the range of the price
    column), the fee is a whole number of cents, at least 30, and the total
    charged is the sum of the base amount and the fee, without rounding. *)
Theorem fee_and_total_whole_cents (z : Z) :
  (0 <= z < 10 ^ 10)%Z ->
  exists k : Z,
    (30 <= k)%Z /\
    CreateCheckout.calculatePlatformFee (inject_Z z) = inject_Z k /\
    fadd (inject_Z z) (CreateCheckout.calculatePlatformFee (inject_Z z))
    = inject_Z (z + k).
Proof.
  intros [Hz0 Hz1]. destruct (Z.eq_dec z 0) as [->|Hne].
  { exists 30%Z. repeat split; try lia; vm_compute; reflexivity. }
  assert (Ha : (0 < z < 10 ^ 10)%Z) by lia.
  rewrite (fee_by_tier z Ha).
  assert (Hn : exists n, In n [49; 39; 29; 19; 15]%positive /\ Schedule.rate z = Zpos n).
  { unfold Schedule.rate.
    repeat (destruct (_ <? _)%Z; [eexists; split; [|reflexivity]; cbn; tauto|]).
    eexists; split; [|reflexivity]; cbn; tauto. }
  destruct Hn as (n & Hn & En). rewrite En in *.
  pose proof (percent_range z n Ha Hn) as Hr.
  change (10 ^ 9)%Z with 1000000000%Z in Hr.
  change (10 ^ 10)%Z with 10000000000%Z in Hz1.
  eexists. split; [|split; [reflexivity|]].
  - unfold Schedule.fixed. destruct (z <? 250000)%Z eqn:T; [lia|].
    destruct (fee_lower_bound z ltac:(lia)) as [_ H3750].
    specialize (H3750 ltac:(lia)). rewrite (fee_by_tier z Ha), En in H3750.
    unfold Schedule.fixed in H3750. rewrite T in H3750.
    change 3750 with (inject_Z 3750) in H3750. rewrite <- Zle_Qle in H3750. lia.
  - apply fadd_int_eq. change (2 ^ 53)%Z with 9007199254740992%Z.
    unfold Schedule.fixed. destruct (z <? 250000)%Z; lia.
Qed.

Lemma fee_and_total_whole_cents_witness :
  exists k : Z,
    (30 <= k)%Z /\
    CreateCheckout.calculatePlatformFee (inject_Z 4999) = inject_Z k /\
    fadd (inject_Z 4999) (CreateCheckout.calculatePlatformFee (inject_Z 4999))
    = inject_Z (4999 + k).
Proof. apply (fee_and_total_whole_cents 4999). lia. Defined.

(** For every amount from 1 cent to below [10^10] cents whose percentage
    does not fall on a half cent, the binary64 computation of the fee gives
    the fee of the decimal schedule: the percentage of the tier rounded
    half up to a cent, plus 30 cents below 250000 cents. *)
Theorem fee_matches_schedule (a : Z) :
  (0 < a < 10 ^ 10)%Z ->
  Schedule.half_cent a = false ->
  CreateCheckout.calculatePlatformFee (inject_Z a) = inject_Z (Schedule.fee_cents a).
Proof.
  intros Ha Htie. rewrite (fee_by_tier a Ha). unfold Schedule.fee_cents. f_equal. f_equal.
  unfold Schedule.half_cent in Htie. apply Z.eqb_neq in Htie.
  assert (Hn : exists n, In n [49; 39; 29; 19; 15]%positive /\ Schedule.rate a = Zpos n).
  { unfold Schedule.rate.
    repeat (destruct (_ <? _)%Z; [eexists; split; [|reflexivity]; cbn; tauto|]).
    eexists; split; [|reflexivity]; cbn; tauto. }
  destruct Hn as (n & Hn & En). rewrite En in *.
  now apply percent_exact.
Qed.

Lemma fee_matches_schedule_witness :
  CreateCheckout.calculatePlatformFee (inject_Z 4999)
  = inject_Z (Schedule.fee_cents 4999).
Proof. apply (fee_matches_schedule 4999); [lia | reflexivity]. Defined.

(** ** The checkout orchestrator: responses, effects and calls *)

(** The routing decision queries the processor at most once, for the
    account it found. *)
Lemma determine_routing_calls (env : Env) (job : Job) (w : World) :
  exists r calls w',
    CreateCheckout.determine_routing env job w = (Value r, w') /\
    db w' = db w /\
    stripe_log w' = stripe_log w ++ calls /\
    (calls = [] \/ exists acct, calls = [AccountsRetrieve acct]).
Proof.
  unfold CreateCheckout.determine_routing.
  assert (Hplatform : exists r calls w',
             (Value CreateCheckout.platform_routing, w) = (Value r, w') /\
             db w' = db w /\ stripe_log w' = stripe_log w ++ calls /\
             (calls = [] \/ exists acct, calls = [AccountsRetrieve acct])).
  { exists CreateCheckout.platform_routing, [], w. rewrite app_nil_r. auto. }
  destruct (truthy (company_id job)); [|exact Hplatform].
  unfold_monad.
  destruct (single _) as [p|]; [|exact Hplatform].
  destruct (truthy (stripe_account_id p)); [|exact Hplatform].
  destruct (negb _).
  2:{ eexists _, [], w. rewrite app_nil_r. auto. }
  destruct (accounts_retrieve (stripe env) _) as [account|e].
  - destruct (charges_enabled account); eexists _, [_], _; repeat split; eauto.
  - eexists _, [_], _; repeat split; eauto.
Qed.

(** Either the request is answered before any effect, with status 200 and
    without success, or it reaches the routing decision and the creation of
    the session. *)
Lemma create_checkout_cases (env : Env) (req : CreateCheckout.Request) (w : World) :
  (snd (CreateCheckout.create_checkout env req w) = w /\
   status (fst (CreateCheckout.create_checkout env req w)) = 200%Z /\
   success_of (fst (CreateCheckout.create_checkout env req w)) <> Some true) \/
  exists id job base r calls0 w1,
    CreateCheckout.request_body req = CreateCheckout.Object (Some id) /\
    jobs (db w) !! id = Some job /\
    CreateCheckout.basePriceInCents job = Some base /\
    50 <= fadd base (CreateCheckout.calculatePlatformFee base) /\
    CreateCheckout.determine_routing env job w = (Value r, w1) /\
    db w1 = db w /\
    stripe_log w1 = stripe_log w ++ calls0 /\
    (calls0 = [] \/ exists acct, calls0 = [AccountsRetrieve acct]) /\
    CreateCheckout.create_checkout env req w =
    match CreateCheckout.create_session env id base
            (CreateCheckout.calculatePlatformFee base)
            (fadd base (CreateCheckout.calculatePlatformFee base)) r
            (CreateCheckout.sessionConfig req id job base
               (CreateCheckout.calculatePlatformFee base)
               (fadd base (CreateCheckout.calculatePlatformFee base)) r) w1 with
    | (Value resp, w') => (resp, w')
    | (Returned resp, w') => (resp, w')
    | (Thrown e, w') => (CreateCheckout.reported_failure e, w')
    end.
Proof.
  assert (Hearly : forall resp,
            CreateCheckout.create_checkout env req w = (resp, w) ->
            status resp = 200%Z -> success_of resp <> Some true ->
            snd (CreateCheckout.create_checkout env req w) = w /\
            status (fst (CreateCheckout.create_checkout env req w)) = 200%Z /\
            success_of (fst (CreateCheckout.create_checkout env req w)) <> Some true).
  { intros resp E Hs Hn. rewrite E. auto. }
  destruct (String.eqb (CreateCheckout.method req) "OPTIONS") eqn:Hm.
  { left. eapply Hearly.
    - unfold CreateCheckout.create_checkout, CreateCheckout.handler. rewrite Hm. reflexivity.
    - reflexivity.
    - discriminate. }
  destruct (truthy (STRIPE_SECRET_KEY env)) eqn:Hkey.
  2:{ left. eapply Hearly.
      - unfold CreateCheckout.create_checkout, CreateCheckout.handler. rewrite Hm, Hkey. reflexivity.
      - reflexivity.
      - discriminate. }
  destruct (CreateCheckout.request_body req) as [| |[id|]] eqn:Hbody.
  1,2,4: left; eapply Hearly;
    [unfold CreateCheckout.create_checkout, CreateCheckout.handler;
     rewrite Hm, Hkey, Hbody; reflexivity | reflexivity | discriminate].
  destruct (String.eqb id "") eqn:Hid.
  { left. eapply Hearly.
    - unfold CreateCheckout.create_checkout, CreateCheckout.handler.
      rewrite Hm, Hkey, Hbody. cbn [truthy negb]. rewrite Hid. reflexivity.
    - reflexivity.
    - discriminate. }
  destruct (jobs (db w) !! id) as [job|] eqn:Hjob.
  2:{ left. eapply Hearly.
      - unfold CreateCheckout.create_checkout, CreateCheckout.handler.
        rewrite Hm, Hkey, Hbody. cbn [truthy negb render]. rewrite Hid. cbn [negb].
        unfold_monad. rewrite Hjob. reflexivity.
      - reflexivity.
      - discriminate. }
  destruct (CreateCheckout.basePriceInCents job) as [base|] eqn:Hbase.
  2:{ left. eapply Hearly.
      - unfold CreateCheckout.create_checkout, CreateCheckout.handler.
        rewrite Hm, Hkey, Hbody. cbn [truthy negb render]. rewrite Hid. cbn [negb].
        unfold_monad. rewrite Hjob, Hbase. reflexivity.
      - reflexivity.
      - discriminate. }
  destruct (Qltb (fadd base (CreateCheckout.calculatePlatformFee base)) 50) eqn:Htotal.
  { left. eapply Hearly.
    - unfold CreateCheckout.create_checkout, CreateCheckout.handler.
      rewrite Hm, Hkey, Hbody. cbn [truthy negb render]. rewrite Hid. cbn [negb].
      unfold_monad. rewrite Hjob, Hbase, Htotal. reflexivity.
    - reflexivity.
    - discriminate. }
  right. apply String.eqb_neq in Hm, Hid. apply Qltb_false in Htotal.
  destruct (determine_routing_calls env job w) as (r & calls0 & w1 & E & Hdb & Hlog & Hcalls).
  exists id, job, base, r, calls0, w1. repeat split; try assumption.
  apply (create_checkout_reaches_session env req w id job base r w1); assumption.
Qed.

(** Checkout initiation answers every request with HTTP status 200:
    validation failures, processor errors and successes alike are told
    apart only by the [success] field of the body. *)
Theorem checkout_always_answers_200 (env : Env) (req : CreateCheckout.Request)
    (w : World) :
  status (fst (CreateCheckout.create_checkout env req w)) = 200%Z.
Proof.
  destruct (create_checkout_cases env req w)
    as [(_ & H & _)|(id & job & base & r & calls0 & w1 & _ & _ & _ & _ & _ & _ & _ & _ & E)];
    [exact H|].
  rewrite E, create_session_eq. cbv zeta.
  destruct (checkout_sessions_create (stripe env) _ _); [reflexivity|].
  destruct (CreateCheckout.useStripeConnect r); [|reflexivity].
  destruct (checkout_sessions_create (stripe env) _ None); reflexivity.
Qed.

(** What a success:true response says about the stored payment link.
    Without a warning field the session was created at the first attempt
    and the update of the job was issued: when the database applies it,
    both link columns of the requested job hold the url of the response;
    when the database refuses it, the handler only logs the error, so the
    response is the same and the database is as before.  With a warning
    field (the fallback path) the link is stored nowhere: the database is
    as before. *)
Theorem payment_link_stored_if_update_applies (env : Env)
    (req : CreateCheckout.Request) (w : World) :
  success_of (fst (CreateCheckout.create_checkout env req w)) = Some true ->
  (has_field "warning" (body_json (fst (CreateCheckout.create_checkout env req w))) = false ->
   exists id job url,
     CreateCheckout.request_body req = CreateCheckout.Object (Some id) /\
     jobs (db w) !! id = Some job /\
     field "url" (body_json (fst (CreateCheckout.create_checkout env req w)))
       = Some (JStr url) /\
     (updateError env "jobs" id = None ->
      jobs (db (snd (CreateCheckout.create_checkout env req w))) !! id
        = Some (with_links url job)) /\
     (updateError env "jobs" id <> None ->
      db (snd (CreateCheckout.create_checkout env req w)) = db w)) /\
  (has_field "warning" (body_json (fst (CreateCheckout.create_checkout env req w))) = true ->
   db (snd (CreateCheckout.create_checkout env req w)) = db w).
Proof.
  intros Hs.
  destruct (create_checkout_cases env req w)
    as [(_ & _ & H)|(id & job & base & r & calls0 & w1 & Hbody & Hjob & _ & _ & _ & Hdb & _ & _ & E)];
    [contradiction|].
  rewrite E, create_session_eq in *. cbv zeta in *.
  destruct (checkout_sessions_create (stripe env) _ _) as [session|e].
  - cbn [fst snd db]. split; [|discriminate].
    intros _. exists id, job, (session_url session).
    split; [assumption|]. split; [assumption|]. split; [reflexivity|].
    destruct (updateError env "jobs" id) as [refused|].
    + split; [discriminate|]. intros _. exact Hdb.
    + split; [|intros H; now contradiction H]. intros _.
      unfold CreateCheckout.set_payment_url; cbn [jobs].
      now rewrite lookup_alter_eq, Hdb, Hjob.
  - destruct (CreateCheckout.useStripeConnect r); [|discriminate Hs].
    destruct (checkout_sessions_create (stripe env) _ None) as [fallbackSession|e'];
      [|discriminate Hs].
    cbn [fst snd db]. split; [discriminate|]. intros _. exact Hdb.
Qed.

(** The three cases at the sample job: the update applied, the update
    refused, and the fallback. *)
Lemma payment_link_stored_if_update_applies_witness :
  (exists id job url,
     CreateCheckout.request_body (Sample.checkout_request "job-1")
       = CreateCheckout.Object (Some id) /\
     jobs (db Sample.world) !! id = Some job /\
     field "url" (body_json (fst (CreateCheckout.create_checkout
        (Sample.environment (Sample.processor true true true) "t1" "u1")
        (Sample.checkout_request "job-1") Sample.world)))
       = Some (JStr url) /\
     (updateError (Sample.environment (Sample.processor true true true) "t1" "u1") "jobs" id = None ->
      jobs (db (snd (CreateCheckout.create_checkout
        (Sample.environment (Sample.processor true true true) "t1" "u1")
        (Sample.checkout_request "job-1") Sample.world))) !! id
        = Some (with_links url job)) /\
     (updateError (Sample.environment (Sample.processor true true true) "t1" "u1") "jobs" id <> None ->
      db (snd (CreateCheckout.create_checkout
        (Sample.environment (Sample.processor true true true) "t1" "u1")
        (Sample.checkout_request "job-1") Sample.world)) = db Sample.world)) /\
  (exists id job url,
     CreateCheckout.request_body (Sample.checkout_request "job-1")
       = CreateCheckout.Object (Some id) /\
     jobs (db Sample.world) !! id = Some job /\
     field "url" (body_json (fst (CreateCheckout.create_checkout
        (Sample.refusing (Sample.environment (Sample.processor true true true) "t1" "u1"))
        (Sample.checkout_request "job-1") Sample.world)))
       = Some (JStr url) /\
     (updateError (Sample.refusing (Sample.environment (Sample.processor true true true) "t1" "u1")) "jobs" id = None ->
      jobs (db (snd (CreateCheckout.create_checkout
        (Sample.refusing (Sample.environment (Sample.processor true true true) "t1" "u1"))
        (Sample.checkout_request "job-1") Sample.world))) !! id
        = Some (with_links url job)) /\
     (updateError (Sample.refusing (Sample.environment (Sample.processor true true true) "t1" "u1")) "jobs" id <> None ->
      db (snd (CreateCheckout.create_checkout
        (Sample.refusing (Sample.environment (Sample.processor true true true) "t1" "u1"))
        (Sample.checkout_request "job-1") Sample.world)) = db Sample.world)) /\
  db (snd (CreateCheckout.create_checkout
        (Sample.environment (Sample.processor true true false) "t1" "u1")
        (Sample.checkout_request "job-1") Sample.world)) = db Sample.world.
Proof.
  split; [|split].
  - exact (proj1 (payment_link_stored_if_update_applies
             (Sample.environment (Sample.processor true true true) "t1" "u1")
             (Sample.checkout_request "job-1") Sample.world eq_refl) eq_refl).
  - exact (proj1 (payment_link_stored_if_update_applies
             (Sample.refusing (Sample.environment (Sample.processor true true true) "t1" "u1"))
             (Sample.checkout_request "job-1") Sample.world eq_refl) eq_refl).
  - exact (proj2 (payment_link_stored_if_update_applies
             (Sample.environment (Sample.processor true true false) "t1" "u1")
             (Sample.checkout_request "job-1") Sample.world eq_refl) eq_refl).
Defined.

(** With a database that refuses the update, the sample request is still
    answered with success:true and no warning, and no link is stored. *)
Lemma link_lost_when_update_refused :
  let result := CreateCheckout.create_checkout
                  (Sample.refusing (Sample.environment (Sample.processor true true true) "t1" "u1"))
                  (Sample.checkout_request "job-1") Sample.world in
  success_of (fst result) = Some true /\
  has_field "warning" (body_json (fst result)) = false /\
  StripeWebhook.job_field payment_url "job-1" (db (snd result)) = None.
Proof. cbv zeta. repeat split; vm_compute; reflexivity. Qed.

(** Checkout initiation writes nothing but the two link columns of the
    requested job: profiles and receipts are untouched, no job is added or
    removed, every other job and every other column are as before; and a
    request that is not answered with success:true writes nothing at all. *)
Theorem checkout_writes_only_links (env : Env) (req : CreateCheckout.Request)
    (w : World) :
  profiles (db (snd (CreateCheckout.create_checkout env req w))) = profiles (db w) /\
  receipts (db (snd (CreateCheckout.create_checkout env req w))) = receipts (db w) /\
  (forall j, forget_links <$> jobs (db (snd (CreateCheckout.create_checkout env req w))) !! j
             = forget_links <$> jobs (db w) !! j) /\
  (forall j, CreateCheckout.request_body req <> CreateCheckout.Object (Some j) ->
             jobs (db (snd (CreateCheckout.create_checkout env req w))) !! j
             = jobs (db w) !! j) /\
  (success_of (fst (CreateCheckout.create_checkout env req w)) <> Some true ->
   db (snd (CreateCheckout.create_checkout env req w)) = db w).
Proof.
  destruct (create_checkout_cases env req w)
    as [(Hw & _ & _)|(id & job & base & r & calls0 & w1 & Hbody & Hjob & _ & _ & _ & Hdb & _ & _ & E)].
  { rewrite Hw. repeat split; reflexivity. }
  rewrite E, create_session_eq. cbv zeta.
  assert (Hsame : forall resp logs,
            profiles (db (snd (resp, {| db := db w1; stripe_log := logs |}))) = profiles (db w) /\
            receipts (db (snd (resp, {| db := db w1; stripe_log := logs |}))) = receipts (db w) /\
            (forall j, forget_links <$> jobs (db (snd (resp, {| db := db w1; stripe_log := logs |}))) !! j
                       = forget_links <$> jobs (db w) !! j) /\
            (forall j, CreateCheckout.request_body req <> CreateCheckout.Object (Some j) ->
                       jobs (db (snd (resp, {| db := db w1; stripe_log := logs |}))) !! j
                       = jobs (db w) !! j) /\
            (success_of (fst (resp, {| db := db w1; stripe_log := logs |})) <> Some true ->
             db (snd (resp, {| db := db w1; stripe_log := logs |})) = db w)).
  { intros resp logs. cbn [fst snd db]. rewrite Hdb. repeat split. }
  destruct (checkout_sessions_create (stripe env) _ _) as [session|e].
  - destruct (updateError env "jobs" id) as [refused|]; [apply Hsame|].
    cbn [fst snd db]. unfold CreateCheckout.set_payment_url; cbn [jobs profiles receipts].
    rewrite Hdb. repeat split.
    + intros j. destruct (decide (id = j)) as [<-|Hne].
      * rewrite lookup_alter_eq. destruct (jobs (db w) !! id); reflexivity.
      * now rewrite lookup_alter_ne.
    + intros j Hj. rewrite lookup_alter_ne; [reflexivity|]. congruence.
    + intros H. exfalso. apply H. reflexivity.
  - destruct (CreateCheckout.useStripeConnect r); [|apply Hsame].
    destruct (checkout_sessions_create (stripe env) _ None); apply Hsame.
Qed.

(** For one request the orchestrator calls the processor at most three
    times: at most one account query, then at most two session creations,
    and never an account or link creation.  Every session it asks for
    charges the same amount, base plus fee, which is at least 50 cents. *)
Theorem checkout_calls_bounded (env : Env) (req : CreateCheckout.Request) (w : World) :
  exists calls,
    stripe_log (snd (CreateCheckout.create_checkout env req w)) = stripe_log w ++ calls /\
    (length (List.filter is_account_retrieve calls) <= 1)%nat /\
    (session_creations calls <= 2)%nat /\
    (length calls
     = length (List.filter is_account_retrieve calls) + session_creations calls)%nat /\
    forall config acct,
      In (CheckoutSessionsCreate config acct) calls ->
      50 <= unit_amount config /\
      exists id job base,
        CreateCheckout.request_body req = CreateCheckout.Object (Some id) /\
        jobs (db w) !! id = Some job /\
        CreateCheckout.basePriceInCents job = Some base /\
        unit_amount config = fadd base (CreateCheckout.calculatePlatformFee base).
Proof.
  destruct (create_checkout_cases env req w)
    as [(Hw & _ & _)|(id & job & base & r & calls0 & w1 & Hbody & Hjob & Hbase & Htotal & _ & _ & Hlog & Hcalls & E)].
  { exists []. rewrite Hw, app_nil_r. cbn. repeat split; try lia; contradiction. }
  rewrite E, create_session_eq. cbv zeta.
  set (config := CreateCheckout.sessionConfig _ _ _ _ _ _ _).
  set (acct0 := if CreateCheckout.useStripeConnect r
                   && truthy (CreateCheckout.connectedStripeAccountId r)
                then CreateCheckout.connectedStripeAccountId r else None).
  assert (Hamount : forall rest,
            (forall c a, In (CheckoutSessionsCreate c a) rest ->
                         c = CreateCheckout.fallbackConfig config) ->
            forall c a, In (CheckoutSessionsCreate c a)
                           (calls0 ++ CheckoutSessionsCreate config acct0 :: rest) ->
            50 <= unit_amount c /\
            exists id job base,
              CreateCheckout.request_body req = CreateCheckout.Object (Some id) /\
              jobs (db w) !! id = Some job /\
              CreateCheckout.basePriceInCents job = Some base /\
              unit_amount c = fadd base (CreateCheckout.calculatePlatformFee base)).
  { intros rest Hrest c a Hin.
    assert (Hc : unit_amount c = fadd base (CreateCheckout.calculatePlatformFee base)).
    { apply in_app_or in Hin. destruct Hin as [Hin|[Heq|Hin]].
      - exfalso. destruct Hcalls as [->|[x ->]]; [destruct Hin|].
        destruct Hin as [Hin|[]]. discriminate Hin.
      - injection Heq as <- _. reflexivity.
      - rewrite (Hrest _ _ Hin). reflexivity. }
    rewrite Hc. split; [exact Htotal|]. exists id, job, base. auto. }
  assert (Hcount : forall rest,
            (length (List.filter is_account_retrieve rest) = 0)%nat ->
            (session_creations rest = length rest)%nat ->
            (length (List.filter is_account_retrieve
                       (calls0 ++ CheckoutSessionsCreate config acct0 :: rest)) <= 1)%nat /\
            (session_creations (calls0 ++ CheckoutSessionsCreate config acct0 :: rest)
             = S (length rest))%nat /\
            (length (calls0 ++ CheckoutSessionsCreate config acct0 :: rest)
             = length (List.filter is_account_retrieve
                         (calls0 ++ CheckoutSessionsCreate config acct0 :: rest))
               + session_creations (calls0 ++ CheckoutSessionsCreate config acct0 :: rest))%nat).
  { intros rest H1 H2. unfold session_creations in *.
    rewrite !List.filter_app, !length_app. cbn [List.filter is_account_retrieve is_session_create length].
    rewrite H1, H2.
    destruct Hcalls as [->|[x ->]]; cbn; lia. }
  destruct (checkout_sessions_create (stripe env) config acct0) as [session|e].
  - exists (calls0 ++ [CheckoutSessionsCreate config acct0]).
    cbn [snd stripe_log]. rewrite Hlog, <- app_assoc.
    destruct (Hcount [] eq_refl eq_refl) as (C1 & C2 & C3).
    split; [reflexivity|]. split; [exact C1|]. split; [rewrite C2; cbn; lia|].
    split; [exact C3|]. apply Hamount. intros ? ? [].
  - destruct (CreateCheckout.useStripeConnect r).
    + exists (calls0 ++ [CheckoutSessionsCreate config acct0;
                         CheckoutSessionsCreate (CreateCheckout.fallbackConfig config) None]).
      destruct (Hcount [CheckoutSessionsCreate (CreateCheckout.fallbackConfig config) None]
                  eq_refl eq_refl) as (C1 & C2 & C3).
      split.
      * destruct (checkout_sessions_create (stripe env) _ None);
          cbn [snd stripe_log]; now rewrite Hlog, <- !app_assoc.
      * split; [exact C1|]. split; [rewrite C2; cbn; lia|]. split; [exact C3|].
        apply Hamount. intros c a [H|[]]. now injection H as <- _.
    + exists (calls0 ++ [CheckoutSessionsCreate config acct0]).
      cbn [snd stripe_log]. rewrite Hlog, <- app_assoc.
      destruct (Hcount [] eq_refl eq_refl) as (C1 & C2 & C3).
      split; [reflexivity|]. split; [exact C1|]. split; [rewrite C2; cbn; lia|].
      split; [exact C3|]. apply Hamount. intros ? ? [].
Qed.

(** ** The account router: when connect routing is selected *)

(** For a job of a company with exactly one profile flagged connected,
    connect routing is selected exactly when that profile stores an
    account other than the platform's own and the processor reports that
    the account can accept charges; the routing then names that account. *)
Theorem connect_selected_iff (env : Env) (job : Job) (w : World) (p : Profile) :
  truthy (company_id job) = true ->
  single (List.filter (CreateCheckout.connected_profile (company_id job))
            (profiles (db w))) = Ok p ->
  exists r w',
    CreateCheckout.determine_routing env job w = (Value r, w') /\
    (CreateCheckout.useStripeConnect r = true <->
     exists acct account,
       stripe_account_id p = Some acct /\ acct <> "" /\
       acct <> CreateCheckout.PLATFORM_STRIPE_ACCOUNT_ID /\
       accounts_retrieve (stripe env) acct = Ok account /\
       charges_enabled account = true) /\
    (CreateCheckout.useStripeConnect r = true ->
     CreateCheckout.connectedStripeAccountId r = stripe_account_id p /\
     CreateCheckout.connectedAccountChargesEnabled r = true).
Proof.
  intros Hco Hp. unfold CreateCheckout.determine_routing. rewrite Hco.
  unfold_monad. rewrite Hp.
  destruct (truthy (stripe_account_id p)) eqn:Hacct.
  2:{ eexists _, _. split; [reflexivity|]. split; [|discriminate].
      split; [discriminate|]. intros (acct & account & Ha & Hne & _).
      rewrite Ha in Hacct. cbn in Hacct. apply String.eqb_neq in Hne.
      rewrite Hne in Hacct. discriminate. }
  destruct (truthy_Some _ Hacct) as (acct & Ea & Hne & Er). rewrite Er.
  destruct (String.eqb acct CreateCheckout.PLATFORM_STRIPE_ACCOUNT_ID) eqn:Hpl;
    cbn [negb].
  { apply String.eqb_eq in Hpl.
    eexists _, _. split; [reflexivity|]. split; [|discriminate].
    split; [discriminate|]. intros (acct' & account & Ha & _ & Hnp & _).
    congruence. }
  apply String.eqb_neq in Hpl.
  destruct (accounts_retrieve (stripe env) acct) as [account|e] eqn:Hr.
  - destruct (charges_enabled account) eqn:Hc.
    + eexists _, _. split; [reflexivity|]. cbn. split; [|auto].
      split; [|reflexivity]. intros _. exists acct, account. auto.
    + eexists _, _. split; [reflexivity|]. cbn. split; [|discriminate].
      split; [discriminate|]. intros (acct' & account' & Ha & _ & _ & Hr' & Hc').
      congruence.
  - eexists _, _. split; [reflexivity|]. cbn. split; [|discriminate].
    split; [discriminate|]. intros (acct' & account' & Ha & _ & _ & Hr' & _).
    congruence.
Qed.

Lemma connect_selected_iff_witness :
  exists r w',
    CreateCheckout.determine_routing
      (Sample.environment (Sample.processor true true true) "t1" "u1")
      Sample.job1 Sample.world = (Value r, w') /\
    (CreateCheckout.useStripeConnect r = true <->
     exists acct account,
       stripe_account_id Sample.owner = Some acct /\ acct <> "" /\
       acct <> CreateCheckout.PLATFORM_STRIPE_ACCOUNT_ID /\
       accounts_retrieve
         (stripe (Sample.environment (Sample.processor true true true) "t1" "u1")) acct
         = Ok account /\
       charges_enabled account = true) /\
    (CreateCheckout.useStripeConnect r = true ->
     CreateCheckout.connectedStripeAccountId r = stripe_account_id Sample.owner /\
     CreateCheckout.connectedAccountChargesEnabled r = true).
Proof.
  apply (connect_selected_iff
           (Sample.environment (Sample.processor true true true) "t1" "u1")
           Sample.job1 Sample.world Sample.owner); reflexivity.
Defined.

(** The guard against self-transfer: when the profile found for the
    company stores the platform's own account identifier, the job is
    routed to the platform and the processor is not queried, whatever it
    would have answered. *)
Theorem platform_account_never_connected (env : Env) (job : Job) (w : World)
    (p : Profile) :
  single (List.filter (CreateCheckout.connected_profile (company_id job))
            (profiles (db w))) = Ok p ->
  stripe_account_id p = Some CreateCheckout.PLATFORM_STRIPE_ACCOUNT_ID ->
  exists r,
    CreateCheckout.determine_routing env job w = (Value r, w) /\
    CreateCheckout.useStripeConnect r = false.
Proof.
  intros Hp Ha. unfold CreateCheckout.determine_routing.
  destruct (truthy (company_id job)); [|eexists; split; reflexivity].
  unfold_monad. rewrite Hp, Ha. cbn [truthy render].
  change (String.eqb CreateCheckout.PLATFORM_STRIPE_ACCOUNT_ID "") with false.
  rewrite String.eqb_refl. cbn [negb]. eexists; split; reflexivity.
Qed.

Lemma platform_account_never_connected_witness :
  exists r,
    CreateCheckout.determine_routing
      (Sample.environment (Sample.processor true true true) "t1" "u1")
      Sample.job1 (Sample.world_of Sample2.operator)
    = (Value r, Sample.world_of Sample2.operator) /\
    CreateCheckout.useStripeConnect r = false.
Proof.
  apply (platform_account_never_connected
           (Sample.environment (Sample.processor true true true) "t1" "u1")
           Sample.job1 (Sample.world_of Sample2.operator) Sample2.operator);
    reflexivity.
Defined.

(** ** The receipt generator *)

Lemma generate_receipt_post (env : Env) (data : ReceiptData) (w : World) :
  GenerateReceipt.generate_receipt env
    {| GenerateReceipt.method := "POST"; GenerateReceipt.request_body := Some data |} w
  = match jobs (db w) !! jobId data with
    | None => (json_response 500 (JObj [("error", JStr "Job not found")]), w)
    | Some job =>
        match GenerateReceipt.generateReceiptHTML env job data with
        | Err e => (json_response 500 (JObj [("error", JStr e)]), w)
        | Ok html =>
            (json_response 200 (JObj [
               ("success", JBool true);
               ("receiptId", JStr (randomUUID env));
               ("message", JStr "Receipt generated successfully")]),
             {| db := GenerateReceipt.set_receipt_id (jobId data) (randomUUID env)
                        (GenerateReceipt.insert_receipt (receipt_row env data html) (db w));
                stripe_log := stripe_log w |})
        end
    end.
Proof.
  unfold GenerateReceipt.generate_receipt, GenerateReceipt.handler.
  cbn [GenerateReceipt.method GenerateReceipt.request_body].
  change (String.eqb "POST" "OPTIONS") with false. cbv iota.
  unfold_monad.
  destruct (jobs (db w) !! jobId data) as [job|]; [|reflexivity].
  destruct (GenerateReceipt.generateReceiptHTML env job data); reflexivity.
Qed.

(** A receipt request for an existing job with a numeric price, made with
    an unused receipt id, is answered with status 200 and the receipt id.
    When the posted amount is a whole number of 32 bits, which is what the
    integer column accepts, the receipt can be read back: the receipts table
    gains exactly one row, which carries the job id, the session id and the
    amount that were posted, and the job refers to that row.  For any other
    amount the table rejects the row, the handler only logs that, and the
    database is as before although the answer is the same. *)
Theorem receipt_stored_and_linked (env : Env) (data : ReceiptData) (w : World)
    (job : Job) (p : Q) :
  jobs (db w) !! jobId data = Some job ->
  price job = Some p ->
  GenerateReceipt.has_receipt (randomUUID env) (db w) = false ->
  let result := GenerateReceipt.generate_receipt env
                  {| GenerateReceipt.method := "POST";
                     GenerateReceipt.request_body := Some data |} w in
  status (fst result) = 200%Z /\
  field "receiptId" (body_json (fst result)) = Some (JStr (randomUUID env)) /\
  (forall n : Z,
   amountPaid data == inject_Z n -> (-2147483648 <= n <= 2147483647)%Z ->
   (exists html,
      receipts (db (snd result)) = receipts (db w) ++ [receipt_row env data html]) /\
   StripeWebhook.job_field receipt_id (jobId data) (db (snd result))
     = Some (randomUUID env) /\
   GenerateReceipt.has_receipt (randomUUID env) (db (snd result)) = true /\
   StripeWebhook.receipts_for (sessionId data) (db (snd result))
     = S (StripeWebhook.receipts_for (sessionId data) (db w))) /\
  ((forall n : Z,
      amountPaid data == inject_Z n -> ~ (-2147483648 <= n <= 2147483647)%Z) ->
   db (snd result) = db w).
Proof.
  intros Hjob Hprice Hfresh result. subst result.
  rewrite generate_receipt_post, Hjob.
  unfold GenerateReceipt.generateReceiptHTML. rewrite Hprice.
  set (html := receipt_markup env job data _ _ _).
  cbn [fst snd db status json_response body_json body field assoc String.eqb].
  set (row := receipt_row env data html).
  split; [reflexivity|]. split; [reflexivity|]. split.
  - intros n Hn Hrange.
    assert (Hint : GenerateReceipt.int4 (amountPaid data) = true)
      by (apply int4_spec; now exists n).
    assert (Hins : GenerateReceipt.insert_receipt row (db w)
                   = {| jobs := jobs (db w); profiles := profiles (db w);
                        receipts := receipts (db w) ++ [row] |}).
    { unfold GenerateReceipt.insert_receipt.
      cbn [receipt_row_id amount_paid row receipt_row].
      now rewrite Hfresh, Hint. }
    assert (Hhas : GenerateReceipt.has_receipt (randomUUID env)
                     (GenerateReceipt.insert_receipt row (db w)) = true)
      by exact (has_receipt_insert row (db w) Hint).
    unfold GenerateReceipt.set_receipt_id. rewrite Hhas, Hins.
    cbn [jobs receipts profiles].
    split; [exists html; reflexivity|].
    split.
    { unfold StripeWebhook.job_field. cbn [jobs]. now rewrite lookup_alter_eq, Hjob. }
    split.
    { unfold GenerateReceipt.has_receipt. cbn [receipts]. rewrite existsb_app. cbn.
      rewrite String.eqb_refl. now rewrite orb_true_r. }
    unfold StripeWebhook.receipts_for. cbn [receipts].
    rewrite List.filter_app, length_app. cbn. rewrite String.eqb_refl. cbn. lia.
  - intros Hnone.
    assert (Hint : GenerateReceipt.int4 (amountPaid data) = false).
    { destruct (GenerateReceipt.int4 (amountPaid data)) eqn:E; [|reflexivity].
      apply int4_spec in E as (n & Hn & Hrange). now destruct (Hnone n Hn). }
    assert (Hins : GenerateReceipt.insert_receipt row (db w) = db w).
    { unfold GenerateReceipt.insert_receipt.
      cbn [receipt_row_id amount_paid row receipt_row].
      now rewrite Hfresh, Hint. }
    unfold GenerateReceipt.set_receipt_id. now rewrite Hins, Hfresh.
Qed.

Lemma receipt_stored_and_linked_witness :
  let data := {| jobId := "job-1"; sessionId := "cs_1"; amountPaid := 5274;
                 paymentDate := "t1" |} in
  let env := Sample.environment (Sample.processor true true true) "t1" "u1" in
  let result := GenerateReceipt.generate_receipt env
                  {| GenerateReceipt.method := "POST";
                     GenerateReceipt.request_body := Some data |} Sample.world in
  status (fst result) = 200%Z /\
  field "receiptId" (body_json (fst result)) = Some (JStr (randomUUID env)) /\
  (forall n : Z,
   amountPaid data == inject_Z n -> (-2147483648 <= n <= 2147483647)%Z ->
   (exists html,
      receipts (db (snd result)) = receipts (db Sample.world) ++ [receipt_row env data html]) /\
   StripeWebhook.job_field receipt_id (jobId data) (db (snd result))
     = Some (randomUUID env) /\
   GenerateReceipt.has_receipt (randomUUID env) (db (snd result)) = true /\
   StripeWebhook.receipts_for (sessionId data) (db (snd result))
     = S (StripeWebhook.receipts_for (sessionId data) (db Sample.world))) /\
  ((forall n : Z,
      amountPaid data == inject_Z n -> ~ (-2147483648 <= n <= 2147483647)%Z) ->
   db (snd result) = db Sample.world).
Proof.
  apply (receipt_stored_and_linked
           (Sample.environment (Sample.processor true true true) "t1" "u1")
           {| jobId := "job-1"; sessionId := "cs_1"; amountPaid := 5274;
              paymentDate := "t1" |}
           Sample.world Sample.job1 (4999 # 100)); reflexivity.
Defined.

(** Half a cent is not an amount the receipts table stores: the request is
    answered with success all the same and no receipt exists. *)
Lemma fractional_amount_stores_no_receipt :
  let result := GenerateReceipt.generate_receipt
                  (Sample.environment (Sample.processor true true true) "t1" "u1")
                  {| GenerateReceipt.method := "POST";
                     GenerateReceipt.request_body :=
                       Some {| jobId := "job-1"; sessionId := "cs_1";
                               amountPaid := 1 # 2; paymentDate := "t1" |} |}
                  Sample.world in
  status (fst result) = 200%Z /\
  success_of (fst result) = Some true /\
  snd result = Sample.world.
Proof. cbv zeta. repeat split. Qed.

(** The effect of the receipt generator on the tables. *)
Lemma generate_receipt_facts (env : Env) (req : GenerateReceipt.Request) (w : World) :
  stripe_log (snd (GenerateReceipt.generate_receipt env req w)) = stripe_log w /\
  profiles (db (snd (GenerateReceipt.generate_receipt env req w))) = profiles (db w) /\
  (exists new, receipts (db (snd (GenerateReceipt.generate_receipt env req w)))
               = receipts (db w) ++ new /\ (length new <= 1)%nat) /\
  (forall j, forget_receipt <$> jobs (db (snd (GenerateReceipt.generate_receipt env req w))) !! j
             = forget_receipt <$> jobs (db w) !! j) /\
  (status (fst (GenerateReceipt.generate_receipt env req w)) <> 200%Z ->
   snd (GenerateReceipt.generate_receipt env req w) = w).
Proof.
  assert (Hsame : forall resp,
            stripe_log (snd (resp, w)) = stripe_log w /\
            profiles (db (snd (resp, w))) = profiles (db w) /\
            (exists new, receipts (db (snd (resp, w))) = receipts (db w) ++ new
                         /\ (length new <= 1)%nat) /\
            (forall j, forget_receipt <$> jobs (db (snd (resp, w))) !! j
                       = forget_receipt <$> jobs (db w) !! j) /\
            (status (fst (resp, w)) <> 200%Z -> snd (resp, w) = w)).
  { intros resp. cbn [fst snd]. repeat split.
    exists []. rewrite app_nil_r. split; [reflexivity|cbn; lia]. }
  destruct req as [m [data|]].
  2:{ unfold GenerateReceipt.generate_receipt, GenerateReceipt.handler.
      cbn [GenerateReceipt.method GenerateReceipt.request_body].
      destruct (String.eqb m "OPTIONS"); unfold_monad; apply Hsame. }
  destruct (String.eqb m "OPTIONS") eqn:Hm.
  { unfold GenerateReceipt.generate_receipt, GenerateReceipt.handler.
    cbn [GenerateReceipt.method]. rewrite Hm. unfold_monad. apply Hsame. }
  assert (E : GenerateReceipt.generate_receipt env
                {| GenerateReceipt.method := m; GenerateReceipt.request_body := Some data |} w
              = GenerateReceipt.generate_receipt env
                {| GenerateReceipt.method := "POST"; GenerateReceipt.request_body := Some data |} w).
  { unfold GenerateReceipt.generate_receipt, GenerateReceipt.handler.
    cbn [GenerateReceipt.method GenerateReceipt.request_body]. rewrite Hm.
    change (String.eqb "POST" "OPTIONS") with false. reflexivity. }
  rewrite E, generate_receipt_post.
  destruct (jobs (db w) !! jobId data) as [job|]; [|apply Hsame].
  destruct (GenerateReceipt.generateReceiptHTML env job data) as [html|e]; [|apply Hsame].
  cbn [fst snd db stripe_log status json_response].
  set (row := receipt_row env data html).
  unfold GenerateReceipt.set_receipt_id.
  assert (Hrec : exists new,
            receipts (GenerateReceipt.insert_receipt row (db w)) = receipts (db w) ++ new
            /\ (length new <= 1)%nat).
  { unfold GenerateReceipt.insert_receipt.
    destruct (GenerateReceipt.has_receipt (receipt_row_id row) (db w) || _).
    - exists []. rewrite app_nil_r. split; [reflexivity|cbn; lia].
    - exists [row]. split; [reflexivity|cbn; lia]. }
  assert (Hjobs : jobs (GenerateReceipt.insert_receipt row (db w)) = jobs (db w)
                  /\ profiles (GenerateReceipt.insert_receipt row (db w)) = profiles (db w)).
  { unfold GenerateReceipt.insert_receipt.
    destruct (GenerateReceipt.has_receipt (receipt_row_id row) (db w) || _);
      split; reflexivity. }
  destruct Hjobs as [Hjobs Hprof].
  destruct (GenerateReceipt.has_receipt (randomUUID env) _);
    cbn [jobs profiles receipts]; rewrite ?Hjobs, ?Hprof;
    (split; [reflexivity|]); (split; [reflexivity|]); (split; [exact Hrec|]).
  - split; [|intros H; now contradiction H].
    intros j. destruct (decide (jobId data = j)) as [<-|Hne].
    + rewrite lookup_alter_eq. destruct (jobs (db w) !! jobId data); reflexivity.
    + now rewrite lookup_alter_ne.
  - split; [reflexivity|]. intros H. now contradiction H.
Qed.

(** Two jobs that agree up to the receipt reference agree on every other
    view. *)
Lemma forget_receipt_views (a b : option Job) :
  forget_receipt <$> a = forget_receipt <$> b ->
  forget_payment <$> a = forget_payment <$> b /\
  paid_at <$> a = paid_at <$> b /\
  job_status <$> a = job_status <$> b.
Proof.
  destruct a as [[]|], b as [[]|]; cbn; intros H; try discriminate H;
    [|repeat split].
  injection H as -> -> -> -> -> -> -> -> ->. repeat split.
Qed.

Lemma generate_receipt_frame (env : Env) (req : GenerateReceipt.Request) (w : World) :
  stripe_log (snd (GenerateReceipt.generate_receipt env req w)) = stripe_log w /\
  profiles (db (snd (GenerateReceipt.generate_receipt env req w))) = profiles (db w) /\
  (exists new, receipts (db (snd (GenerateReceipt.generate_receipt env req w)))
               = receipts (db w) ++ new /\ (length new <= 1)%nat) /\
  (forall j, forget_payment <$> jobs (db (snd (GenerateReceipt.generate_receipt env req w))) !! j
             = forget_payment <$> jobs (db w) !! j) /\
  (forall j, job_status <$> jobs (db (snd (GenerateReceipt.generate_receipt env req w))) !! j
             = job_status <$> jobs (db w) !! j) /\
  (status (fst (GenerateReceipt.generate_receipt env req w)) <> 200%Z ->
   snd (GenerateReceipt.generate_receipt env req w) = w).
Proof.
  destruct (generate_receipt_facts env req w) as (Hlog & Hprof & Hrec & Hjobs & Hw).
  repeat split; try assumption; intros j;
    now destruct (forget_receipt_views _ _ (Hjobs j)) as (? & ? & ?).
Qed.

(** Whatever the request, the receipt generator never calls the processor,
    never touches the profiles, keeps every stored receipt and adds at most
    one, adds or removes no job and changes no column of a job but its
    receipt reference (status, paid timestamp, price and links are as
    before), and writes nothing at all unless it answers with status
    200. *)
Theorem receipt_generator_frame (env : Env) (req : GenerateReceipt.Request) (w : World) :
  stripe_log (snd (GenerateReceipt.generate_receipt env req w)) = stripe_log w /\
  profiles (db (snd (GenerateReceipt.generate_receipt env req w))) = profiles (db w) /\
  (exists new, receipts (db (snd (GenerateReceipt.generate_receipt env req w)))
               = receipts (db w) ++ new /\ (length new <= 1)%nat) /\
  (forall j, forget_receipt <$> jobs (db (snd (GenerateReceipt.generate_receipt env req w))) !! j
             = forget_receipt <$> jobs (db w) !! j) /\
  (forall j, paid_at <$> jobs (db (snd (GenerateReceipt.generate_receipt env req w))) !! j
             = paid_at <$> jobs (db w) !! j) /\
  (forall j, job_status <$> jobs (db (snd (GenerateReceipt.generate_receipt env req w))) !! j
             = job_status <$> jobs (db w) !! j) /\
  (status (fst (GenerateReceipt.generate_receipt env req w)) <> 200%Z ->
   snd (GenerateReceipt.generate_receipt env req w) = w).
Proof.
  destruct (generate_receipt_facts env req w) as (Hlog & Hprof & Hrec & Hjobs & Hw).
  split; [exact Hlog|]. split; [exact Hprof|]. split; [exact Hrec|].
  split; [exact Hjobs|]. split; [|split; [|exact Hw]].
  - intros j. now destruct (forget_receipt_views _ _ (Hjobs j)) as (_ & H & _).
  - intros j. now destruct (forget_receipt_views _ _ (Hjobs j)) as (_ & _ & H).
Qed.

(** ** The webhook reconciler *)

(** A delivery either leaves the world as it is, or carries a verified
    checkout-completed event that names an existing job: the job is marked
    paid and the receipt generator is run on the result. *)
Lemma stripe_webhook_cases (env : Env) (req : StripeWebhook.Request) (w : World) :
  (snd (StripeWebhook.stripe_webhook env req w) = w /\
   (status (fst (StripeWebhook.stripe_webhook env req w)) = 200%Z ->
    StripeWebhook.method req = "OPTIONS" \/
    exists event,
      webhooks_constructEvent (stripe env) (StripeWebhook.raw_body req)
        (render (StripeWebhook.stripe_signature req))
        (render (STRIPE_WEBHOOK_SECRET env)) = Ok event /\
      event_type event <> "checkout.session.completed")) \/
  exists event id job,
    webhooks_constructEvent (stripe env) (StripeWebhook.raw_body req)
      (render (StripeWebhook.stripe_signature req))
      (render (STRIPE_WEBHOOK_SECRET env)) = Ok event /\
    event_type event = "checkout.session.completed" /\
    cs_metadata_job_id (event_object event) = Some id /\
    jobs (db w) !! id = Some job /\
    StripeWebhook.stripe_webhook env req w
    = (StripeWebhook.received,
       snd (GenerateReceipt.generate_receipt env (receipt_request env event)
              {| db := StripeWebhook.mark_paid id (now env) (db w);
                 stripe_log := stripe_log w |})).
Proof.
  unfold StripeWebhook.stripe_webhook, StripeWebhook.handler.
  destruct (String.eqb (StripeWebhook.method req) "OPTIONS") eqn:Hm.
  { left. apply String.eqb_eq in Hm. split; [reflexivity|]. intros _. now left. }
  destruct (truthy (StripeWebhook.stripe_signature req));
    [|left; split; [reflexivity|discriminate]].
  destruct (truthy (STRIPE_SECRET_KEY env));
    [|left; split; [reflexivity|discriminate]].
  destruct (truthy (STRIPE_WEBHOOK_SECRET env));
    [|left; split; [reflexivity|discriminate]].
  cbn [negb orb]. unfold_monad.
  destruct (webhooks_constructEvent _ _ _ _) as [event|e] eqn:Hv;
    [|left; split; [reflexivity|discriminate]].
  destruct (String.eqb (event_type event) _) eqn:Ht.
  2:{ left. apply String.eqb_neq in Ht. split; [reflexivity|]. intros _. right.
      exists event. auto. }
  apply String.eqb_eq in Ht.
  destruct (truthy (cs_metadata_job_id (event_object event))) eqn:Hj; cbn [negb];
    [|left; split; [reflexivity|discriminate]].
  destruct (truthy_Some _ Hj) as (id & Eid & Hne & Er).
  destruct (jobs (db w) !! render _) as [job|] eqn:Hjob;
    [|left; split; [reflexivity|discriminate]].
  right. exists event, id, job. rewrite Er in Hjob. repeat split; try assumption.
  unfold StripeWebhook.trigger_receipt, receipt_request. rewrite Er.
  destruct (GenerateReceipt.generate_receipt _ _ _). reflexivity.
Qed.

(** A delivery that is not acknowledged with status 200 has no effect: a
    missing signature header, missing secrets, a failed verification, a
    missing job id and an unknown job all leave the tables and the
    processor log as they were. *)
Theorem unacknowledged_delivery_changes_nothing (env : Env)
    (req : StripeWebhook.Request) (w : World) :
  status (fst (StripeWebhook.stripe_webhook env req w)) <> 200%Z ->
  snd (StripeWebhook.stripe_webhook env req w) = w.
Proof.
  intros Hs.
  destruct (stripe_webhook_cases env req w)
    as [[Hw _]|(event & id & job & _ & _ & _ & _ & E)]; [exact Hw|].
  rewrite E in Hs. now contradiction Hs.
Qed.

Lemma unacknowledged_delivery_changes_nothing_witness :
  snd (StripeWebhook.stripe_webhook
         (Sample.environment (Sample.processor true true true) "t1" "u1")
         {| StripeWebhook.method := "POST";
            StripeWebhook.stripe_signature := None;
            StripeWebhook.raw_body := "{}" |} Sample.world) = Sample.world.
Proof.
  apply (unacknowledged_delivery_changes_nothing
           (Sample.environment (Sample.processor true true true) "t1" "u1")
           {| StripeWebhook.method := "POST";
              StripeWebhook.stripe_signature := None;
              StripeWebhook.raw_body := "{}" |} Sample.world).
  discriminate.
Defined.

(** A verified event of any type other than checkout.session.completed is
    acknowledged with {received:true} and ignored. *)
Theorem other_events_acknowledged_and_ignored (env : Env)
    (req : StripeWebhook.Request) (w : World) (event : Event) :
  StripeWebhook.method req <> "OPTIONS" ->
  truthy (StripeWebhook.stripe_signature req) = true ->
  truthy (STRIPE_SECRET_KEY env) = true ->
  truthy (STRIPE_WEBHOOK_SECRET env) = true ->
  webhooks_constructEvent (stripe env) (StripeWebhook.raw_body req)
    (render (StripeWebhook.stripe_signature req))
    (render (STRIPE_WEBHOOK_SECRET env)) = Ok event ->
  event_type event <> "checkout.session.completed" ->
  StripeWebhook.stripe_webhook env req w = (StripeWebhook.received, w).
Proof.
  intros Hm Hsig Hkey Hsecret Hverify Htype.
  unfold StripeWebhook.stripe_webhook, StripeWebhook.handler.
  rewrite (not_options _ Hm), Hsig, Hkey, Hsecret. cbn [negb orb].
  unfold_monad. rewrite Hverify.
  apply String.eqb_neq in Htype. now rewrite Htype.
Qed.

Lemma other_events_acknowledged_and_ignored_witness :
  StripeWebhook.stripe_webhook
    (Sample.environment Sample2.intent_processor "t1" "u1")
    (Sample.webhook_request "good") Sample.world
  = (StripeWebhook.received, Sample.world).
Proof.
  apply (other_events_acknowledged_and_ignored
           (Sample.environment Sample2.intent_processor "t1" "u1")
           (Sample.webhook_request "good") Sample.world
           {| event_type := "payment_intent.succeeded";
              event_object := event_object Sample.completed |});
    [discriminate | reflexivity | reflexivity | reflexivity | reflexivity | discriminate].
Defined.

(** The transition to paid does not depend on the receipt: for a verified
    checkout-completed event that names an existing job, the delivery is
    acknowledged, the job is paid and stamped with the time of the
    delivery, whether the receipt could be generated or not; when the
    price of the job is not a number no receipt is stored. *)
Theorem paid_whatever_the_receipt (env : Env) (req : StripeWebhook.Request)
    (w : World) (event : Event) (id : string) (job : Job) :
  StripeWebhook.method req <> "OPTIONS" ->
  truthy (StripeWebhook.stripe_signature req) = true ->
  truthy (STRIPE_SECRET_KEY env) = true ->
  truthy (STRIPE_WEBHOOK_SECRET env) = true ->
  webhooks_constructEvent (stripe env) (StripeWebhook.raw_body req)
    (render (StripeWebhook.stripe_signature req))
    (render (STRIPE_WEBHOOK_SECRET env)) = Ok event ->
  event_type event = "checkout.session.completed" ->
  cs_metadata_job_id (event_object event) = Some id ->
  id <> "" ->
  jobs (db w) !! id = Some job ->
  let result := StripeWebhook.stripe_webhook env req w in
  fst result = StripeWebhook.received /\
  StripeWebhook.status_of id (db (snd result)) = Some paid /\
  StripeWebhook.job_field paid_at id (db (snd result)) = Some (now env) /\
  (price job = None -> receipts (db (snd result)) = receipts (db w)).
Proof.
  intros Hm Hsig Hkey Hsecret Hverify Htype Hmeta Hid Hjob result. subst result.
  assert (E : StripeWebhook.stripe_webhook env req w
              = (StripeWebhook.received,
                 snd (GenerateReceipt.generate_receipt env (receipt_request env event)
                        {| db := StripeWebhook.mark_paid id (now env) (db w);
                           stripe_log := stripe_log w |}))).
  { unfold StripeWebhook.stripe_webhook, StripeWebhook.handler.
    rewrite (not_options _ Hm), Hsig, Hkey, Hsecret. cbn [negb orb].
    unfold_monad. rewrite Hverify, Htype, String.eqb_refl.
    unfold receipt_request. rewrite Hmeta. cbn [truthy render].
    apply String.eqb_neq in Hid. rewrite Hid. cbn [negb]. rewrite Hjob.
    unfold StripeWebhook.trigger_receipt.
    destruct (GenerateReceipt.generate_receipt _ _ _). reflexivity. }
  rewrite E. cbn [fst snd]. split; [reflexivity|].
  set (w0 := {| db := StripeWebhook.mark_paid id (now env) (db w);
                stripe_log := stripe_log w |}).
  destruct (generate_receipt_frame env (receipt_request env event) w0)
    as (_ & _ & _ & Hcols & Hstat & _).
  assert (Hpaid : jobs (db w0) !! id
                  = Some {| job_id := job_id job; job_name := job_name job;
                            client_name := client_name job; price := price job;
                            company_id := company_id job; job_status := Some paid;
                            payment_url := payment_url job;
                            stripe_checkout_url := stripe_checkout_url job;
                            paid_at := Some (now env); receipt_id := receipt_id job |}).
  { unfold w0, StripeWebhook.mark_paid. cbn [db jobs]. now rewrite lookup_alter_eq, Hjob. }
  split.
  { specialize (Hstat id). rewrite Hpaid in Hstat. unfold StripeWebhook.status_of.
    destruct (jobs (db (snd (GenerateReceipt.generate_receipt env
                (receipt_request env event) w0))) !! id) as [j|];
      cbn in Hstat; [|discriminate Hstat].
    now injection Hstat. }
  split.
  { destruct (generate_receipt_facts env (receipt_request env event) w0)
      as (_ & _ & _ & Hview & _).
    destruct (forget_receipt_views _ _ (Hview id)) as (_ & Hat & _).
    rewrite Hpaid in Hat. unfold StripeWebhook.job_field.
    destruct (jobs (db (snd (GenerateReceipt.generate_receipt env
                (receipt_request env event) w0))) !! id) as [j|];
      cbn in Hat; [|discriminate Hat].
    now injection Hat. }
  intros Hnone. unfold receipt_request. rewrite Hmeta. cbn [render].
  rewrite generate_receipt_post. cbn [jobId]. rewrite Hpaid.
  unfold GenerateReceipt.generateReceiptHTML. cbn [price]. rewrite Hnone.
  reflexivity.
Qed.

Lemma paid_whatever_the_receipt_witness :
  let result := StripeWebhook.stripe_webhook
                  (Sample.environment (Sample.verifying true true true) "t1" "u1")
                  (Sample.webhook_request "good") Sample2.unpriced_world in
  fst result = StripeWebhook.received /\
  StripeWebhook.status_of "job-1" (db (snd result)) = Some paid /\
  StripeWebhook.job_field paid_at "job-1" (db (snd result)) = Some "t1" /\
  (price Sample2.unpriced = None ->
   receipts (db (snd result)) = receipts (db Sample2.unpriced_world)).
Proof.
  apply (paid_whatever_the_receipt
           (Sample.environment (Sample.verifying true true true) "t1" "u1")
           (Sample.webhook_request "good") Sample2.unpriced_world
           Sample.completed "job-1" Sample2.unpriced);
    [discriminate | reflexivity | reflexivity | reflexivity | reflexivity
    | reflexivity | reflexivity | discriminate | reflexivity].
Defined.

(** Whatever is delivered, the reconciler never calls the processor's API
    and never touches the profiles; it keeps every stored receipt and adds
    at most one; on the jobs it writes only the status, the paid timestamp
    and the receipt reference, and the only status it ever writes is
    paid. *)
Theorem webhook_frame (env : Env) (req : StripeWebhook.Request) (w : World) :
  stripe_log (snd (StripeWebhook.stripe_webhook env req w)) = stripe_log w /\
  profiles (db (snd (StripeWebhook.stripe_webhook env req w))) = profiles (db w) /\
  (exists new, receipts (db (snd (StripeWebhook.stripe_webhook env req w)))
               = receipts (db w) ++ new /\ (length new <= 1)%nat) /\
  (forall j, forget_payment <$> jobs (db (snd (StripeWebhook.stripe_webhook env req w))) !! j
             = forget_payment <$> jobs (db w) !! j) /\
  (forall j, job_status <$> jobs (db (snd (StripeWebhook.stripe_webhook env req w))) !! j
             = job_status <$> jobs (db w) !! j \/
             job_status <$> jobs (db (snd (StripeWebhook.stripe_webhook env req w))) !! j
             = Some (Some paid)).
Proof.
  destruct (stripe_webhook_cases env req w)
    as [[Hw _]|(event & id & job & _ & _ & _ & Hjob & E)].
  { rewrite Hw. repeat split; auto. exists []. rewrite app_nil_r. split; [reflexivity|cbn; lia]. }
  rewrite E. cbn [snd].
  set (w0 := {| db := StripeWebhook.mark_paid id (now env) (db w);
                stripe_log := stripe_log w |}).
  destruct (generate_receipt_frame env (receipt_request env event) w0)
    as (Hlog & Hprof & Hrec & Hcols & Hstat & _).
  split; [exact Hlog|]. split; [exact Hprof|]. split; [exact Hrec|].
  assert (Hlook : forall j,
            jobs (db w0) !! j
            = if decide (id = j)
              then Some {| job_id := job_id job; job_name := job_name job;
                           client_name := client_name job; price := price job;
                           company_id := company_id job; job_status := Some paid;
                           payment_url := payment_url job;
                           stripe_checkout_url := stripe_checkout_url job;
                           paid_at := Some (now env); receipt_id := receipt_id job |}
              else jobs (db w) !! j).
  { intros j. unfold w0, StripeWebhook.mark_paid. cbn [db jobs].
    destruct (decide (id = j)) as [<-|Hne].
    - now rewrite lookup_alter_eq, Hjob.
    - now rewrite lookup_alter_ne. }
  split.
  - intros j. rewrite Hcols, Hlook.
    destruct (decide (id = j)) as [<-|Hne]; [|reflexivity]. now rewrite Hjob.
  - intros j. rewrite Hstat, Hlook.
    destruct (decide (id = j)) as [<-|Hne]; [right; reflexivity | left; reflexivity].
Qed.

(** ** Account onboarding (stripe-connect) *)

Ltac connect_run :=
  unfold StripeConnect.stripe_connect, StripeConnect.handler,
    StripeConnect.check_existing;
  unfold_monad.

(** Account onboarding never writes to the jobs or to the receipts, and
    calls the processor at most three times, whatever the request, the
    stored profile and the answers of the processor. *)
Theorem onboarding_frame (env : Env) (req : StripeConnect.Request) (w : World) :
  jobs (db (snd (StripeConnect.stripe_connect env req w))) = jobs (db w) /\
  receipts (db (snd (StripeConnect.stripe_connect env req w))) = receipts (db w) /\
  exists calls,
    stripe_log (snd (StripeConnect.stripe_connect env req w)) = stripe_log w ++ calls /\
    (length calls <= 3)%nat.
Proof.
  assert (Hnil : stripe_log w = stripe_log w ++ [] /\ (length (@nil StripeCall) <= 3)%nat)
    by (rewrite app_nil_r; cbn; split; [reflexivity|lia]).
  connect_run.
  repeat match goal with
  | |- context [match ?x with _ => _ end] =>
      lazymatch x with
      | context [match _ with _ => _ end] => fail
      | _ => destruct x eqn:?
      end
  | |- context [if ?x then _ else _] =>
      lazymatch x with
      | context [if _ then _ else _] => fail
      | context [match _ with _ => _ end] => fail
      | _ => destruct x eqn:?
      end
  end;
  cbn [fst snd db stripe_log jobs receipts StripeConnect.update_profile];
  (split; [reflexivity|]); (split; [reflexivity|]);
  first
    [ exists []; exact Hnil
    | eexists; rewrite <- ?app_assoc; split; [reflexivity|cbn; lia] ].
Qed.

(** A caller that is not authenticated is answered with status 401 before
    anything else happens: without an authorization header, with a token
    the authentication service rejects, or with a user that has no email,
    no table is written and the processor is not called. *)
Theorem onboarding_requires_authentication (env : Env) (req : StripeConnect.Request)
    (w : World) :
  StripeConnect.method req <> "OPTIONS" ->
  truthy (StripeConnect.authorization req) = false \/
  (exists e, auth_getUser env
               (StripeConnect.replace "Bearer " "" (render (StripeConnect.authorization req)))
             = Err e) \/
  (exists user, auth_getUser env
                  (StripeConnect.replace "Bearer " "" (render (StripeConnect.authorization req)))
                = Ok user /\ truthy (user_email user) = false) ->
  status (fst (StripeConnect.stripe_connect env req w)) = 401%Z /\
  success_of (fst (StripeConnect.stripe_connect env req w)) = Some false /\
  snd (StripeConnect.stripe_connect env req w) = w.
Proof.
  intros Hm Hauth. unfold StripeConnect.stripe_connect, StripeConnect.handler.
  rewrite (not_options _ Hm). unfold_monad.
  destruct (truthy (StripeConnect.authorization req)) eqn:Ha; cbn [negb];
    [|repeat split].
  destruct Hauth as [Hf|[(e & He)|(user & Hu & Hemail)]].
  - discriminate.
  - rewrite He. repeat split.
  - rewrite Hu, Hemail. repeat split.
Qed.

Lemma onboarding_requires_authentication_witness :
  status (fst (StripeConnect.stripe_connect
                 (Sample.environment (Sample.processor true true true) "t1" "u1")
                 {| StripeConnect.method := "POST";
                    StripeConnect.authorization := Some "Bearer stolen" |}
                 Sample.world)) = 401%Z /\
  success_of (fst (StripeConnect.stripe_connect
                 (Sample.environment (Sample.processor true true true) "t1" "u1")
                 {| StripeConnect.method := "POST";
                    StripeConnect.authorization := Some "Bearer stolen" |}
                 Sample.world)) = Some false /\
  snd (StripeConnect.stripe_connect
         (Sample.environment (Sample.processor true true true) "t1" "u1")
         {| StripeConnect.method := "POST";
            StripeConnect.authorization := Some "Bearer stolen" |}
         Sample.world) = Sample.world.
Proof.
  apply (onboarding_requires_authentication
           (Sample.environment (Sample.processor true true true) "t1" "u1")
           {| StripeConnect.method := "POST";
              StripeConnect.authorization := Some "Bearer stolen" |}
           Sample.world); [discriminate|].
  right. left. exists "invalid JWT". reflexivity.
Defined.

Lemma filter_update_profile (user : string) (f : Profile -> Profile)
    (rows : list Profile) :
  (forall p, profile_id (f p) = profile_id p) ->
  List.filter (fun q => String.eqb (profile_id q) user)
    (map (fun p => if String.eqb (profile_id p) user then f p else p) rows)
  = map f (List.filter (fun q => String.eqb (profile_id q) user) rows).
Proof.
  intros Hid. induction rows as [|p rows IH]; [reflexivity|].
  cbn [map List.filter].
  destruct (String.eqb (profile_id p) user) eqn:E.
  - rewrite Hid, E. cbn [map]. now rewrite IH.
  - rewrite E. exact IH.
Qed.

(** What the authenticated part of the handler does for a user whose
    single profile stores an account: one status query, the cached flag
    brought in line with the answer, then either the short-circuit or an
    onboarding link for the stored account. *)
Lemma stripe_connect_existing (env : Env) (req : StripeConnect.Request) (w : World)
    (user : User) (p : Profile) :
  StripeConnect.method req <> "OPTIONS" ->
  truthy (StripeConnect.authorization req) = true ->
  auth_getUser env
    (StripeConnect.replace "Bearer " "" (render (StripeConnect.authorization req)))
    = Ok user ->
  truthy (user_email user) = true ->
  single (List.filter (fun q => String.eqb (profile_id q) (user_id user))
            (profiles (db w))) = Ok p ->
  truthy (stripe_account_id p) = true ->
  truthy (STRIPE_SECRET_KEY env) = true ->
  StripeConnect.stripe_connect env req w =
  let acct := render (stripe_account_id p) in
  let log1 := stripe_log w ++ [AccountsRetrieve acct] in
  let link (d : Database) :=
    match accountLinks_create (stripe env) acct with
    | Ok url =>
        (json_response 200 (JObj [("success", JBool true); ("url", JStr url);
                                  ("account_id", JStr acct)]),
         {| db := d; stripe_log := log1 ++ [AccountLinksCreate acct] |})
    | Err e =>
        (json_response 500 (JObj [
           ("success", JBool false);
           ("error", JStr (or_else (Some e) "An unexpected error occurred"))]),
         {| db := d; stripe_log := log1 ++ [AccountLinksCreate acct] |})
    end in
  match accounts_retrieve (stripe env) acct with
  | Ok account =>
      let isConnected := details_submitted account && charges_enabled account in
      let d := if StripeConnect.same_flag isConnected (stripe_connected p) then db w
               else match updateError env "profiles" (user_id user) with
                    | Some _ => db w
                    | None =>
                        StripeConnect.update_profile (user_id user)
                          (StripeConnect.set_connected isConnected (now env)) (db w)
                    end in
      if isConnected
      then (StripeConnect.already_connected_response, {| db := d; stripe_log := log1 |})
      else link d
  | Err _ => link (db w)
  end.
Proof.
  intros Hm Hauth Huser Hemail Hprofile Hacct Hkey.
  unfold StripeConnect.stripe_connect, StripeConnect.handler.
  rewrite (not_options _ Hm), Hauth, Huser, Hemail. cbn [negb].
  unfold_monad. rewrite Hprofile. unfold StripeConnect.check_existing.
  rewrite Hacct, Hkey. cbn [negb]. unfold_monad. cbv zeta.
  destruct (accounts_retrieve (stripe env) _) as [account|e].
  - destruct (StripeConnect.same_flag _ _);
      [|destruct (updateError env "profiles" (user_id user))];
      destruct (details_submitted account && charges_enabled account);
      cbn [negb db stripe_log]; try reflexivity;
      destruct (accountLinks_create (stripe env) _); reflexivity.
  - cbn [db stripe_log]. destruct (accountLinks_create (stripe env) _); reflexivity.
Qed.

(** A user whose profile already stores an account never gets a second
    one: no account is created, whatever the processor answers, and an
    onboarding link, if one is generated, is for the stored account, which
    is also the account_id of the response. *)
Theorem stored_account_is_reused (env : Env) (req : StripeConnect.Request) (w : World)
    (user : User) (p : Profile) (acct : string) :
  StripeConnect.method req <> "OPTIONS" ->
  truthy (StripeConnect.authorization req) = true ->
  auth_getUser env
    (StripeConnect.replace "Bearer " "" (render (StripeConnect.authorization req)))
    = Ok user ->
  truthy (user_email user) = true ->
  single (List.filter (fun q => String.eqb (profile_id q) (user_id user))
            (profiles (db w))) = Ok p ->
  stripe_account_id p = Some acct ->
  acct <> "" ->
  exists calls,
    stripe_log (snd (StripeConnect.stripe_connect env req w)) = stripe_log w ++ calls /\
    List.filter is_account_create calls = [] /\
    (forall a, In (AccountLinksCreate a) calls -> a = acct) /\
    (forall v, field "account_id" (body_json (fst (StripeConnect.stripe_connect env req w)))
               = Some v -> v = JStr acct).
Proof.
  intros Hm Hauth Huser Hemail Hprofile Hacct Hne.
  assert (Ht : truthy (stripe_account_id p) = true).
  { rewrite Hacct. cbn. apply String.eqb_neq in Hne. now rewrite Hne. }
  destruct (truthy (STRIPE_SECRET_KEY env)) eqn:Hkey.
  2:{ exists []. rewrite app_nil_r.
      unfold StripeConnect.stripe_connect, StripeConnect.handler.
      rewrite (not_options _ Hm), Hauth, Huser, Hemail. cbn [negb].
      unfold_monad. rewrite Hprofile. unfold StripeConnect.check_existing.
      rewrite Ht, Hkey. cbn. repeat split; try contradiction. discriminate. }
  rewrite (stripe_connect_existing env req w user p Hm Hauth Huser Hemail Hprofile Ht Hkey).
  cbv zeta. rewrite Hacct. cbn [render].
  destruct (accounts_retrieve (stripe env) acct) as [account|e].
  - destruct (details_submitted account && charges_enabled account).
    + exists [AccountsRetrieve acct]. cbn. repeat split; try discriminate.
      intros x [H|[]]. discriminate H.
    + destruct (accountLinks_create (stripe env) acct);
        exists [AccountsRetrieve acct; AccountLinksCreate acct];
        cbn [fst snd stripe_log]; rewrite <- app_assoc; cbn;
        (repeat split; try discriminate;
         try (intros x [H|[H|[]]]; [discriminate H | now injection H]);
         try (intros x [= <-]; reflexivity)).
  - destruct (accountLinks_create (stripe env) acct);
      exists [AccountsRetrieve acct; AccountLinksCreate acct];
      cbn [fst snd stripe_log]; rewrite <- app_assoc; cbn;
      (repeat split; try discriminate;
         try (intros x [H|[H|[]]]; [discriminate H | now injection H]);
         try (intros x [= <-]; reflexivity)).
Qed.

(** After a status query the processor answered, the cached flag of the
    user's profile is brought in line with the report (details submitted
    and charges enabled) as far as the database allows: when the stored
    flag already equals the report the profile is left alone; otherwise
    the flag and the update timestamp are written, and nothing else of the
    profile; when the database refuses that update the handler only logs
    it and the profile stays as it was. *)
Theorem cached_flag_reconciled (env : Env) (req : StripeConnect.Request) (w : World)
    (user : User) (p : Profile) (account : StripeAccount) :
  StripeConnect.method req <> "OPTIONS" ->
  truthy (StripeConnect.authorization req) = true ->
  auth_getUser env
    (StripeConnect.replace "Bearer " "" (render (StripeConnect.authorization req)))
    = Ok user ->
  truthy (user_email user) = true ->
  single (List.filter (fun q => String.eqb (profile_id q) (user_id user))
            (profiles (db w))) = Ok p ->
  truthy (stripe_account_id p) = true ->
  truthy (STRIPE_SECRET_KEY env) = true ->
  accounts_retrieve (stripe env) (render (stripe_account_id p)) = Ok account ->
  let isConnected := details_submitted account && charges_enabled account in
  exists p',
    single (List.filter (fun q => String.eqb (profile_id q) (user_id user))
              (profiles (db (snd (StripeConnect.stripe_connect env req w))))) = Ok p' /\
    (stripe_connected p = Some isConnected -> p' = p) /\
    (stripe_connected p <> Some isConnected ->
     updateError env "profiles" (user_id user) = None ->
     p' = {| profile_id := profile_id p;
             profile_company_id := profile_company_id p;
             stripe_account_id := stripe_account_id p;
             stripe_connected := Some isConnected;
             profile_updated_at := Some (now env) |}) /\
    (updateError env "profiles" (user_id user) <> None -> p' = p).
Proof.
  intros Hm Hauth Huser Hemail Hprofile Hacct Hkey Hretrieve isConnected.
  rewrite (stripe_connect_existing env req w user p Hm Hauth Huser Hemail Hprofile Hacct Hkey).
  cbv zeta. rewrite Hretrieve. fold isConnected.
  assert (Hrows := single_Ok _ _ Hprofile).
  assert (Hflag : StripeConnect.same_flag isConnected (stripe_connected p) = true
                  <-> stripe_connected p = Some isConnected).
  { unfold StripeConnect.same_flag. destruct (stripe_connected p) as [b|].
    - split; [intros H; apply Bool.eqb_prop in H; now subst|].
      intros [= ->]. apply Bool.eqb_reflx.
    - split; discriminate. }
  set (d := if StripeConnect.same_flag isConnected (stripe_connected p) then db w
            else match updateError env "profiles" (user_id user) with
                 | Some _ => db w
                 | None => StripeConnect.update_profile (user_id user)
                             (StripeConnect.set_connected isConnected (now env)) (db w)
                 end).
  assert (Hdb : exists p',
    single (List.filter (fun q => String.eqb (profile_id q) (user_id user)) (profiles d))
      = Ok p' /\
    (stripe_connected p = Some isConnected -> p' = p) /\
    (stripe_connected p <> Some isConnected ->
     updateError env "profiles" (user_id user) = None ->
     p' = {| profile_id := profile_id p;
             profile_company_id := profile_company_id p;
             stripe_account_id := stripe_account_id p;
             stripe_connected := Some isConnected;
             profile_updated_at := Some (now env) |}) /\
    (updateError env "profiles" (user_id user) <> None -> p' = p)).
  { subst d.
    destruct (StripeConnect.same_flag isConnected (stripe_connected p)) eqn:Hsame.
    - pose proof (proj1 Hflag eq_refl) as Hsame'. exists p. split; [exact Hprofile|].
      split; [reflexivity|]. split; [intros H; now contradiction H|reflexivity].
    - assert (Hdiff : stripe_connected p <> Some isConnected).
      { intros H. apply (proj2 Hflag) in H. discriminate H. }
      destruct (updateError env "profiles" (user_id user)) as [refused|].
      + exists p. split; [exact Hprofile|].
        split; [reflexivity|]. split; [discriminate|reflexivity].
      + exists (StripeConnect.set_connected isConnected (now env) p).
        split.
        { cbn [StripeConnect.update_profile profiles].
          rewrite filter_update_profile by reflexivity. now rewrite Hrows. }
        split; [intros H; now contradiction H|].
        split; [reflexivity|]. intros H. now contradiction H. }
  destruct Hdb as (p' & H1 & H2).
  exists p'. split; [|exact H2].
  destruct isConnected; [exact H1|].
  destruct (accountLinks_create (stripe env) _); exact H1.
Qed.

Lemma cached_flag_reconciled_witness :
  exists p',
    single (List.filter (fun q => String.eqb (profile_id q) "user-1")
              (profiles (db (snd (StripeConnect.stripe_connect
                 (Sample.environment (Sample.processor true false true) "t1" "u1")
                 Sample.connect_request Sample.world))))) = Ok p' /\
    (stripe_connected Sample.owner = Some (true && false) -> p' = Sample.owner) /\
    (stripe_connected Sample.owner <> Some (true && false) ->
     updateError (Sample.environment (Sample.processor true false true) "t1" "u1") "profiles" "user-1" = None ->
     p' = {| profile_id := "user-1";
             profile_company_id := Some "co-1";
             stripe_account_id := Some "acct_owner";
             stripe_connected := Some (true && false);
             profile_updated_at := Some "t1" |}) /\
    (updateError (Sample.environment (Sample.processor true false true) "t1" "u1") "profiles" "user-1" <> None -> p' = Sample.owner).
Proof.
  apply (cached_flag_reconciled
           (Sample.environment (Sample.processor true false true) "t1" "u1")
           Sample.connect_request Sample.world
           {| user_id := "user-1"; user_email := Some "owner@example.com" |}
           Sample.owner
           {| account_id := "acct_owner"; details_submitted := true;
              charges_enabled := false |});
    [discriminate | reflexivity ..].
Defined.

(** At the sample, where the processor reports that charges are not
    enabled, the flag cached as true is written to false; with a database
    that refuses the update it stays true. *)
Lemma cached_flag_written_or_kept :
  (stripe_connected <$> profiles (db (snd (StripeConnect.stripe_connect
      (Sample.environment (Sample.processor true false true) "t1" "u1")
      Sample.connect_request Sample.world)))) = [Some false] /\
  (stripe_connected <$> profiles (db (snd (StripeConnect.stripe_connect
      (Sample.refusing (Sample.environment (Sample.processor true false true) "t1" "u1"))
      Sample.connect_request Sample.world)))) = [Some true].
Proof. split; reflexivity. Qed.

Lemma stored_account_is_reused_witness :
  exists calls,
    stripe_log (snd (StripeConnect.stripe_connect
                       (Sample.environment (Sample.processor true false true) "t1" "u1")
                       Sample.connect_request Sample.world))
      = stripe_log Sample.world ++ calls /\
    List.filter is_account_create calls = [] /\
    (forall a, In (AccountLinksCreate a) calls -> a = "acct_owner") /\
    (forall v, field "account_id"
                 (body_json (fst (StripeConnect.stripe_connect
                       (Sample.environment (Sample.processor true false true) "t1" "u1")
                       Sample.connect_request Sample.world)))
               = Some v -> v = JStr "acct_owner").
Proof.
  apply (stored_account_is_reused
           (Sample.environment (Sample.processor true false true) "t1" "u1")
           Sample.connect_request Sample.world
           {| user_id := "user-1"; user_email := Some "owner@example.com" |}
           Sample.owner "acct_owner");
    [discriminate | reflexivity .. | discriminate].
Defined.

(** A first connection: for a user whose single profile stores no account,
    one account is created for the user's email and its id is written to
    the profile, with the time of the call, before the onboarding link is
    requested; no other column of the profile changes, and the account
    stays on the profile also when the link fails.  When the database
    refuses that update the handler only logs it: the profile is as before
    and the answer is the same.  On success the response carries the link
    and the new account. *)
Theorem first_connection_stores_account (env : Env) (req : StripeConnect.Request)
    (w : World) (user : User) (p : Profile) (account : StripeAccount) :
  StripeConnect.method req <> "OPTIONS" ->
  truthy (StripeConnect.authorization req) = true ->
  auth_getUser env
    (StripeConnect.replace "Bearer " "" (render (StripeConnect.authorization req)))
    = Ok user ->
  truthy (user_email user) = true ->
  single (List.filter (fun q => String.eqb (profile_id q) (user_id user))
            (profiles (db w))) = Ok p ->
  truthy (stripe_account_id p) = false ->
  truthy (STRIPE_SECRET_KEY env) = true ->
  accounts_create (stripe env) (render (user_email user)) = Ok account ->
  stripe_log (snd (StripeConnect.stripe_connect env req w))
    = stripe_log w ++ [AccountsCreate (render (user_email user));
                       AccountLinksCreate (account_id account)] /\
  single (List.filter (fun q => String.eqb (profile_id q) (user_id user))
            (profiles (db (snd (StripeConnect.stripe_connect env req w)))))
    = Ok (match updateError env "profiles" (user_id user) with
          | None => {| profile_id := profile_id p;
                       profile_company_id := profile_company_id p;
                       stripe_account_id := Some (account_id account);
                       stripe_connected := stripe_connected p;
                       profile_updated_at := Some (now env) |}
          | Some _ => p
          end) /\
  match accountLinks_create (stripe env) (account_id account) with
  | Ok url =>
      fst (StripeConnect.stripe_connect env req w)
        = json_response 200 (JObj [("success", JBool true); ("url", JStr url);
                                   ("account_id", JStr (account_id account))])
  | Err _ => status (fst (StripeConnect.stripe_connect env req w)) = 500%Z
  end.
Proof.
  intros Hm Hauth Huser Hemail Hprofile Hacct Hkey Hcreate.
  assert (Hrows := single_Ok _ _ Hprofile).
  unfold StripeConnect.stripe_connect, StripeConnect.handler.
  rewrite (not_options _ Hm), Hauth, Huser, Hemail. cbn [negb].
  unfold_monad. rewrite Hprofile. unfold StripeConnect.check_existing.
  rewrite Hacct, Hkey. cbn [negb]. unfold_monad. rewrite Hcreate.
  cbn [db stripe_log].
  destruct (updateError env "profiles" (user_id user)) as [refused|];
    cbn [db stripe_log];
    destruct (accountLinks_create (stripe env) (account_id account));
    cbn [fst snd db stripe_log StripeConnect.update_profile profiles];
    rewrite <- app_assoc, ?filter_update_profile, Hrows by reflexivity;
    repeat split.
Qed.

Lemma first_connection_stores_account_witness :
  stripe_log (snd (StripeConnect.stripe_connect
                     (Sample.environment (Sample.processor true true true) "t1" "u1")
                     Sample.connect_request (Sample.world_of Sample2.beginner)))
    = stripe_log (Sample.world_of Sample2.beginner)
      ++ [AccountsCreate "owner@example.com"; AccountLinksCreate "acct_new"] /\
  single (List.filter (fun q => String.eqb (profile_id q) "user-1")
            (profiles (db (snd (StripeConnect.stripe_connect
                     (Sample.environment (Sample.processor true true true) "t1" "u1")
                     Sample.connect_request (Sample.world_of Sample2.beginner))))))
    = Ok {| profile_id := "user-1";
            profile_company_id := Some "co-1";
            stripe_account_id := Some "acct_new";
            stripe_connected := None;
            profile_updated_at := Some "t1" |} /\
  fst (StripeConnect.stripe_connect
         (Sample.environment (Sample.processor true true true) "t1" "u1")
         Sample.connect_request (Sample.world_of Sample2.beginner))
    = json_response 200 (JObj [("success", JBool true);
                               ("url", JStr "https://connect.example/onboard");
                               ("account_id", JStr "acct_new")]).
Proof.
  apply (first_connection_stores_account
           (Sample.environment (Sample.processor true true true) "t1" "u1")
           Sample.connect_request (Sample.world_of Sample2.beginner)
           {| user_id := "user-1"; user_email := Some "owner@example.com" |}
           Sample2.beginner
           {| account_id := "acct_new"; details_submitted := false;
              charges_enabled := false |});
    [discriminate | reflexivity ..].
Defined.

(** With a database that refuses the update, the first connection answers
    with the new account all the same, and the profile stores none. *)
Lemma new_account_lost_when_update_refused :
  let result := StripeConnect.stripe_connect
                  (Sample.refusing (Sample.environment (Sample.processor true true true) "t1" "u1"))
                  Sample.connect_request (Sample.world_of Sample2.beginner) in
  field "account_id" (body_json (fst result)) = Some (JStr "acct_new") /\
  success_of (fst result) = Some true /\
  (stripe_account_id <$> profiles (db (snd result))) = [None].
Proof. cbv zeta. repeat split. Qed.

(** *** send-sms *)

Lemma via_twilio_cases (env : SendSms.Env) (phoneNumber message : option json) :
  (exists response request,
     SendSms.via_twilio env phoneNumber message = (Some response, [request]) /\
     SendSms.is_twilio request = true /\
     status response = 200%Z /\ success_of response = Some true /\
     field "provider" (body_json response) = Some (JStr "twilio")) \/
  (exists requests,
     SendSms.via_twilio env phoneNumber message = (None, requests) /\
     (length requests <= 1)%nat /\ forallb SendSms.is_twilio requests = true).
Proof.
  unfold SendSms.via_twilio.
  destruct (_ && _ && _); [|right; exists []; repeat split; cbn; lia].
  cbv zeta. destruct (SendSms.twilio env _ _ _ _ _) as [reply|e].
  - destruct (SendSms.tw_ok reply).
    + left. eexists _, _. repeat split.
    + right. eexists. repeat split. cbn. lia.
  - right. eexists. repeat split. cbn. lia.
Qed.

Lemma via_vonage_cases (env : SendSms.Env) (phoneNumber message : option json) :
  (exists response request,
     SendSms.via_vonage env phoneNumber message = (Some response, [request]) /\
     SendSms.is_vonage request = true /\
     status response = 200%Z /\ success_of response = Some true /\
     field "provider" (body_json response) = Some (JStr "vonage")) \/
  (exists requests,
     SendSms.via_vonage env phoneNumber message = (None, requests) /\
     (length requests <= 1)%nat /\ forallb SendSms.is_vonage requests = true).
Proof.
  unfold SendSms.via_vonage.
  destruct (_ && _); [|right; exists []; repeat split; cbn; lia].
  cbv zeta. destruct (SendSms.clean_phone_number phoneNumber) as [to|e];
    [|right; exists []; repeat split; cbn; lia].
  destruct (SendSms.vonage env _ _ _ _) as [reply|e].
  - destruct (_ && _).
    + left. eexists _, _. repeat split.
    + right. eexists. repeat split. cbn. lia.
  - right. eexists. repeat split. cbn. lia.
Qed.

Lemma request_details_Ok (phoneNumber : option json) (s : string) :
  SendSms.request_details phoneNumber = Ok s ->
  SendSms.truthy_value phoneNumber = true ->
  exists phone, phoneNumber = Some (JStr phone) /\ phone <> "".
Proof.
  unfold SendSms.request_details. intros H Ht. rewrite Ht in H.
  destruct phoneNumber as [[| | |phone| |]|]; try discriminate.
  exists phone. split; [reflexivity|]. cbn in Ht.
  intros ->. discriminate.
Qed.

Lemma via_twilio_accepts (env : SendSms.Env) (phoneNumber message : option json) :
  fst (SendSms.via_twilio env phoneNumber message) <> None
  <-> SendSms.twilio_accepts env phoneNumber message.
Proof.
  unfold SendSms.via_twilio, SendSms.twilio_accepts.
  destruct (truthy (SendSms.TWILIO_ACCOUNT_SID env)),
    (truthy (SendSms.TWILIO_AUTH_TOKEN env)),
    (truthy (SendSms.TWILIO_PHONE_NUMBER env)); cbn [andb fst];
    try (split; [intros H; now contradiction H | intros (? & ? & ? & _); discriminate]).
  cbv zeta. destruct (SendSms.twilio env _ _ _ _ _) as [reply|e].
  - destruct (SendSms.tw_ok reply) eqn:Hok; cbn [fst].
    + split; [|discriminate]. intros _. repeat split. now exists reply.
    + split; [intros H; now contradiction H|].
      intros (_ & _ & _ & reply' & [= <-] & H). congruence.
  - cbn [fst]. split; [intros H; now contradiction H|].
    intros (_ & _ & _ & reply' & H & _). discriminate H.
Qed.

Lemma via_vonage_accepts (env : SendSms.Env) (phone : string) (message : option json) :
  fst (SendSms.via_vonage env (Some (JStr phone)) message) <> None
  <-> SendSms.vonage_accepts env phone message.
Proof.
  unfold SendSms.via_vonage, SendSms.vonage_accepts.
  destruct (truthy (SendSms.VONAGE_API_KEY env)),
    (truthy (SendSms.VONAGE_API_SECRET env)); cbn [andb fst];
    try (split; [intros H; now contradiction H | intros (? & ? & _); discriminate]).
  cbv zeta. cbn [SendSms.clean_phone_number].
  destruct (SendSms.vonage env _ _ _ _) as [reply|e].
  - destruct (SendSms.vg_ok reply) eqn:Hok; cbn [andb fst].
    + destruct (SendSms.vg_status reply) as [[| | |st| |]|] eqn:Hst; cbn [fst];
        try (split; [intros H; now contradiction H|];
             intros (_ & _ & reply' & [= <-] & _ & H); congruence).
      destruct (String.eqb st "0") eqn:E; cbn [fst].
      * apply String.eqb_eq in E. subst st.
        split; [|discriminate]. intros _. repeat split. now exists reply.
      * apply String.eqb_neq in E.
        split; [intros H; now contradiction H|].
        intros (_ & _ & reply' & [= <-] & _ & H). congruence.
    + split; [intros H; now contradiction H|].
      intros (_ & _ & reply' & [= <-] & H & _). congruence.
  - cbn [fst]. split; [intros H; now contradiction H|].
    intros (_ & _ & reply' & H & _). discriminate H.
Qed.

Lemma toString_throws_unprintable :
  forall j, SendSms.toString_throws j = true -> SendSms.unprintable j.
Proof.
  fix IH 1. intros [| | | |items|fields]; cbn [SendSms.toString_throws];
    try discriminate.
  - induction items as [|x items IHitems]; cbn [existsb]; [discriminate|].
    intros H. apply orb_true_iff in H as [H|H].
    + apply (SendSms.unprintable_array _ x); [now left|]. now apply IH.
    + specialize (IHitems H). inversion IHitems as [|items' y Hin Hy]; subst.
      apply (SendSms.unprintable_array _ y); [now right|exact Hy].
  - destruct (assoc "toString" fields) as [v|] eqn:E; [|discriminate].
    intros _. now apply (SendSms.unprintable_object fields v).
Qed.

Lemma unprintable_toString_throws (j : json) :
  SendSms.unprintable j -> SendSms.toString_throws j = true.
Proof.
  induction 1 as [fields v E|items x Hin Hx IH]; cbn [SendSms.toString_throws].
  - now rewrite E.
  - apply existsb_exists. now exists x.
Qed.

Lemma template_throws_false (v : option json) :
  SendSms.template_throws v = false <-> SendSms.printable v.
Proof.
  unfold SendSms.template_throws, SendSms.printable.
  destruct v as [j|]; [|split; [intros _ ? [=]|reflexivity]].
  split.
  - intros H j' [= <-] Hu. apply unprintable_toString_throws in Hu. congruence.
  - intros H. destruct (SendSms.toString_throws j) eqn:E; [|reflexivity].
    exfalso. apply (H j eq_refl). now apply toString_throws_unprintable.
Qed.

Lemma template_throws_true (v : option json) :
  SendSms.template_throws v = true ->
  exists j, v = Some j /\ SendSms.unprintable j /\ SendSms.truthy_value v = true.
Proof.
  unfold SendSms.template_throws.
  destruct v as [j|]; [|discriminate]. intros H.
  exists j. split; [reflexivity|]. split; [now apply toString_throws_unprintable|].
  destruct j; try discriminate H; reflexivity.
Qed.

Lemma console_fallback_cases (message jobId : option json) :
  (SendSms.console_fallback message jobId = Ok tt /\
   SendSms.printable message /\ SendSms.printable jobId) \/
  (exists e, SendSms.console_fallback message jobId = Err e /\
             ~ (SendSms.printable message /\ SendSms.printable jobId)).
Proof.
  unfold SendSms.console_fallback.
  destruct (SendSms.template_throws message) eqn:Hm.
  { right. eexists. split; [reflexivity|]. intros [H _].
    apply template_throws_false in H. congruence. }
  apply template_throws_false in Hm.
  destruct (SendSms.template_throws jobId) eqn:Hj.
  - destruct (template_throws_true _ Hj) as (j & _ & _ & Ht).
    rewrite Ht. right. eexists. split; [reflexivity|]. intros [_ H].
    apply template_throws_false in H. congruence.
  - apply template_throws_false in Hj. rewrite andb_false_r. left. auto.
Qed.

(** A request is answered with success exactly when its body could be
    read, [phoneNumber] is a non-empty string, [message] is truthy, and
    either a configured provider accepts the message or the console
    fallback can print [message] and [jobId]: neither is an object with a
    property [toString] or an array that holds such a value.  A provider
    that is not configured, not reachable or refuses the message never
    makes the request fail. *)
Theorem sms_success_iff_well_formed (env : SendSms.Env) (req : SendSms.Request) :
  SendSms.method req <> "OPTIONS" ->
  (success_of (fst (SendSms.send_sms env req)) = Some true <->
   exists phone message jobId,
     SendSms.payload req = SendSms.Parsed (Some (JStr phone)) message jobId /\
     phone <> "" /\ SendSms.truthy_value message = true /\
     ((truthy (SendSms.TWILIO_ACCOUNT_SID env) = true /\
       truthy (SendSms.TWILIO_AUTH_TOKEN env) = true /\
       truthy (SendSms.TWILIO_PHONE_NUMBER env) = true /\
       exists reply,
         SendSms.twilio env (render (SendSms.TWILIO_ACCOUNT_SID env))
           (render (SendSms.TWILIO_AUTH_TOKEN env))
           (render (SendSms.TWILIO_PHONE_NUMBER env)) (Some (JStr phone)) message
           = Ok reply /\
         SendSms.tw_ok reply = true) \/
      (truthy (SendSms.VONAGE_API_KEY env) = true /\
       truthy (SendSms.VONAGE_API_SECRET env) = true /\
       exists reply,
         SendSms.vonage env (SendSms.keep SendSms.digit_or_plus phone) message
           (render (SendSms.VONAGE_API_KEY env)) (render (SendSms.VONAGE_API_SECRET env))
           = Ok reply /\
         SendSms.vg_ok reply = true /\ SendSms.vg_status reply = Some (JStr "0")) \/
      ((forall j, message = Some j -> ~ SendSms.unprintable j) /\
       (forall j, jobId = Some j -> ~ SendSms.unprintable j)))).
Proof.
  intros Hm. unfold SendSms.send_sms. rewrite (not_options _ Hm).
  destruct (SendSms.payload req) as [e|phoneNumber message jobId].
  { split; [discriminate|]. intros (? & ? & ? & H & _). discriminate H. }
  destruct (SendSms.request_details phoneNumber) as [s|e] eqn:Hd.
  2:{ split; [discriminate|]. intros (phone & m & j & H & Hne & _).
      injection H as -> _ _. unfold SendSms.request_details in Hd. cbn in Hd.
      apply String.eqb_neq in Hne. rewrite Hne in Hd. discriminate. }
  destruct (SendSms.truthy_value phoneNumber) eqn:Hp; cbn [negb orb].
  2:{ split; [discriminate|]. intros (phone & m & j & H & Hne & _).
      injection H as -> _ _. cbn in Hp.
      apply String.eqb_neq in Hne. rewrite Hne in Hp. discriminate. }
  destruct (SendSms.truthy_value message) eqn:Hmsg; cbn [negb].
  2:{ split; [discriminate|]. intros (phone & m & j & H & _ & Ht & _).
      injection H as _ -> _. congruence. }
  destruct (request_details_Ok _ _ Hd Hp) as (phone & -> & Hne).
  pose proof (via_twilio_accepts env (Some (JStr phone)) message) as HT.
  pose proof (via_vonage_accepts env phone message) as HV.
  unfold SendSms.twilio_accepts in HT. unfold SendSms.vonage_accepts in HV.
  assert (Hiff : success_of
            (fst match SendSms.via_twilio env (Some (JStr phone)) message with
                 | (Some response, requests) => (response, requests)
                 | (None, requests) =>
                     match SendSms.via_vonage env (Some (JStr phone)) message with
                     | (Some response, requests') => (response, requests ++ requests')
                     | (None, requests') =>
                         match SendSms.console_fallback message jobId with
                         | Ok _ => (SendSms.logged_to_console, requests ++ requests')
                         | Err error => (SendSms.internal_error error, requests ++ requests')
                         end
                     end
                 end) = Some true
          <-> (fst (SendSms.via_twilio env (Some (JStr phone)) message) <> None \/
               fst (SendSms.via_vonage env (Some (JStr phone)) message) <> None \/
               (SendSms.printable message /\ SendSms.printable jobId))).
  { destruct (via_twilio_cases env (Some (JStr phone)) message)
      as [(r & q & -> & _ & _ & Hs & _)|(qs & -> & _)]; cbn [fst].
    { split; [intros _; left; discriminate|intros _; exact Hs]. }
    destruct (via_vonage_cases env (Some (JStr phone)) message)
      as [(r & q & -> & _ & _ & Hs & _)|(qs' & -> & _)]; cbn [fst].
    { split; [intros _; right; left; discriminate|intros _; exact Hs]. }
    destruct (console_fallback_cases message jobId) as [(-> & Hpm & Hpj)|(e & -> & Hno)];
      cbn [fst].
    - split; [intros _; right; right; now split|reflexivity].
    - split; [discriminate|]. intros [H|[H|H]]; [now contradiction H ..|].
      now contradiction Hno. }
  rewrite Hiff, HT, HV. unfold SendSms.printable.
  split.
  - intros H. exists phone, message, jobId. repeat split; assumption.
  - intros (phone' & m' & j' & [= <- <- <-] & _ & _ & H). exact H.
Qed.

Lemma sms_success_iff_well_formed_witness :
  success_of (fst (SendSms.send_sms SampleSms.failing
                     (SampleSms.text_to (Some (JStr "+1 (555) 010-9999"))))) = Some true <->
  exists phone message jobId,
    SendSms.payload (SampleSms.text_to (Some (JStr "+1 (555) 010-9999")))
      = SendSms.Parsed (Some (JStr phone)) message jobId /\
    phone <> "" /\ SendSms.truthy_value message = true /\
    ((truthy (SendSms.TWILIO_ACCOUNT_SID SampleSms.failing) = true /\
      truthy (SendSms.TWILIO_AUTH_TOKEN SampleSms.failing) = true /\
      truthy (SendSms.TWILIO_PHONE_NUMBER SampleSms.failing) = true /\
      exists reply,
        SendSms.twilio SampleSms.failing (render (SendSms.TWILIO_ACCOUNT_SID SampleSms.failing))
          (render (SendSms.TWILIO_AUTH_TOKEN SampleSms.failing))
          (render (SendSms.TWILIO_PHONE_NUMBER SampleSms.failing)) (Some (JStr phone)) message
          = Ok reply /\
        SendSms.tw_ok reply = true) \/
     (truthy (SendSms.VONAGE_API_KEY SampleSms.failing) = true /\
      truthy (SendSms.VONAGE_API_SECRET SampleSms.failing) = true /\
      exists reply,
        SendSms.vonage SampleSms.failing (SendSms.keep SendSms.digit_or_plus phone) message
          (render (SendSms.VONAGE_API_KEY SampleSms.failing))
          (render (SendSms.VONAGE_API_SECRET SampleSms.failing))
          = Ok reply /\
        SendSms.vg_ok reply = true /\ SendSms.vg_status reply = Some (JStr "0")) \/
     ((forall j, message = Some j -> ~ SendSms.unprintable j) /\
      (forall j, jobId = Some j -> ~ SendSms.unprintable j))).
Proof.
  apply (sms_success_iff_well_formed SampleSms.failing
           (SampleSms.text_to (Some (JStr "+1 (555) 010-9999")))).
  discriminate.
Defined.

(** With both providers failing, the sample message is logged to the
    console and answered with success; the request whose [jobId] cannot be
    printed is answered with status 500 after both providers were tried. *)
Lemma sms_fallback_samples :
  field "provider" (body_json (fst (SendSms.send_sms SampleSms.failing
                      (SampleSms.text_to (Some (JStr "+1 (555) 010-9999"))))))
    = Some (JStr "console") /\
  status (fst (SendSms.send_sms SampleSms.failing SampleSms.odd_job)) = 500%Z /\
  length (snd (SendSms.send_sms SampleSms.failing SampleSms.odd_job)) = 2%nat /\
  status (fst (SendSms.send_sms SampleSms.failing
                 {| SendSms.method := "POST";
                    SendSms.payload :=
                      SendSms.Parsed (Some (JStr "+15550100"))
                        (Some (JArr [JStr "hi"; JObj [("toString", JNull)]])) None |}))
    = 500%Z.
Proof. repeat split. Qed.

(** A request that is not answered with status 200 is answered with 400 or
    500.  One answered with 400 reached no provider; one answered with 500
    reached a provider only on the way to the console fallback, which then
    could not print [message] or [jobId]: one of them is an object with a
    property [toString] or an array that holds such a value. *)
Theorem sms_refusal_reaches_provider_only_via_fallback (env : SendSms.Env)
    (req : SendSms.Request) :
  status (fst (SendSms.send_sms env req)) <> 200%Z ->
  (status (fst (SendSms.send_sms env req)) = 400%Z \/
   status (fst (SendSms.send_sms env req)) = 500%Z) /\
  (status (fst (SendSms.send_sms env req)) = 400%Z -> snd (SendSms.send_sms env req) = []) /\
  (snd (SendSms.send_sms env req) <> [] ->
   exists phone message jobId,
     SendSms.payload req = SendSms.Parsed (Some (JStr phone)) message jobId /\
     exists j, (message = Some j \/ jobId = Some j) /\ SendSms.unprintable j).
Proof.
  unfold SendSms.send_sms.
  destruct (String.eqb _ _); [intros H; now contradiction H|].
  destruct (SendSms.payload req) as [e|phoneNumber message jobId];
    [intros _; cbn [fst snd]; repeat split;
     [now right|intros H; now contradiction H]|].
  destruct (SendSms.request_details phoneNumber) as [s|e] eqn:Hd;
    [|intros _; cbn [fst snd]; repeat split;
      [now right|intros H; now contradiction H]].
  destruct (negb (SendSms.truthy_value phoneNumber) || _) eqn:Hcheck;
    [intros _; cbn [fst snd]; repeat split;
     [now left|intros H; now contradiction H]|].
  apply orb_false_elim in Hcheck as [Hp _]. apply negb_false_iff in Hp.
  destruct (request_details_Ok _ _ Hd Hp) as (phone & -> & Hne).
  destruct (via_twilio_cases env (Some (JStr phone)) message)
    as [(r & q & -> & _ & Hs & _)|(qs & -> & _)];
    [intros H; now contradiction H|].
  destruct (via_vonage_cases env (Some (JStr phone)) message)
    as [(r & q & -> & _ & Hs & _)|(qs' & -> & _)];
    [intros H; now contradiction H|].
  destruct (console_fallback_cases message jobId) as [(-> & _)|(e & -> & Hno)];
    [intros H; now contradiction H|].
  intros _. cbn [fst snd status SendSms.internal_error json_response].
  split; [now right|]. split; [intros H; discriminate H|]. intros _.
  exists phone, message, jobId. split; [reflexivity|].
  destruct (SendSms.template_throws message) eqn:Hm.
  - destruct (template_throws_true _ Hm) as (j & -> & Hu & _).
    exists j. split; [now left|exact Hu].
  - destruct (SendSms.template_throws jobId) eqn:Hj.
    + destruct (template_throws_true _ Hj) as (j & -> & Hu & _).
      exists j. split; [now right|exact Hu].
    + exfalso. apply Hno. split; now apply template_throws_false.
Qed.

Lemma sms_refusal_reaches_provider_only_via_fallback_witness :
  (status (fst (SendSms.send_sms SampleSms.failing SampleSms.odd_job)) = 400%Z \/
   status (fst (SendSms.send_sms SampleSms.failing SampleSms.odd_job)) = 500%Z) /\
  (status (fst (SendSms.send_sms SampleSms.failing SampleSms.odd_job)) = 400%Z ->
   snd (SendSms.send_sms SampleSms.failing SampleSms.odd_job) = []) /\
  (snd (SendSms.send_sms SampleSms.failing SampleSms.odd_job) <> [] ->
   exists phone message jobId,
     SendSms.payload SampleSms.odd_job = SendSms.Parsed (Some (JStr phone)) message jobId /\
     exists j, (message = Some j \/ jobId = Some j) /\ SendSms.unprintable j).
Proof.
  apply (sms_refusal_reaches_provider_only_via_fallback SampleSms.failing SampleSms.odd_job).
  discriminate.
Defined.

(** The providers are tried in a fixed order and at most once each: the
    requests of one call are none, one to Twilio, one to Vonage, or one to
    Twilio followed by one to Vonage; and the provider named in the
    response is the one addressed last, or the console. *)
Theorem sms_provider_order (env : SendSms.Env) (req : SendSms.Request) :
  exists t v,
    snd (SendSms.send_sms env req) = t ++ v /\
    (length t <= 1)%nat /\ (length v <= 1)%nat /\
    forallb SendSms.is_twilio t = true /\ forallb SendSms.is_vonage v = true /\
    (field "provider" (body_json (fst (SendSms.send_sms env req))) = Some (JStr "twilio")
       -> length t = 1%nat /\ v = []) /\
    (field "provider" (body_json (fst (SendSms.send_sms env req))) = Some (JStr "vonage")
       -> length v = 1%nat).
Proof.
  unfold SendSms.send_sms.
  destruct (String.eqb _ _);
    [exists [], []; cbn; repeat split; try lia; discriminate|].
  destruct (SendSms.payload req) as [e|phoneNumber message jobId];
    [exists [], []; cbn; repeat split; try lia; discriminate|].
  destruct (SendSms.request_details phoneNumber) as [s|e];
    [|exists [], []; cbn; repeat split; try lia; discriminate].
  destruct (_ || _); [exists [], []; cbn; repeat split; try lia; discriminate|].
  destruct (via_twilio_cases env phoneNumber message)
    as [(r & q & -> & Hq & _ & _ & Hprov)|(qs & -> & Hlen & Hall)].
  { exists [q], []. cbn [fst snd app length forallb]. rewrite Hq, Hprov.
    repeat split; try lia; discriminate. }
  destruct (via_vonage_cases env phoneNumber message)
    as [(r & q & -> & Hq & _ & _ & Hprov)|(qs' & -> & Hlen' & Hall')].
  - exists qs, [q]. cbn [fst snd length forallb]. rewrite Hq, Hprov.
    repeat split; try lia; try assumption; discriminate.
  - exists qs, qs'.
    destruct (SendSms.console_fallback message jobId); cbn [fst snd];
      repeat split; try lia; try assumption; discriminate.
Qed.

Lemma keep_all (f : Ascii.ascii -> bool) (s : string) :
  forallb f (String.list_ascii_of_string (SendSms.keep f s)) = true.
Proof.
  induction s as [|c s IH]; [reflexivity|]. cbn [SendSms.keep].
  destruct (f c) eqn:E; [|exact IH]. cbn. now rewrite E.
Qed.

Lemma keep_fixed (f : Ascii.ascii -> bool) (s : string) :
  forallb f (String.list_ascii_of_string s) = true -> SendSms.keep f s = s.
Proof.
  induction s as [|c s IH]; [reflexivity|]. cbn.
  destruct (f c); [|discriminate]. cbn. intros H. now rewrite IH.
Qed.

(** Twilio is given the phone number as received; Vonage is given it
    reduced to its digits and plus signs, in their order, so a number that
    consists of such characters only is passed unchanged. *)
Theorem sms_numbers_passed (env : SendSms.Env) (req : SendSms.Request)
    (phoneNumber message jobId : option json) :
  SendSms.payload req = SendSms.Parsed phoneNumber message jobId ->
  (forall sid token from to body,
     In (SendSms.TwilioMessage sid token from to body) (snd (SendSms.send_sms env req)) ->
     to = phoneNumber /\ body = message) /\
  (forall to text key secret,
     In (SendSms.VonageMessage to text key secret) (snd (SendSms.send_sms env req)) ->
     text = message /\
     forallb SendSms.digit_or_plus (String.list_ascii_of_string to) = true /\
     exists phone, phoneNumber = Some (JStr phone) /\
       to = SendSms.keep SendSms.digit_or_plus phone /\
       (forallb SendSms.digit_or_plus (String.list_ascii_of_string phone) = true -> to = phone)).
Proof.
  intros Hp.
  assert (HT : forall sid token from to body,
             In (SendSms.TwilioMessage sid token from to body)
                (snd (SendSms.via_twilio env phoneNumber message)) ->
             to = phoneNumber /\ body = message).
  { unfold SendSms.via_twilio. intros sid token from to body.
    destruct (_ && _ && _); [|intros []]. cbv zeta.
    destruct (SendSms.twilio env _ _ _ _ _) as [reply|e];
      [destruct (SendSms.tw_ok reply)|];
      (intros [H|[]]; injection H as _ _ _ <- <-; now split). }
  assert (HT' : forall to text key secret,
             ~ In (SendSms.VonageMessage to text key secret)
                  (snd (SendSms.via_twilio env phoneNumber message))).
  { unfold SendSms.via_twilio. intros to text key secret.
    destruct (_ && _ && _); [|intros []]. cbv zeta.
    destruct (SendSms.twilio env _ _ _ _ _) as [reply|e];
      [destruct (SendSms.tw_ok reply)|];
      (intros [H|[]]; discriminate H). }
  assert (HV : forall to text key secret,
             In (SendSms.VonageMessage to text key secret)
                (snd (SendSms.via_vonage env phoneNumber message)) ->
             text = message /\
             exists phone, phoneNumber = Some (JStr phone) /\
               to = SendSms.keep SendSms.digit_or_plus phone).
  { unfold SendSms.via_vonage. intros to text key secret.
    destruct (_ && _); [|intros []]. cbv zeta.
    destruct phoneNumber as [[| | |phone| |]|]; cbn [SendSms.clean_phone_number];
      try (intros []).
    destruct (SendSms.vonage env _ _ _ _) as [reply|e];
      [destruct (_ && _)|];
      (intros [H|[]]; injection H as <- <- _ _; split; [reflexivity|now exists phone]). }
  assert (HV' : forall sid token from to body,
             ~ In (SendSms.TwilioMessage sid token from to body)
                  (snd (SendSms.via_vonage env phoneNumber message))).
  { unfold SendSms.via_vonage. intros sid token from to body.
    destruct (_ && _); [|intros []]. cbv zeta.
    destruct (SendSms.clean_phone_number phoneNumber); [|intros []].
    destruct (SendSms.vonage env _ _ _ _) as [reply|e];
      [destruct (_ && _)|];
      (intros [H|[]]; discriminate H). }
  assert (Hlog : forall f, In f (snd (SendSms.send_sms env req)) ->
             In f (snd (SendSms.via_twilio env phoneNumber message)) \/
             In f (snd (SendSms.via_vonage env phoneNumber message))).
  { intros f. unfold SendSms.send_sms. rewrite Hp.
    destruct (String.eqb _ _); [intros []|].
    destruct (SendSms.request_details phoneNumber); [|intros []].
    destruct (_ || _); [intros []|].
    destruct (SendSms.via_twilio env phoneNumber message) as [[r|] qs];
      [now left|].
    destruct (SendSms.via_vonage env phoneNumber message) as [[r|] qs'];
      [|destruct (SendSms.console_fallback message jobId)];
      cbn [snd]; intros H; apply in_app_or in H; exact H. }
  split.
  - intros sid token from to body H. apply Hlog in H as [H|H].
    + exact (HT _ _ _ _ _ H).
    + destruct (HV' _ _ _ _ _ H).
  - intros to text key secret H. apply Hlog in H as [H|H].
    + destruct (HT' _ _ _ _ H).
    + destruct (HV _ _ _ _ H) as (-> & phone & -> & ->).
      split; [reflexivity|]. split; [apply keep_all|].
      exists phone. repeat split. intros Hc. now apply keep_fixed.
Qed.

Lemma sms_numbers_passed_witness :
  (forall sid token from to body,
     In (SendSms.TwilioMessage sid token from to body)
        (snd (SendSms.send_sms SampleSms.failing
                (SampleSms.text_to (Some (JStr "+1 (555) 010-9999"))))) ->
     to = Some (JStr "+1 (555) 010-9999") /\ body = Some (JStr "Your link is ready")) /\
  (forall to text key secret,
     In (SendSms.VonageMessage to text key secret)
        (snd (SendSms.send_sms SampleSms.failing
                (SampleSms.text_to (Some (JStr "+1 (555) 010-9999"))))) ->
     text = Some (JStr "Your link is ready") /\
     forallb SendSms.digit_or_plus (String.list_ascii_of_string to) = true /\
     exists phone, Some (JStr "+1 (555) 010-9999") = Some (JStr phone) /\
       to = SendSms.keep SendSms.digit_or_plus phone /\
       (forallb SendSms.digit_or_plus (String.list_ascii_of_string phone) = true -> to = phone)).
Proof.
  apply (sms_numbers_passed SampleSms.failing
           (SampleSms.text_to (Some (JStr "+1 (555) 010-9999")))
           (Some (JStr "+1 (555) 010-9999")) (Some (JStr "Your link is ready"))
           (Some (JStr "job-1"))).
  reflexivity.
Defined.

(** *** The payment-link message *)

Lemma toFixed2_cents (c : Z) :
  (0 <= c < 10 ^ 10)%Z ->
  toFixed2 (literal (c # 100))
  = pretty (c / 100)%Z +:+ "." +:+ two_digits (c mod 100)%Z.
Proof.
  intros [Hc0 Hc1].
  assert (Hc : (c = 0 \/ 0 < c)%Z) by lia. destruct Hc as [->|Hc]; [reflexivity|].
  assert (HC0 : 1 <= inject_Z c) by (apply (inject_Z_bound 1 c); lia).
  assert (HC1 : inject_Z c <= 10000000000)
    by (apply (inject_Z_bound c 10000000000);
        change (10 ^ 10)%Z with 10000000000%Z in Hc1; lia).
  assert (Hx : c # 100 == inject_Z c * (1 # 100)).
  { unfold Qeq, Qmult, inject_Z; cbn. lia. }
  assert (Hpos : 0 < c # 100) by (rewrite Hx; lra).
  destruct (binary64_bounds (c # 100) Hpos) as [L1 U1]. unfold eps in L1, U1.
  fold (literal (c # 100)) in L1, U1.
  remember (literal (c # 100)) as amount eqn:Ea. clear Ea.
  assert (Ha : 0 < amount /\
               inject_Z c * (1 # 100) * (1 - (1 # 9007199254740992)) <= amount /\
               amount <= inject_Z c * (1 # 100) * (1 + (1 # 9007199254740992))).
  { revert Hx Hpos L1 U1. generalize (c # 100). intros X Hx Hpos L1 U1. lra. }
  clear Hx Hpos L1 U1. destruct Ha as (Ha & L1 & U1).
  unfold toFixed2.
  assert (Hs : Qltb amount 0 = false) by (apply Qltb_false; lra).
  rewrite Hs. cbv zeta.
  assert (Hn : Qfloor (amount * 100 + (1 # 2)) = c).
  { apply Qfloor_unique; rewrite ?inject_Z_plus; change (inject_Z 1) with 1; lra. }
  rewrite Hn. reflexivity.
Qed.

(** The amount quoted in the payment-link message is the job's price to
    the cent: for a price of [c] cents the text shows [c / 100] dollars and
    [c mod 100] cents, with exactly two decimals. *)
Theorem sms_quotes_price_to_the_cent (paymentUrl jobTitle clientName : string) (c : Z) :
  (0 <= c < 10 ^ 10)%Z ->
  SendSms.formatPaymentLinkSMS paymentUrl jobTitle clientName (literal (c # 100))
  = "Hi " +:+ clientName +:+ "! Your payment link for " +:+ String SendSms.quote jobTitle
    +:+ String SendSms.quote " ($"
    +:+ (pretty (c / 100)%Z +:+ "." +:+ two_digits (c mod 100)%Z)
    +:+ ") is ready: " +:+ paymentUrl.
Proof.
  intros Hc. unfold SendSms.formatPaymentLinkSMS.
  now rewrite (toFixed2_cents c Hc).
Qed.

Lemma sms_quotes_price_to_the_cent_witness :
  SendSms.formatPaymentLinkSMS "https://pay.example/p" "Lawn care" "Ada"
    (literal (4905 # 100))
  = "Hi Ada! Your payment link for " +:+ String SendSms.quote "Lawn care"
    +:+ String SendSms.quote " ($49.05) is ready: https://pay.example/p".
Proof.
  apply (sms_quotes_price_to_the_cent "https://pay.example/p" "Lawn care" "Ada" 4905).
  lia.
Defined.
